(** * Employee attendance tracker: a shallow embedding of the Django app

    The models of [attendance/models.py], the admin actions of
    [attendance/admin.py] and the request handlers of [attendance/views.py]
    are embedded as pure functions over an explicit database state.  A
    table is the list of its rows in insertion order; a handler takes the
    database and returns the new database with its response; an exception
    is a value of [result]. *)

From Stdlib Require Import ZArith List String Ascii Bool Lia.
From Stdlib Require Import QArith Sorting.Sorted DecimalString.
From Stdlib Require Import Sorting.Permutation.
Import ListNotations.
Open Scope string_scope.
Open Scope Z_scope.

(** ** Time *)

(** A [datetime] is an instant: microseconds since the Unix epoch.  A
    [date] is a day number: days since 1970-01-01 in the proleptic
    Gregorian calendar. *)
Definition datetime := Z.
Definition date := Z.
Definition timedelta := Z.

Definition us_per_second : Z := 1000000.
Definition us_per_day : Z := 86400 * us_per_second.

(** [calendar.isleap] *)
Definition isleap (year : Z) : bool :=
  (year mod 4 =? 0) && (negb (year mod 100 =? 0) || (year mod 400 =? 0)).

(** [calendar.monthrange(year, month)[1]]; [None] stands for
    [IllegalMonthError]. *)
Definition monthrange_days (year month : Z) : option Z :=
  if (month <? 1) || (12 <? month) then None
  else if month =? 2 then Some (if isleap year then 29 else 28)
  else if (month =? 4) || (month =? 6) || (month =? 9) || (month =? 11)
       then Some 30
  else Some 31.

(** Day number of the civil date [y]-[m]-[d] (the value a [DateField]
    holds for it). *)
Definition days_from_civil (y m d : Z) : date :=
  let y' := if m <=? 2 then y - 1 else y in
  let era := y' / 400 in
  let yoe := y' - era * 400 in
  let mp := (m + 9) mod 12 in
  let doy := (153 * mp + 2) / 5 + d - 1 in
  let doe := yoe * 365 + yoe / 4 - yoe / 100 + doy in
  era * 146097 + doe - 719468.

(** The instant [y]-[m]-[d] [hh]:[mm]:[ss] UTC. *)
Definition utc_datetime (y m d hh mm ss : Z) : datetime :=
  (days_from_civil y m d * 86400 + hh * 3600 + mm * 60 + ss) * us_per_second.

(** [datetime.min] and [datetime.max], read as UTC. *)
Definition datetime_min : datetime := utc_datetime 1 1 1 0 0 0.
Definition datetime_max : datetime :=
  utc_datetime 9999 12 31 23 59 59 + 999999.

(** [TIME_ZONE = "Asia/Kolkata"] in settings.py: Indian Standard Time,
    UTC+05:30. *)
Definition tz_offset_seconds : Z := 19800.

(** The zone's offset from UTC, in seconds, at the instant [t], as the
    time zone database gives it for Asia/Kolkata: local mean time until
    1854, Howrah and Madras time until 1906, UTC+05:30 since, with two
    periods of UTC+06:30 between 1941 and 1945. *)
Definition utcoffset (t : datetime) : Z :=
  if t <? utc_datetime 1854 6 27 18 6 32 then 21208
  else if t <? utc_datetime 1869 12 31 18 6 40 then 21200
  else if t <? utc_datetime 1905 12 31 18 38 50 then 19270
  else if t <? utc_datetime 1941 9 30 18 30 0 then tz_offset_seconds
  else if t <? utc_datetime 1942 5 14 17 30 0 then 23400
  else if t <? utc_datetime 1942 8 31 18 30 0 then tz_offset_seconds
  else if t <? utc_datetime 1945 10 14 17 30 0 then 23400
  else tz_offset_seconds.

(** The wall clock of the zone at the instant [t], on the scale of
    [datetime]. *)
Definition wall_clock (t : datetime) : Z := t + utcoffset t * us_per_second.

(** The calendar date of the zone at the instant [t]. *)
Definition local_date (t : datetime) : date := wall_clock t / us_per_day.

(** The [tzinfo] of an aware datetime, as far as [astimezone] tells them
    apart: the current time zone itself (the one [zoneinfo] object of the
    zone), which a form attaches to a value submitted without an offset,
    or another one (UTC for the server clock, a fixed offset for a value
    submitted with one). *)
Inductive tzinfo : Type := CurrentTimezone | OtherTimezone.

(** An aware datetime: its instant and its [tzinfo]. *)
Record aware_datetime : Type := mkAware {
  instant : datetime;
  tz : tzinfo
}.

(** The aware datetime [y]-[m]-[d] [hh]:[mm]:[ss] of Indian Standard
    Time, the zone's offset since 15 October 1945. *)
Definition local_datetime (y m d hh mm ss : Z) : datetime :=
  (days_from_civil y m d * 86400 + hh * 3600 + mm * 60 + ss
   - tz_offset_seconds) * us_per_second.

(** [n / d] on two positive ints gives a binary float: the quotient
    rounded to the nearest value with a significand of 53 bits, ties to
    even.  The float is the pair of its significand [m] and exponent
    [e], standing for [m * 2 ** e].  (A quotient of microseconds by
    10**6 is far from the ends of the exponent range.) *)
Definition round_half_even (n d : Z) : Z :=
  let q := n / d in
  let r := n mod d in
  if 2 * r <? d then q
  else if d <? 2 * r then q + 1
  else if Z.even q then q else q + 1.

(** Numerator and denominator of [n / (d * 2 ** e)]. *)
Definition scaled (n d e : Z) : Z * Z :=
  if 0 <=? e then (n, d * 2 ^ e) else (n * 2 ^ (- e), d).

Definition float_truediv (n d : Z) : Z * Z :=
  let e0 := Z.log2 n - Z.log2 d - 53 in
  let e := if fst (scaled n d e0) / snd (scaled n d e0) <? 2 ^ 53
           then e0 else e0 + 1 in
  (round_half_even (fst (scaled n d e)) (snd (scaled n d e)), e).

(** [int(x)] of a float that is not negative. *)
Definition int_of_float (x : Z * Z) : Z :=
  if 0 <=? snd x then fst x * 2 ^ snd x else fst x / 2 ^ (- snd x).

(** [int(delta.total_seconds())]: [total_seconds] divides the microsecond
    count by 10**6, which gives a float, and [int] truncates it toward
    zero. *)
Definition int_total_seconds (delta : timedelta) : Z :=
  if delta =? 0 then 0
  else if 0 <? delta then int_of_float (float_truediv delta us_per_second)
  else - int_of_float (float_truediv (- delta) us_per_second).

(** [str(n)] of a Python int. *)
Definition str_int (n : Z) : string :=
  NilZero.string_of_int (Z.to_int n).

(** [str.strip()].  A string is held as its UTF-8 bytes: [chars] cuts it
    into characters and [is_space] is [str.isspace] on one character
    (U+0009 to U+000D, U+001C to U+0020, U+0085, U+00A0, U+1680, U+2000
    to U+200A, U+2028, U+2029, U+202F, U+205F and U+3000). *)
Definition char_width (c : ascii) : nat :=
  let b := N_of_ascii c in
  if (b <? 192)%N then 1%nat
  else if (b <? 224)%N then 2%nat
  else if (b <? 240)%N then 3%nat
  else 4%nat.

Fixpoint chars (s : string) : list string :=
  match s with
  | EmptyString => []
  | String c1 s1 =>
      match char_width c1, s1 with
      | 2%nat, String c2 s2 =>
          String c1 (String c2 EmptyString) :: chars s2
      | 3%nat, String c2 (String c3 s3) =>
          String c1 (String c2 (String c3 EmptyString)) :: chars s3
      | 4%nat, String c2 (String c3 (String c4 s4)) =>
          String c1 (String c2 (String c3 (String c4 EmptyString)))
          :: chars s4
      | _, _ => String c1 EmptyString :: chars s1
      end
  end.

Definition is_space (ch : string) : bool :=
  match map N_of_ascii (list_ascii_of_string ch) with
  | [b] => ((9 <=? b) && (b <=? 13) || (28 <=? b) && (b <=? 32))%N
  | [194; b]%N => ((b =? 133) || (b =? 160))%N
  | [225; 154; 128]%N => true
  | [226; 128; b]%N =>
      ((128 <=? b) && (b <=? 138) || (b =? 168) || (b =? 169)
       || (b =? 175))%N
  | [226; 129; 159]%N => true
  | [227; 128; 128]%N => true
  | _ => false
  end.

Fixpoint drop_spaces (cs : list string) : list string :=
  match cs with
  | [] => []
  | c :: cs' => if is_space c then drop_spaces cs' else cs
  end.

Definition strip (s : string) : string :=
  String.concat EmptyString
    (rev (drop_spaces (rev (drop_spaces (chars s))))).

(** ** Exceptions and results *)

Inductive exn : Type :=
| IntegrityError (constraint : string)
| DoesNotExist
| MultipleObjectsReturned
| ValidationError
| IllegalMonthError
| ValueError
| ZeroDivisionError
| OverflowError.

Inductive result (A : Type) : Type :=
| Ok (a : A)
| Raise (e : exn).
Arguments Ok {A} a.
Arguments Raise {A} e.

(** A value of [datetime.min .. datetime.max] in UTC. *)
Definition in_utc_range (t : datetime) : bool :=
  (datetime_min <=? t) && (t <=? datetime_max).

(** [timezone.localtime(value).date()].  [astimezone] hands back a value
    whose [tzinfo] is the current time zone as it is; any other value is
    converted to UTC and from UTC to the zone, and either step raises
    [OverflowError] when its result is outside
    [datetime.min .. datetime.max]. *)
Definition localtime_date (value : aware_datetime) : result date :=
  match tz value with
  | CurrentTimezone => Ok (local_date (instant value))
  | OtherTimezone =>
      if negb (in_utc_range (instant value))
         || (datetime_max <? wall_clock (instant value))
      then Raise OverflowError
      else Ok (local_date (instant value))
  end.

(** ** Models *)

(** [django.contrib.auth.models.User], the fields this application reads
    or writes.  [password] is the credential as [create_user] stores it. *)
Record User : Type := mkUser {
  user_id : Z;
  username : string;
  password : string;
  first_name : string;
  last_name : string;
  is_staff : bool;
  is_superuser : bool;
  is_active : bool
}.

Record Employee : Type := mkEmployee {
  emp_pk : Z;
  emp_user : Z;               (* OneToOneField(User) *)
  employee_id : string;       (* unique=True *)
  department : string;
  designation : string;
  date_joined : date
}.

Record Attendance : Type := mkAttendance {
  att_pk : Z;
  att_employee : Z;           (* ForeignKey(Employee) *)
  att_date : date;
  clock_in : option datetime;
  clock_out : option datetime;
  worked_seconds : Z
}.

Inductive LeaveStatus : Type := PENDING | APPROVED | REJECTED.

Record Leave : Type := mkLeave {
  leave_pk : Z;
  leave_employee : Z;         (* ForeignKey(Employee) *)
  start_date : date;
  end_date : date;
  reason : string;
  status : LeaveStatus;       (* default="PENDING" *)
  applied_at : datetime;      (* auto_now_add=True *)
  approved_by : option Z;     (* ForeignKey(User, null=True) *)
  approved_at : option datetime
}.

Record DB : Type := mkDB {
  users : list User;
  employees : list Employee;
  attendances : list Attendance;
  leaves : list Leave
}.

Definition empty_db : DB := mkDB [] [] [] [].

Definition set_users (db : DB) (us : list User) : DB :=
  mkDB us (employees db) (attendances db) (leaves db).
Definition set_employees (db : DB) (es : list Employee) : DB :=
  mkDB (users db) es (attendances db) (leaves db).
Definition set_attendances (db : DB) (rs : list Attendance) : DB :=
  mkDB (users db) (employees db) rs (leaves db).
Definition set_leaves (db : DB) (ls : list Leave) : DB :=
  mkDB (users db) (employees db) (attendances db) ls.

(** A fresh primary key: one past the largest key of the table. *)
Definition next_pk {A : Type} (pk : A -> Z) (rows : list A) : Z :=
  1 + fold_right (fun r acc => Z.max (pk r) acc) 0 rows.

(** [UPDATE ... WHERE pk = k]: the row with that key is replaced. *)
Definition update_row {A : Type} (pk : A -> Z) (r : A) (rows : list A)
  : list A :=
  map (fun x => if pk x =? pk r then r else x) rows.

(** ** The database monad: state threaded through, exceptions as values *)

Definition M (A : Type) : Type := DB -> DB * result A.

Definition ret {A : Type} (a : A) : M A := fun db => (db, Ok a).
Definition raise {A : Type} (e : exn) : M A := fun db => (db, Raise e).
Definition bind {A B : Type} (m : M A) (k : A -> M B) : M B :=
  fun db =>
    match m db with
    | (db', Ok a) => k a db'
    | (db', Raise e) => (db', Raise e)
    end.

Notation "x <- m ;; k" := (bind m (fun x => k))
  (at level 61, m at next level, right associativity).

(** [with transaction.atomic(): body]: when the body raises, every write
    it made is rolled back and the exception propagates. *)
Definition atomic {A : Type} (body : M A) : M A :=
  fun db =>
    match body db with
    | (db', Ok a) => (db', Ok a)
    | (_, Raise e) => (db, Raise e)
    end.

(** ** Attendance.save (models.py) *)

(** The part of [Attendance.save] before [super().save()]: recompute
    [worked_seconds] when both timestamps are present. *)
Definition compute_worked (a : Attendance) : Attendance :=
  match clock_in a, clock_out a with
  | Some cin, Some cout =>
      let delta := cout - cin in
      mkAttendance (att_pk a) (att_employee a) (att_date a)
                   (clock_in a) (clock_out a)
                   (Z.max 0 (int_total_seconds delta))
  | _, _ => a
  end.

(** What [DateTimeField] hands to the database: the value converted to
    UTC, which raises [OverflowError] for an instant outside
    [datetime.min .. datetime.max]. *)
Definition adaptable (t : option datetime) : bool :=
  match t with
  | Some t => in_utc_range t
  | None => true
  end.

(** [Attendance.save]: the derived field is recomputed, then
    [super().save()] writes the row: an [UPDATE] of the row with the
    object's primary key and, when there is no such row, an [INSERT].
    The values are prepared before any statement runs; the table's
    [CHECK] on [worked_seconds] (a [PositiveIntegerField]), its
    [unique_together] and its foreign key are the database's. *)
Definition Attendance_save (a : Attendance) : M Attendance :=
  fun db =>
    let a' := compute_worked a in
    let others :=
      filter (fun r => negb (att_pk r =? att_pk a')) (attendances db) in
    if negb (adaptable (clock_in a') && adaptable (clock_out a'))
    then (db, Raise OverflowError)
    else if worked_seconds a' <? 0
    then (db, Raise (IntegrityError "attendance_attendance.worked_seconds"))
    else if existsb (fun r => (att_employee r =? att_employee a')
                              && (att_date r =? att_date a')) others
    then (db, Raise (IntegrityError
                       "attendance_attendance.employee_id, date"))
    else if negb (existsb (fun e => emp_pk e =? att_employee a')
                          (employees db))
    then (db, Raise (IntegrityError "attendance_attendance.employee_id"))
    else if existsb (fun r => att_pk r =? att_pk a') (attendances db)
    then (set_attendances db (update_row att_pk a' (attendances db)), Ok a')
    else (set_attendances db (attendances db ++ [a']), Ok a').

(** ** Queries *)

(** [Model.objects.get(...)]: the single row matching the lookup. *)
Definition get_unique {A : Type} (p : A -> bool) (rows : list A) : result A :=
  match filter p rows with
  | [] => Raise DoesNotExist
  | [r] => Ok r
  | _ :: _ :: _ => Raise MultipleObjectsReturned
  end.

Definition by_employee_id (eid : string) (e : Employee) : bool :=
  (employee_id e =? eid)%string.

Definition by_user_pk (k : Z) (u : User) : bool := user_id u =? k.

(** The lookup [employee=emp, date=date] of [unique_together]. *)
Definition att_key (emp : Z) (d : date) (a : Attendance) : bool :=
  (att_employee a =? emp) && (att_date a =? d).

(** [user.employee]: the reverse side of the OneToOneField. *)
Definition user_employee (db : DB) (u : User) : result Employee :=
  get_unique (fun e => emp_user e =? user_id u) (employees db).

(** ** Requests *)

Inductive http_method : Type := GET | POST.

(** What a handler reads of the request: the method, the user id of the
    session ([None] when there is none), the submitted data and the
    server clock. *)
Record request (P : Type) : Type := mkRequest {
  req_method : http_method;
  req_session : option Z;
  req_data : P;
  req_now : datetime
}.
Arguments mkRequest {P}.
Arguments req_method {P}.
Arguments req_session {P}.
Arguments req_data {P}.
Arguments req_now {P}.

(** [request.user]: the session's user when it exists and is active,
    otherwise anonymous. *)
Definition request_user {P : Type} (db : DB) (req : request P)
  : option User :=
  match req_session req with
  | None => None
  | Some k =>
      match find (by_user_pk k) (users db) with
      | Some u => if is_active u then Some u else None
      | None => None
      end
  end.

(** ** Registration (views.py, register_employee) *)

(** [form.cleaned_data] of [EmployeeRegisterForm]. *)
Record RegisterData : Type := mkRegisterData {
  reg_username : string;
  reg_first_name : string;
  reg_last_name : string;
  reg_password : string;
  reg_employee_id : string;
  reg_department : string;
  reg_designation : string;
  reg_is_admin : bool
}.

(** [User.objects.create_user]: new accounts are active and hold no
    privilege; the user name is unique. *)
Definition create_user (uname pw first last : string) : M User :=
  fun db =>
    if (uname =? "")%string then (db, Raise ValueError)
    else if existsb (fun u => (username u =? uname)%string) (users db)
    then (db, Raise (IntegrityError "auth_user.username"))
    else
      let u := mkUser (next_pk user_id (users db)) uname pw first last
                      false false true in
      (set_users db (users db ++ [u]), Ok u).

(** [user.save()] on a stored user. *)
Definition User_save (u : User) : M unit :=
  fun db => (set_users db (update_row user_id u (users db)), Ok tt).

Definition with_admin_flags (u : User) : User :=
  mkUser (user_id u) (username u) (password u) (first_name u) (last_name u)
         true true (is_active u).

Definition with_is_active (b : bool) (u : User) : User :=
  mkUser (user_id u) (username u) (password u) (first_name u) (last_name u)
         (is_staff u) (is_superuser u) b.

(** [Employee.objects.create]: [employee_id] is unique and so is the
    linked user; [date_joined] defaults to [timezone.localdate], the
    local date of the server clock (a time of the present, far from the
    ends of the calendar). *)
Definition Employee_create (now : datetime) (user : User)
    (eid dept desig : string) : M Employee :=
  fun db =>
    if existsb (by_employee_id eid) (employees db)
    then (db, Raise (IntegrityError "attendance_employee.employee_id"))
    else if existsb (fun e => emp_user e =? user_id user) (employees db)
    then (db, Raise (IntegrityError "attendance_employee.user_id"))
    else
      let e := mkEmployee (next_pk emp_pk (employees db)) (user_id user)
                          eid dept desig (local_date now) in
      (set_employees db (employees db ++ [e]), Ok e).

(** The body of the [with transaction.atomic()] block. *)
Definition register_body (now : datetime) (data : RegisterData)
  : M (Employee * User) :=
  user <- create_user (reg_username data) (reg_password data)
                      (reg_first_name data) (reg_last_name data) ;;
  user <- (if reg_is_admin data
           then (let user' := with_admin_flags user in
                 _ <- User_save user' ;; ret user')
           else ret user) ;;
  emp <- Employee_create now user (reg_employee_id data)
                         (reg_department data) (reg_designation data) ;;
  ret (emp, user).

Inductive register_outcome : Type :=
| RegisterShowForm                       (* GET: empty form *)
| RegisterInvalid                        (* "Please correct the errors below." *)
| RegisterFailed (e : exn)               (* "Could not register user: ..." *)
| Registered (emp : Employee) (user : User).  (* redirect to login *)

(** [register_employee]; [req_data] is [None] when [form.is_valid()] is
    false.  The handler has no decorator: it never looks at the session. *)
Definition register_employee (req : request (option RegisterData))
  : DB -> DB * register_outcome :=
  fun db =>
    match req_method req with
    | POST =>
        match req_data req with
        | Some data =>
            match atomic (register_body (req_now req) data) db with
            | (db', Ok (emp, user)) => (db', Registered emp user)
            | (db', Raise e) => (db', RegisterFailed e)
            end
        | None => (db, RegisterInvalid)
        end
    | GET => (db, RegisterShowForm)
    end.

(** ** Marking attendance (views.py, mark_attendance) *)

Inductive mark_action : Type := IN | OUT.

(** [form.cleaned_data] of [AttendanceMarkForm]. *)
Record MarkData : Type := mkMarkData {
  mark_employee_id : string;
  mark_action_of : mark_action;
  mark_timestamp : option aware_datetime
}.

(** [Attendance.objects.get_or_create(employee=emp, date=date)] *)
Definition Attendance_get_or_create (emp : Z) (d : date)
  : M (Attendance * bool) :=
  fun db =>
    match get_unique (att_key emp d) (attendances db) with
    | Ok a => (db, Ok (a, false))
    | Raise DoesNotExist =>
        let a := mkAttendance (next_pk att_pk (attendances db)) emp d
                              None None 0 in
        (set_attendances db (attendances db ++ [a]), Ok (a, true))
    | Raise e => (db, Raise e)
    end.

Definition with_clock_in (t : datetime) (a : Attendance) : Attendance :=
  mkAttendance (att_pk a) (att_employee a) (att_date a)
               (Some t) (clock_out a) (worked_seconds a).

Definition with_clock_out (t : datetime) (a : Attendance) : Attendance :=
  mkAttendance (att_pk a) (att_employee a) (att_date a)
               (clock_in a) (Some t) (worked_seconds a).

(** The JSON body of the 200 response. *)
Record MarkSnapshot : Type := mkMarkSnapshot {
  snap_employee : string;
  snap_date : date;
  snap_clock_in : option datetime;
  snap_clock_out : option datetime;
  snap_worked_seconds : Z
}.

Inductive mark_outcome : Type :=
| Mark405                                (* require_POST *)
| Mark400                                (* form errors *)
| Mark404                                (* "Employee not found" *)
| MarkRaised (e : exn)                   (* uncaught exception *)
| Mark200 (s : MarkSnapshot).

(** [form.cleaned_data.get("timestamp") or timezone.now()]; the server
    clock is an aware datetime in UTC. *)
Definition timestamp_or_now (data : MarkData) (now : datetime)
  : aware_datetime :=
  match mark_timestamp data with
  | Some t => t
  | None => mkAware now OtherTimezone
  end.

(** [mark_attendance].  The local date is computed outside any [try]:
    an [OverflowError] there, like one of the later [save], is not
    caught.  Each statement commits on its own, so a record created by
    [get_or_create] stays when [save] raises. *)
Definition mark_attendance (req : request (option MarkData))
  : DB -> DB * mark_outcome :=
  fun db =>
    match req_method req with
    | GET => (db, Mark405)
    | POST =>
        match req_data req with
        | None => (db, Mark400)
        | Some data =>
            let timestamp := timestamp_or_now data (req_now req) in
            match get_unique (by_employee_id (mark_employee_id data))
                             (employees db) with
            | Raise DoesNotExist => (db, Mark404)
            | Raise e => (db, MarkRaised e)
            | Ok emp =>
                match localtime_date timestamp with
                | Raise e => (db, MarkRaised e)
                | Ok d =>
                    let body :=
                      ac <- Attendance_get_or_create (emp_pk emp) d ;;
                      Attendance_save
                        (match mark_action_of data with
                         | IN => with_clock_in (instant timestamp) (fst ac)
                         | OUT => with_clock_out (instant timestamp) (fst ac)
                         end) in
                    match body db with
                    | (db', Ok a) =>
                        (db', Mark200 (mkMarkSnapshot (employee_id emp)
                                         (att_date a) (clock_in a)
                                         (clock_out a) (worked_seconds a)))
                    | (db', Raise e) => (db', MarkRaised e)
                    end
                end
            end
        end
    end.

(** ** Leave (views.py, apply_leave; admin.py, LeaveAdmin) *)

(** [request.POST] as [LeaveApplyForm] meets it: the three fields of
    [Meta.fields] ([None] for a date that is missing or malformed, the
    reason as submitted) and whatever else the client submitted. *)
Record LeavePost : Type := mkLeavePost {
  post_start_date : option date;
  post_end_date : option date;
  post_reason : string;
  post_other : list (string * string)
}.

(** A string with a NUL character, which a [CharField] refuses. *)
Fixpoint has_nul (s : string) : bool :=
  match s with
  | EmptyString => false
  | String c s' => (N_of_ascii c =? 0)%N || has_nul s'
  end.

(** [form.is_valid()] followed by [form.save(commit=False)]: an unsaved
    [Leave] built from the form's cleaned fields, every other field at
    its model default.  Both dates are required; the reason is optional
    ([blank=True]) and is cleaned by a [CharField], which strips it.  The
    employee is not set yet; the primary key and [applied_at] are
    assigned on save. *)
Definition LeaveApplyForm_instance (p : LeavePost)
  : option (Z -> Z -> datetime -> Leave) :=
  match post_start_date p, post_end_date p with
  | Some s, Some e =>
      if has_nul (post_reason p) then None
      else
        Some (fun pk emp now =>
                mkLeave pk emp s e (strip (post_reason p)) PENDING now
                        None None)
  | _, _ => None
  end.

(** [leave.save()] of a new row. *)
Definition Leave_insert (now : datetime) (emp : Z)
    (mk : Z -> Z -> datetime -> Leave) : M Leave :=
  fun db =>
    let l := mk (next_pk leave_pk (leaves db)) emp now in
    (set_leaves db (leaves db ++ [l]), Ok l).

Inductive leave_outcome : Type :=
| LeaveLoginRequired                     (* login_required *)
| LeaveShowForm                          (* GET, or POST with form errors *)
| LeaveRaised (e : exn)                  (* user without employee *)
| LeaveSubmitted (l : Leave).            (* redirect to leave_list *)

Definition apply_leave (req : request LeavePost)
  : DB -> DB * leave_outcome :=
  fun db =>
    match request_user db req with
    | None => (db, LeaveLoginRequired)
    | Some user =>
        match req_method req with
        | GET => (db, LeaveShowForm)
        | POST =>
            match LeaveApplyForm_instance (req_data req) with
            | None => (db, LeaveShowForm)
            | Some leave =>
                match user_employee db user with
                | Raise e => (db, LeaveRaised e)
                | Ok emp =>
                    match Leave_insert (req_now req) (emp_pk emp) leave db with
                    | (db', Ok l) => (db', LeaveSubmitted l)
                    | (db', Raise e) => (db', LeaveRaised e)
                    end
                end
            end
        end
    end.

(** The queryset an admin action receives: the rows whose key was ticked
    in the change list. *)
Definition selected (pks : list Z) (l : Leave) : bool :=
  existsb (Z.eqb (leave_pk l)) pks.

(** [queryset.update(status=s, approved_at=now, approved_by=user)] *)
Definition decide_leave (s : LeaveStatus) (now : datetime) (user : Z)
    (l : Leave) : Leave :=
  mkLeave (leave_pk l) (leave_employee l) (start_date l) (end_date l)
          (reason l) s (applied_at l) (Some user) (Some now).

Definition queryset_update (pks : list Z) (f : Leave -> Leave) (db : DB)
  : DB :=
  set_leaves db (map (fun l => if selected pks l then f l else l) (leaves db)).

Definition approve_leaves (user : Z) (now : datetime) (pks : list Z)
  : DB -> DB :=
  queryset_update pks (decide_leave APPROVED now user).

Definition reject_leaves (user : Z) (now : datetime) (pks : list Z)
  : DB -> DB :=
  queryset_update pks (decide_leave REJECTED now user).

(** One use of an admin action, and a history of them. *)
Inductive leave_action : Type := Approve | Reject.

Record admin_step : Type := mkStep {
  step_action : leave_action;
  step_user : Z;
  step_now : datetime;
  step_selection : list Z
}.

Definition run_step (st : admin_step) : DB -> DB :=
  match step_action st with
  | Approve => approve_leaves (step_user st) (step_now st) (step_selection st)
  | Reject => reject_leaves (step_user st) (step_now st) (step_selection st)
  end.

Definition run_steps (sts : list admin_step) (db : DB) : DB :=
  fold_left (fun d st => run_step st d) sts db.

Definition terminal (s : LeaveStatus) : bool :=
  match s with
  | PENDING => false
  | APPROVED | REJECTED => true
  end.

(** The status of the leave with key [k], when there is one. *)
Definition status_of (k : Z) (db : DB) : option LeaveStatus :=
  option_map status (find (fun l => leave_pk l =? k) (leaves db)).

(** ** Termination and activation (views.py) *)

Inductive toggle_outcome : Type :=
| ToggleLoginRequired                    (* staff_member_required *)
| ToggleIgnored                          (* not a POST *)
| ToggleNotFound                         (* "Employee not found." *)
| ToggleRaised (e : exn)
| Toggled (emp : Employee).

(** The common shape of [terminate_employee] and [activate_employee]:
    [emp.user.is_active = flag; emp.user.save()]. *)
Definition set_employee_active (flag : bool) (req : request string)
  : DB -> DB * toggle_outcome :=
  fun db =>
    match request_user db req with
    | None => (db, ToggleLoginRequired)
    | Some viewer =>
        if negb (is_staff viewer) then (db, ToggleLoginRequired)
        else
          match req_method req with
          | GET => (db, ToggleIgnored)
          | POST =>
              match get_unique (by_employee_id (req_data req))
                               (employees db) with
              | Raise DoesNotExist => (db, ToggleNotFound)
              | Raise e => (db, ToggleRaised e)
              | Ok emp =>
                  match get_unique (by_user_pk (emp_user emp)) (users db) with
                  | Raise e => (db, ToggleRaised e)
                  | Ok user =>
                      match User_save (with_is_active flag user) db with
                      | (db', Ok _) => (db', Toggled emp)
                      | (db', Raise e) => (db', ToggleRaised e)
                      end
                  end
              end
          end
    end.

Definition terminate_employee : request string -> DB -> DB * toggle_outcome :=
  set_employee_active false.

Definition activate_employee : request string -> DB -> DB * toggle_outcome :=
  set_employee_active true.

(** ** Monthly report (views.py, monthly_report) *)

(** Year and month of a day number, for [timezone.now().year] and
    [timezone.now().month] (the clock is in UTC). *)
Definition civil_from_days (z : date) : Z * Z * Z :=
  let z := z + 719468 in
  let era := z / 146097 in
  let doe := z - era * 146097 in
  let yoe := (doe - doe / 1460 + doe / 36524 - doe / 146096) / 365 in
  let doy := doe - (365 * yoe + yoe / 4 - yoe / 100) in
  let mp := (5 * doy + 2) / 153 in
  let d := doy - (153 * mp + 2) / 5 + 1 in
  let m := if mp <? 10 then mp + 3 else mp - 9 in
  (yoe + era * 400 + (if m <=? 2 then 1 else 0), m, d).

Definition utc_year (t : datetime) : Z :=
  fst (fst (civil_from_days (t / us_per_day))).
Definition utc_month (t : datetime) : Z :=
  snd (fst (civil_from_days (t / us_per_day))).

(** [request.GET] after [int(...)]: absent parameters are [None]. *)
Record ReportQuery : Type := mkReportQuery {
  q_year : option Z;
  q_month : option Z;
  q_department : string;
  q_download : option string
}.

(** The bounds of [date__range=[start_date, end_date]].  The two bounds
    are written as "{year}-{month:02d}-{day:02d}" and parsed back by the
    date field, which takes a year of four digits only. *)
Definition month_range (year month last_day : Z) : result (date * date) :=
  if (year <? 1000) || (9999 <? year) then Raise ValidationError
  else Ok (days_from_civil year month 1, days_from_civil year month last_day).

Definition in_range (bounds : date * date) (a : Attendance) : bool :=
  (fst bounds <=? att_date a) && (att_date a <=? snd bounds).

(** [select_related("employee", "employee__user")]: a record joined with
    its employee and the employee's user. *)
Definition joined : Type := (Attendance * Employee * User)%type.

Definition join (db : DB) (a : Attendance) : option joined :=
  match find (fun e => emp_pk e =? att_employee a) (employees db) with
  | Some e =>
      match find (by_user_pk (emp_user e)) (users db) with
      | Some u => Some (a, e, u)
      | None => None
      end
  | None => None
  end.

Definition j_att (j : joined) : Attendance := fst (fst j).
Definition j_emp (j : joined) : Employee := snd (fst j).
Definition j_user (j : joined) : User := snd j.

Fixpoint join_all (db : DB) (rs : list Attendance) : list joined :=
  match rs with
  | [] => []
  | a :: rs' =>
      match join db a with
      | Some j => j :: join_all db rs'
      | None => join_all db rs'
      end
  end.

(** The queryset [att_qs] after the role and department filters.  The
    branch of a non-staff viewer raises [DoesNotExist] when the account
    has no employee. *)
Definition report_queryset (db : DB) (viewer : User) (dept : string)
    (bounds : date * date) : result (list joined) :=
  let att_qs := join_all db (filter (in_range bounds) (attendances db)) in
  let narrowed :=
    if negb (is_staff viewer) then
      match user_employee db viewer with
      | Ok own =>
          Ok (filter (fun j => att_employee (j_att j) =? emp_pk own) att_qs)
      | Raise e => Raise e
      end
    else Ok att_qs in
  match narrowed with
  | Raise e => Raise e
  | Ok qs =>
      if negb (dept =? "")%string && is_staff viewer
      then Ok (filter (fun j => (department (j_emp j) =? dept)%string) qs)
      else Ok qs
  end.

(** The grouping key of [values(emp_id, name, department)]. *)
Definition group_key : Type := (string * string * string)%type.

Definition key_of (j : joined) : group_key :=
  (employee_id (j_emp j), first_name (j_user j), department (j_emp j)).

Definition key_eqb (k1 k2 : group_key) : bool :=
  (fst (fst k1) =? fst (fst k2))%string
  && (snd (fst k1) =? snd (fst k2))%string
  && (snd k1 =? snd k2)%string.

Definition key_emp_id (k : group_key) : string := fst (fst k).

(** The keys present, each once, in order of first appearance. *)
Fixpoint distinct_keys (ks : list group_key) : list group_key :=
  match ks with
  | [] => []
  | k :: ks' =>
      k :: filter (fun k' => negb (key_eqb k' k)) (distinct_keys ks')
  end.

(** SQL [SUM]: [NULL] over no rows. *)
Definition sql_sum (xs : list Z) : option Z :=
  match xs with
  | [] => None
  | _ => Some (fold_right Z.add 0 xs)
  end.

(** [Case(When(clock_in__isnull=False, then=1), default=0)] *)
Definition present_flag (a : Attendance) : Z :=
  match clock_in a with
  | Some _ => 1
  | None => 0
  end.

(** One row of the aggregate queryset. *)
Record AggRow : Type := mkAggRow {
  agg_key : group_key;
  agg_total_seconds : option Z;
  agg_days_present : option Z
}.

Definition group_of (k : group_key) (qs : list joined) : list joined :=
  filter (fun j => key_eqb (key_of j) k) qs.

Definition annotate (qs : list joined) : list AggRow :=
  map (fun k =>
         let grp := group_of k qs in
         mkAggRow k
                  (sql_sum (map (fun j => worked_seconds (j_att j)) grp))
                  (sql_sum (map (fun j => present_flag (j_att j)) grp)))
      (distinct_keys (map key_of qs)).

(** [order_by("emp_id")]: ascending on the identifier, compared as the
    database's binary collation does. *)
Fixpoint insert_by_emp_id (r : AggRow) (rs : list AggRow) : list AggRow :=
  match rs with
  | [] => [r]
  | r' :: rs' =>
      if (key_emp_id (agg_key r) <=? key_emp_id (agg_key r'))%string
      then r :: r' :: rs'
      else r' :: insert_by_emp_id r rs'
  end.

Definition order_by_emp_id (rs : list AggRow) : list AggRow :=
  fold_right insert_by_emp_id [] rs.

(** [x or 0] on an optional int. *)
Definition or_zero (x : option Z) : Z :=
  match x with
  | Some v => v
  | None => 0
  end.

(** One element of [rows]. *)
Record ReportRow : Type := mkReportRow {
  row_employee_id : string;
  row_name : string;
  row_department : string;
  row_days_present : Z;
  row_total_time : string;
  row_total_seconds : Z
}.

(** The body of [for r in agg]. *)
Definition prepare_row (r : AggRow) : ReportRow :=
  let total_seconds := or_zero (agg_total_seconds r) in
  let hrs := total_seconds / 3600 in
  let mins := (total_seconds mod 3600) / 60 in
  let days_present := or_zero (agg_days_present r) in
  mkReportRow (key_emp_id (agg_key r)) (snd (fst (agg_key r)))
              (snd (agg_key r)) days_present
              (str_int hrs ++ "h " ++ str_int mins ++ "m")
              total_seconds.

(** [a / b] on ints. *)
Definition truediv (a b : Z) : result Q :=
  if b =? 0 then Raise ZeroDivisionError
  else Ok (Qdiv (inject_Z a) (inject_Z b)).

(** A percentage still to be printed: [Percent1f v] stands for
    [f"{v:.1f}%"], [PercentText s] for the literal [s]. *)
Inductive percent : Type :=
| Percent1f (v : Q)
| PercentText (s : string).

Definition sum_Z (xs : list Z) : Z := fold_left Z.add xs 0.

Definition average_attendance_of (total_present_days total_employees
    working_days : Z) : result percent :=
  if total_employees >? 0 then
    match truediv total_present_days (total_employees * working_days) with
    | Ok q => Ok (Percent1f (Qmult q (inject_Z 100)))
    | Raise e => Raise e
    end
  else Ok (PercentText "0%").

Record ReportContext : Type := mkReportContext {
  ctx_rows : list ReportRow;
  ctx_year : Z;
  ctx_month : Z;
  ctx_department : string;
  ctx_is_staff : bool;
  ctx_total_employees : Z;
  ctx_total_present_days : Z;
  ctx_average_attendance : percent;
  ctx_total_hours : string;
  ctx_working_days : Z
}.

(** One data line of the CSV downloads. *)
Definition csv_line (working_days : Z) (r : ReportRow)
  : result (ReportRow * percent) :=
  if working_days >? 0 then
    match truediv (row_days_present r) working_days with
    | Ok q => Ok (r, Percent1f (Qmult q (inject_Z 100)))
    | Raise e => Raise e
    end
  else Ok (r, Percent1f (inject_Z 0)).

Fixpoint csv_lines (working_days : Z) (rows : list ReportRow)
  : result (list (ReportRow * percent)) :=
  match rows with
  | [] => Ok []
  | r :: rows' =>
      match csv_line working_days r, csv_lines working_days rows' with
      | Ok l, Ok ls => Ok (l :: ls)
      | Raise e, _ => Raise e
      | _, Raise e => Raise e
      end
  end.

Inductive report_outcome : Type :=
| ReportLoginRequired                    (* login_required *)
| ReportRedirectIndex                    (* account without employee *)
| ReportRaised (e : exn)
| ReportDownload (content_type : string) (lines : list (ReportRow * percent))
| ReportPage (ctx : ReportContext).

Definition download_content_type (download : string) : option string :=
  if (download =? "csv")%string then Some "text/csv"
  else if (download =? "excel")%string then Some "application/vnd.ms-excel"
  else if (download =? "pdf")%string then Some "application/pdf"
  else None.

(** [int(request.GET.get("year", timezone.now().year))] and the same for
    the month. *)
Definition query_year (q : ReportQuery) (now : datetime) : Z :=
  match q_year q with
  | Some y => y
  | None => utc_year now
  end.

Definition query_month (q : ReportQuery) (now : datetime) : Z :=
  match q_month q with
  | Some m => m
  | None => utc_month now
  end.

Definition monthly_report (req : request ReportQuery) (db : DB)
  : report_outcome :=
  match request_user db req with
  | None => ReportLoginRequired
  | Some viewer =>
      let q := req_data req in
      let year := query_year q (req_now req) in
      let month := query_month q (req_now req) in
      match monthrange_days year month with
      | None => ReportRaised IllegalMonthError
      | Some last_day =>
          let working_days := last_day in
          match month_range year month last_day with
          | Raise e => ReportRaised e
          | Ok bounds =>
              match report_queryset db viewer (q_department q) bounds with
              | Raise DoesNotExist => ReportRedirectIndex
              | Raise e => ReportRaised e
              | Ok att_qs =>
                  let agg := order_by_emp_id (annotate att_qs) in
                  let rows := map prepare_row agg in
                  let total_present_days :=
                    sum_Z (map row_days_present rows) in
                  let total_employees := Z.of_nat (List.length agg) in
                  match average_attendance_of total_present_days
                          total_employees working_days with
                  | Raise e => ReportRaised e
                  | Ok average_attendance =>
                      let total_hours :=
                        str_int (sum_Z (map row_total_seconds rows) / 3600)
                        ++ "h" in
                      let page :=
                        ReportPage
                          (mkReportContext rows year month (q_department q)
                             (is_staff viewer) total_employees
                             total_present_days average_attendance
                             total_hours working_days) in
                      match q_download q with
                      | None => page
                      | Some download =>
                          match download_content_type download with
                          | None => page
                          | Some ct =>
                              match csv_lines working_days rows with
                              | Ok ls => ReportDownload ct ls
                              | Raise e => ReportRaised e
                              end
                          end
                      end
                  end
              end
          end
      end
  end.

(** ** Listing leaves (views.py, leave_list) *)

(** [select_related("employee__user")]: the leave's employee and that
    employee's user are fetched with it, by inner joins. *)
Definition leave_joined (db : DB) (l : Leave) : bool :=
  match find (fun e => emp_pk e =? leave_employee l) (employees db) with
  | Some e =>
      match find (by_user_pk (emp_user e)) (users db) with
      | Some _ => true
      | None => false
      end
  | None => false
  end.

Inductive leave_list_outcome : Type :=
| LeaveListLoginRequired                 (* login_required *)
| LeaveListRaised (e : exn)              (* user without employee *)
| LeaveListPage (ls : list Leave).

Definition leave_list (req : request unit) (db : DB) : leave_list_outcome :=
  match request_user db req with
  | None => LeaveListLoginRequired
  | Some user =>
      if is_staff user
      then LeaveListPage (filter (leave_joined db) (leaves db))
      else
        match user_employee db user with
        | Raise e => LeaveListRaised e
        | Ok emp =>
            LeaveListPage
              (filter (leave_joined db)
                      (filter (fun l => leave_employee l =? emp_pk emp)
                              (leaves db)))
        end
  end.

(** ** Listing employees (views.py, user_list) *)

(** The database's [LIKE], which folds the case of ASCII letters only. *)
Definition ascii_lower (c : ascii) : ascii :=
  let n := nat_of_ascii c in
  if (65 <=? n)%nat && (n <=? 90)%nat then ascii_of_nat (n + 32) else c.

Fixpoint lower (s : string) : string :=
  match s with
  | EmptyString => EmptyString
  | String c s' => String (ascii_lower c) (lower s')
  end.

Fixpoint contains (needle hay : string) : bool :=
  String.prefix needle hay
  || match hay with
     | EmptyString => false
     | String _ hay' => contains needle hay'
     end.

(** [field__icontains=q] *)
Definition icontains (q field : string) : bool :=
  contains (lower q) (lower field).

(** [select_related("user")]: an employee with its user. *)
Definition emp_row : Type := (Employee * User)%type.

Fixpoint join_employees (db : DB) (es : list Employee) : list emp_row :=
  match es with
  | [] => []
  | e :: es' =>
      match find (by_user_pk (emp_user e)) (users db) with
      | Some u => (e, u) :: join_employees db es'
      | None => join_employees db es'
      end
  end.

(** [order_by("-date_joined")] *)
Fixpoint insert_by_date_joined (r : emp_row) (rs : list emp_row)
  : list emp_row :=
  match rs with
  | [] => [r]
  | r' :: rs' =>
      if date_joined (fst r') <=? date_joined (fst r)
      then r :: r' :: rs'
      else r' :: insert_by_date_joined r rs'
  end.

Definition order_by_date_joined_desc (rs : list emp_row) : list emp_row :=
  fold_right insert_by_date_joined [] rs.

(** The [Q(...) | Q(...) | Q(...) | Q(...)] of the search. *)
Definition search_matches (q : string) (r : emp_row) : bool :=
  icontains q (employee_id (fst r))
  || icontains q (username (snd r))
  || icontains q (first_name (snd r))
  || icontains q (last_name (snd r)).

(** [request.GET] of the list: [ul_q] is the parameter [q] after
    [strip()]; [ul_page] is the parameter [page] when it is an integer. *)
Record UserListQuery : Type := mkUserListQuery {
  ul_q : string;
  ul_download : option string;
  ul_page : option Z
}.

(** The queryset [qs] of the view. *)
Definition user_list_queryset (db : DB) (q : string) : list emp_row :=
  let qs := order_by_date_joined_desc
              (filter (fun r => is_active (snd r))
                      (join_employees db (employees db))) in
  if (q =? "")%string then qs else filter (search_matches q) qs.

(** [Paginator(object_list, per_page)] with the defaults [orphans=0] and
    [allow_empty_first_page=True]. *)
Definition num_pages (per_page count : Z) : Z :=
  (Z.max 1 count + per_page - 1) / per_page.

(** [Paginator.get_page]: a page that is not an integer gives page 1, a
    page out of range gives the last page. *)
Definition get_page_number (per_page count : Z) (page : option Z) : Z :=
  match page with
  | None => 1
  | Some n =>
      if (n <? 1) || (num_pages per_page count <? n)
      then num_pages per_page count
      else n
  end.

(** [Paginator.page(number).object_list] *)
Definition page_objects {A : Type} (per_page : Z) (objects : list A)
    (number : Z) : list A :=
  let count := Z.of_nat (List.length objects) in
  let bottom := (number - 1) * per_page in
  let top := if count <=? bottom + per_page then count
             else bottom + per_page in
  firstn (Z.to_nat (top - bottom)) (skipn (Z.to_nat bottom) objects).

Record UserListPage : Type := mkUserListPage {
  page_rows : list emp_row;
  page_number : Z;
  page_count : Z;                        (* paginator.num_pages *)
  page_total_count : Z;                  (* total_count *)
  page_q : string
}.

Inductive user_list_outcome : Type :=
| UserListLoginRequired                  (* staff_member_required *)
| UserListCsv (rows : list emp_row)      (* one line per row *)
| UserListHtml (page : UserListPage).

Definition user_list (req : request UserListQuery) (db : DB)
  : user_list_outcome :=
  match request_user db req with
  | None => UserListLoginRequired
  | Some viewer =>
      if negb (is_staff viewer) then UserListLoginRequired
      else
        let q := ul_q (req_data req) in
        let qs := user_list_queryset db q in
        let csv :=
          match ul_download (req_data req) with
          | Some d => (d =? "csv")%string
          | None => false
          end in
        if csv then UserListCsv qs
        else
          let count := Z.of_nat (List.length qs) in
          let number := get_page_number 20 count (ul_page (req_data req)) in
          let total_count :=
            Z.of_nat (List.length
                        (filter (fun r => is_active (snd r))
                                (join_employees db (employees db)))) in
          UserListHtml
            (mkUserListPage (page_objects 20 qs number) number
                            (num_pages 20 count) total_count q)
  end.

(** ** The deletion script (delete_user_data.py) *)

(** A read-only query inside a block. *)
Definition query {A : Type} (f : DB -> result A) : M A :=
  fun db => (db, f db).

(** [Employee.objects.select_related('user').get(employee_id=...)] *)
Definition get_employee_with_user (eid : string) (db : DB)
  : result emp_row :=
  get_unique (fun r => by_employee_id eid (fst r))
             (join_employees db (employees db)).

(** [Attendance.objects.filter(employee=emp).delete()] *)
Definition Attendance_delete_of (emp : Employee) : M unit :=
  fun db =>
    (set_attendances db
       (filter (fun a => negb (att_employee a =? emp_pk emp))
               (attendances db)), Ok tt).

(** [Leave.objects.filter(employee=emp).delete()] *)
Definition Leave_delete_of (emp : Employee) : M unit :=
  fun db =>
    (set_leaves db
       (filter (fun l => negb (leave_employee l =? emp_pk emp)) (leaves db)),
     Ok tt).

(** [employee.delete()]: the row goes, and with it the rows that point to
    it through a foreign key with [on_delete=CASCADE] (attendance, leave).
    The employee's own foreign key points to the user, so the user row is
    not part of the cascade. *)
Definition Employee_delete (emp : Employee) : M unit :=
  fun db =>
    (mkDB (users db)
          (filter (fun e => negb (emp_pk e =? emp_pk emp)) (employees db))
          (filter (fun a => negb (att_employee a =? emp_pk emp))
                  (attendances db))
          (filter (fun l => negb (leave_employee l =? emp_pk emp))
                  (leaves db)),
     Ok tt).

Definition clear_approver (k : Z) (l : Leave) : Leave :=
  match approved_by l with
  | Some k' =>
      if k' =? k
      then mkLeave (leave_pk l) (leave_employee l) (start_date l)
                   (end_date l) (reason l) (status l) (applied_at l) None
                   (approved_at l)
      else l
  | None => l
  end.

(** [user.delete()]: the user's employee cascades, with that employee's
    attendance and leave rows; [approved_by] is [SET_NULL]. *)
Definition User_delete (u : User) : M unit :=
  fun db =>
    let gone (pk : Z) :=
      existsb (fun e => (emp_pk e =? pk) && (emp_user e =? user_id u))
              (employees db) in
    (mkDB (filter (fun x => negb (user_id x =? user_id u)) (users db))
          (filter (fun e => negb (gone (emp_pk e))) (employees db))
          (filter (fun a => negb (gone (att_employee a))) (attendances db))
          (map (clear_approver (user_id u))
               (filter (fun l => negb (gone (leave_employee l)))
                       (leaves db))),
     Ok tt).

(** The three statements every deletion path runs for an employee. *)
Definition delete_employee_data (emp : Employee) : M unit :=
  _ <- Attendance_delete_of emp ;;
  _ <- Leave_delete_of emp ;;
  Employee_delete emp.

Inductive delete_outcome : Type :=
| DeleteDone (row : emp_row)             (* "Successfully deleted user" *)
| DeleteNotFound                         (* "... not found" *)
| DeleteFailed (e : exn).                (* "Error deleting user" *)

Definition delete_user_by_employee_id (employee_id : string)
  : DB -> DB * delete_outcome :=
  fun db =>
    match atomic (employee <- query (get_employee_with_user employee_id) ;;
                  _ <- delete_employee_data (fst employee) ;;
                  ret employee) db with
    | (db', Ok row) => (db', DeleteDone row)
    | (db', Raise DoesNotExist) => (db', DeleteNotFound)
    | (db', Raise e) => (db', DeleteFailed e)
    end.

Inductive deactivate_outcome : Type :=
| DeactivateDone (row : emp_row)
| DeactivateNotFound
| DeactivateFailed (e : exn).

Definition deactivate_user_by_employee_id (employee_id : string)
  : DB -> DB * deactivate_outcome :=
  fun db =>
    match get_employee_with_user employee_id db with
    | Ok employee =>
        match User_save (with_is_active false (snd employee)) db with
        | (db', Ok _) => (db', DeactivateDone employee)
        | (db', Raise e) => (db', DeactivateFailed e)
        end
    | Raise DoesNotExist => (db, DeactivateNotFound)
    | Raise e => (db, DeactivateFailed e)
    end.

(** The loop of [delete_all_inactive_users] and of
    [bulk_delete_by_department]: one transaction per employee, the count
    of those that went through. *)
Fixpoint delete_each (victims : list emp_row) (count : Z) (db : DB)
  : DB * Z :=
  match victims with
  | [] => (db, count)
  | emp :: rest =>
      match atomic (delete_employee_data (fst emp)) db with
      | (db', Ok _) => delete_each rest (count + 1) db'
      | (db', Raise _) => delete_each rest count db'
      end
  end.

(** [None] stands for the early return ("No inactive users found"). *)
Definition delete_all_inactive_users (db : DB) : DB * option Z :=
  let inactive_employees :=
    filter (fun r => negb (is_active (snd r)))
           (join_employees db (employees db)) in
  match inactive_employees with
  | [] => (db, None)
  | _ => let (db', count) := delete_each inactive_employees 0 db in
         (db', Some count)
  end.

Definition bulk_delete_by_department (dept : string) (db : DB)
  : DB * option Z :=
  let employees_ :=
    filter (fun r => (department (fst r) =? dept)%string)
           (join_employees db (employees db)) in
  match employees_ with
  | [] => (db, None)
  | _ => let (db', count) := delete_each employees_ 0 db in
         (db', Some count)
  end.

Inductive delete_user_outcome : Type :=
| UserDeleteDone (user : User) (emp : option Employee)
| UserDeleteNotFound
| UserDeleteFailed (e : exn).

Definition delete_user_by_username (uname : string)
  : DB -> DB * delete_user_outcome :=
  fun db =>
    match atomic
            (user <- query (fun db => get_unique
                              (fun u => (username u =? uname)%string)
                              (users db)) ;;
             fun db =>
               match user_employee db user with
               | Ok employee =>
                   (_ <- delete_employee_data employee ;;
                    ret (user, Some employee)) db
               | Raise DoesNotExist =>
                   (_ <- User_delete user ;; ret (user, None)) db
               | Raise e => (db, Raise e)
               end) db with
    | (db', Ok (user, emp)) => (db', UserDeleteDone user emp)
    | (db', Raise DoesNotExist) => (db', UserDeleteNotFound)
    | (db', Raise e) => (db', UserDeleteFailed e)
    end.

(** ** The other admin actions (admin.py) *)

(** [AttendanceAdmin.worked_hours] *)
Definition worked_hours (obj : Attendance) : string :=
  if negb (worked_seconds obj =? 0) then
    let hours := worked_seconds obj / 3600 in
    let minutes := (worked_seconds obj mod 3600) / 60 in
    str_int hours ++ "h " ++ str_int minutes ++ "m"
  else "0h 0m".

(** [ordering = ("-date_joined",)] of [EmployeeAdmin]. *)
Fixpoint insert_employee_desc (e : Employee) (es : list Employee)
  : list Employee :=
  match es with
  | [] => [e]
  | e' :: es' =>
      if date_joined e' <=? date_joined e
      then e :: e' :: es'
      else e' :: insert_employee_desc e es'
  end.

(** The queryset an action of [EmployeeAdmin] receives: the employees
    whose key was ticked. *)
Definition selected_employees (pks : list Z) (db : DB) : list Employee :=
  fold_right insert_employee_desc []
             (filter (fun e => existsb (Z.eqb (emp_pk e)) pks) (employees db)).

(** The loop of [activate_users] and of [deactivate_users]:
    [emp.user.is_active = flag; emp.user.save()] for each employee, where
    [emp.user] fetches the user by its key. *)
Fixpoint set_users_active (flag : bool) (emps : list Employee) : M unit :=
  match emps with
  | [] => ret tt
  | emp :: rest =>
      user <- query (fun db => get_unique (by_user_pk (emp_user emp))
                                          (users db)) ;;
      _ <- User_save (with_is_active flag user) ;;
      set_users_active flag rest
  end.

(** The action and the number its message reports
    ([queryset.count()]). *)
Definition activate_users (pks : list Z) (db : DB)
  : DB * result Z :=
  match set_users_active true (selected_employees pks db) db with
  | (db', Ok _) =>
      (db', Ok (Z.of_nat (List.length (selected_employees pks db'))))
  | (db', Raise e) => (db', Raise e)
  end.

Definition deactivate_users (pks : list Z) (db : DB)
  : DB * result Z :=
  match set_users_active false (selected_employees pks db) db with
  | (db', Ok _) =>
      (db', Ok (Z.of_nat (List.length (selected_employees pks db'))))
  | (db', Raise e) => (db', Raise e)
  end.

(** ** The query script (query_user_data.py) *)

(** The "Worked Hours" line of [query_attendance_data]. *)
Definition script_worked_hours (att : Attendance) : string :=
  str_int (worked_seconds att / 3600) ++ "h "
  ++ str_int ((worked_seconds att mod 3600) / 60) ++ "m".

(** The grouping key of
    [values('employee__employee_id', 'employee__user__first_name')]. *)
Definition summary_key : Type := (string * string)%type.

Definition summary_key_of (j : joined) : summary_key :=
  (employee_id (j_emp j), first_name (j_user j)).

Definition summary_key_eqb (k1 k2 : summary_key) : bool :=
  (fst k1 =? fst k2)%string && (snd k1 =? snd k2)%string.

Fixpoint distinct_summary_keys (ks : list summary_key) : list summary_key :=
  match ks with
  | [] => []
  | k :: ks' =>
      k :: filter (fun k' => negb (summary_key_eqb k' k))
                  (distinct_summary_keys ks')
  end.

(** One row of [summary]. *)
Record SummaryStat : Type := mkSummaryStat {
  stat_key : summary_key;
  stat_total_days : Z;                   (* Count('date') *)
  stat_present_days : option Z;          (* Sum(Case(...)) *)
  stat_total_seconds : option Z          (* Sum(F('worked_seconds')) *)
}.

Definition summary_group (k : summary_key) (qs : list joined)
  : list joined :=
  filter (fun j => summary_key_eqb (summary_key_of j) k) qs.

Fixpoint insert_stat (r : SummaryStat) (rs : list SummaryStat)
  : list SummaryStat :=
  match rs with
  | [] => [r]
  | r' :: rs' =>
      if (fst (stat_key r) <=? fst (stat_key r'))%string
      then r :: r' :: rs'
      else r' :: insert_stat r rs'
  end.

Definition summary_stats (qs : list joined) : list SummaryStat :=
  fold_right insert_stat []
    (map (fun k =>
            let grp := summary_group k qs in
            mkSummaryStat k (Z.of_nat (List.length grp))
              (sql_sum (map (fun j => present_flag (j_att j)) grp))
              (sql_sum (map (fun j => worked_seconds (j_att j)) grp)))
         (distinct_summary_keys (map summary_key_of qs))).

(** One printed line of the summary. *)
Record SummaryLine : Type := mkSummaryLine {
  line_employee_id : string;
  line_first_name : string;
  line_present_days : Z;
  line_total_days : Z;
  line_attendance_rate : percent;
  line_total_hours : Z
}.

(** How the script can stop: with a [TypeError] of its own arithmetic,
    or with an exception of the calls below it. *)
Inductive script_exn : Type :=
| ScriptTypeError
| ScriptRaised (e : exn).

(** The body of [for stat in summary].  [stat['present_days']] is used
    as an int: a [NULL] sum would raise [TypeError]. *)
Definition summary_line (stat : SummaryStat)
  : SummaryLine + script_exn :=
  match stat_present_days stat with
  | None => inr ScriptTypeError
  | Some present_days =>
      let rate :=
        if stat_total_days stat >? 0 then
          match truediv present_days (stat_total_days stat) with
          | Ok q => Ok (Percent1f (Qmult q (inject_Z 100)))
          | Raise e => Raise e
          end
        else Ok (Percent1f (inject_Z 0)) in
      let total_hours :=
        match stat_total_seconds stat with
        | Some s => if s =? 0 then 0 else s / 3600
        | None => 0
        end in
      match rate with
      | Ok attendance_rate =>
          inl (mkSummaryLine (fst (stat_key stat)) (snd (stat_key stat))
                             present_days (stat_total_days stat)
                             attendance_rate total_hours)
      | Raise e => inr (ScriptRaised e)
      end
  end.

Fixpoint summary_lines (stats : list SummaryStat)
  : list SummaryLine + script_exn :=
  match stats with
  | [] => inl []
  | stat :: rest =>
      match summary_line stat with
      | inr e => inr e
      | inl l =>
          match summary_lines rest with
          | inl ls => inl (l :: ls)
          | inr e => inr e
          end
      end
  end.

(** [get_attendance_summary]: the lines printed for the month of the
    clock. *)
Definition get_attendance_summary (now : datetime) (db : DB)
  : list SummaryLine + script_exn :=
  let current_year := utc_year now in
  let current_month := utc_month now in
  match monthrange_days current_year current_month with
  | None => inr (ScriptRaised IllegalMonthError)
  | Some last_day =>
      match month_range current_year current_month last_day with
      | Raise e => inr (ScriptRaised e)
      | Ok bounds =>
          summary_lines
            (summary_stats
               (join_all db (filter (in_range bounds) (attendances db))))
      end
  end.

(** ** Integrity constraints and observations used in the statements *)

(** A primary key identifies its row. *)
Definition pk_unique {A : Type} (pk : A -> Z) (rows : list A) : Prop :=
  NoDup (map pk rows).

(** [unique_together = ("employee", "date")] *)
Definition unique_together (rows : list Attendance) : Prop :=
  forall emp d, (List.length (filter (att_key emp d) rows) <= 1)%nat.

(** The constraints on the attendance table. *)
Definition attendance_table_ok (db : DB) : Prop :=
  pk_unique att_pk (attendances db) /\ unique_together (attendances db).

(** The foreign key from an employee to its user. *)
Definition fk_employee_user (db : DB) : Prop :=
  forall e, In e (employees db) ->
            exists u, In u (users db) /\ user_id u = emp_user e.

(** Every [User] field but [is_active] agrees. *)
Definition same_except_active (u u' : User) : Prop :=
  user_id u' = user_id u /\ username u' = username u
  /\ password u' = password u /\ first_name u' = first_name u
  /\ last_name u' = last_name u /\ is_staff u' = is_staff u
  /\ is_superuser u' = is_superuser u.

Definition has_clock_in (a : Attendance) : bool :=
  match clock_in a with
  | Some _ => true
  | None => false
  end.

(** The rows a report response carries, page or download. *)
Definition rows_of (o : report_outcome) : option (list ReportRow) :=
  match o with
  | ReportPage ctx => Some (ctx_rows ctx)
  | ReportDownload _ ls => Some (map fst ls)
  | _ => None
  end.

(** The same request with another [department] parameter. *)
Definition with_department (dept : string) (req : request ReportQuery)
  : request ReportQuery :=
  mkRequest (req_method req) (req_session req)
            (mkReportQuery (q_year (req_data req)) (q_month (req_data req))
                           dept (q_download (req_data req)))
            (req_now req).

Definition row_le (r1 r2 : ReportRow) : Prop :=
  (row_employee_id r1 <=? row_employee_id r2)%string = true.

Definition target_status (a : leave_action) : LeaveStatus :=
  match a with
  | Approve => APPROVED
  | Reject => REJECTED
  end.

(** What a terminate or activate call may change: no table but the
    users, and of a user nothing but [is_active]; when the call reports
    success, exactly the row of the employee's user is rewritten, with
    [is_active] set to [flag]. *)
Definition toggle_frame (flag : bool) (db : DB) (r : DB * toggle_outcome)
  : Prop :=
  employees (fst r) = employees db
  /\ attendances (fst r) = attendances db
  /\ leaves (fst r) = leaves db
  /\ Forall2 same_except_active (users db) (users (fst r))
  /\ (forall emp, snd r = Toggled emp ->
        In emp (employees db)
        /\ exists u,
            filter (by_user_pk (emp_user emp)) (users db) = [u]
            /\ Forall2 (fun u0 u1 =>
                          (u0 = u /\ u1 = with_is_active flag u)
                          \/ (u0 <> u /\ u1 = u0))
                       (users db) (users (fst r)))
  /\ ((forall emp, snd r <> Toggled emp) -> fst r = db).

(** The records of the table other than the one for [(emp, d)]. *)
Definition other_records (emp : Z) (d : date) (rows : list Attendance)
  : list Attendance :=
  filter (fun a => negb (att_key emp d a)) rows.

Definition agg_le (r1 r2 : AggRow) : Prop :=
  (key_emp_id (agg_key r1) <=? key_emp_id (agg_key r2))%string = true.

(** [employee_id] is unique among the employees. *)
Definition employee_id_unique (es : list Employee) : Prop :=
  forall e1 e2, In e1 es -> In e2 es ->
                employee_id e1 = employee_id e2 -> e1 = e2.

(** ** Sample data *)

(** A staff account, two employees in different departments and their
    records around March 2024. *)
Definition sample_db : DB :=
  mkDB [mkUser 1 "admin" "secret" "Ada" "Min" true true true;
        mkUser 2 "asha" "secret" "Asha" "Rao" false false true;
        mkUser 3 "ravi" "secret" "Ravi" "Iyer" false false true]
       [mkEmployee 1 2 "EMP2" "IT" "Engineer" 19000;
        mkEmployee 2 3 "EMP1" "HR" "Recruiter" 19000]
       [mkAttendance 1 1 (days_from_civil 2024 3 1)
                     (Some (local_datetime 2024 3 1 9 0 0))
                     (Some (local_datetime 2024 3 1 17 30 0)) 30600;
        mkAttendance 2 2 (days_from_civil 2024 3 1)
                     (Some (local_datetime 2024 3 1 10 0 0))
                     (Some (local_datetime 2024 3 1 18 0 0)) 28800;
        mkAttendance 3 1 (days_from_civil 2024 3 4)
                     (Some (local_datetime 2024 3 4 9 0 0)) None 0;
        mkAttendance 4 1 (days_from_civil 2024 4 1)
                     (Some (local_datetime 2024 4 1 9 0 0))
                     (Some (local_datetime 2024 4 1 10 0 0)) 3600]
       [].

(** The report of March 2024 asked by the user of session [k], with a
    department filter. *)
Definition sample_report_request (k : Z) (dept : string)
  : request ReportQuery :=
  mkRequest GET (Some k) (mkReportQuery (Some 2024) (Some 3) dept None)
            (local_datetime 2024 4 2 12 0 0).

(** ** Further observations *)

(** What a leave request says: every field but the decision. *)
Definition same_request (l l' : Leave) : Prop :=
  leave_pk l' = leave_pk l /\ leave_employee l' = leave_employee l
  /\ start_date l' = start_date l /\ end_date l' = end_date l
  /\ reason l' = reason l /\ applied_at l' = applied_at l.

(** The stored [worked_seconds] agrees with the two timestamps. *)
Definition att_consistent (a : Attendance) : Prop :=
  match clock_in a, clock_out a with
  | Some cin, Some cout =>
      worked_seconds a = Z.max 0 (int_total_seconds (cout - cin))
  | _, _ => worked_seconds a = 0
  end.

(** A [mark_attendance] request with an explicit timestamp. *)
Definition mark_request (session : option Z) (now : datetime)
    (eid : string) (action : mark_action) (t : aware_datetime)
  : request (option MarkData) :=
  mkRequest POST session (Some (mkMarkData eid action (Some t))) now.

(** The constraints on the user and employee tables. *)
Definition accounts_ok (db : DB) : Prop :=
  pk_unique user_id (users db)
  /\ NoDup (map username (users db))
  /\ pk_unique emp_pk (employees db)
  /\ NoDup (map employee_id (employees db))
  /\ NoDup (map emp_user (employees db))
  /\ fk_employee_user db.

(** ** Checking the constraints of a concrete database *)

Fixpoint nodupb {A : Type} (eqb : A -> A -> bool) (l : list A) : bool :=
  match l with
  | [] => true
  | x :: l' => negb (existsb (eqb x) l') && nodupb eqb l'
  end.

Definition pair_eqb (p q : Z * Z) : bool :=
  (fst p =? fst q) && (snd p =? snd q).

Definition fk_employee_userb (db : DB) : bool :=
  forallb (fun e => existsb (fun u => user_id u =? emp_user e) (users db))
          (employees db).

Definition fk_leave_employeeb (db : DB) : bool :=
  forallb (fun l => existsb (fun e => emp_pk e =? leave_employee l)
                            (employees db))
          (leaves db).

Definition accounts_okb (db : DB) : bool :=
  nodupb Z.eqb (map user_id (users db))
  && nodupb String.eqb (map username (users db))
  && nodupb Z.eqb (map emp_pk (employees db))
  && nodupb String.eqb (map employee_id (employees db))
  && nodupb Z.eqb (map emp_user (employees db))
  && fk_employee_userb db.

Definition attendance_table_okb (db : DB) : bool :=
  nodupb Z.eqb (map att_pk (attendances db))
  && nodupb pair_eqb
            (map (fun a => (att_employee a, att_date a)) (attendances db)).

(** The sample database with two leave requests. *)
Definition sample_db_leaves : DB :=
  set_leaves sample_db
    [mkLeave 1 1 19790 19792 "travel" PENDING 500 None None;
     mkLeave 2 2 19800 19801 "exam" APPROVED 600 (Some 1) (Some 700)].

(** The assignment [mark_attendance] makes for an action. *)
Definition with_clock (action : mark_action) (t : datetime)
    (a : Attendance) : Attendance :=
  match action with
  | IN => with_clock_in t a
  | OUT => with_clock_out t a
  end.

(** Both timestamps set, and the worked seconds that go with them. *)
Definition clocked (t1 t2 : datetime) (a : Attendance) : Prop :=
  clock_in a = Some t1 /\ clock_out a = Some t2
  /\ (t1 <= t2 -> worked_seconds a = (t2 - t1) / us_per_second)
  /\ (t2 < t1 -> worked_seconds a = 0).

(** The rows an employee list response shows. *)
Definition rows_listed (o : user_list_outcome) : list emp_row :=
  match o with
  | UserListLoginRequired => []
  | UserListCsv rows => rows
  | UserListHtml page => page_rows page
  end.

Definition joined_desc (r1 r2 : emp_row) : Prop :=
  date_joined (fst r2) <= date_joined (fst r1).

(** Every reference between rows resolves. *)
Definition fk_attendance_employee (db : DB) : Prop :=
  forall a, In a (attendances db) ->
            exists e, In e (employees db) /\ emp_pk e = att_employee a.

Definition fk_leave_employee (db : DB) : Prop :=
  forall l, In l (leaves db) ->
            exists e, In e (employees db) /\ emp_pk e = leave_employee l.

Definition fk_leave_approver (db : DB) : Prop :=
  forall l k, In l (leaves db) -> approved_by l = Some k ->
              exists u, In u (users db) /\ user_id u = k.

Definition references_ok (db : DB) : Prop :=
  fk_employee_user db /\ fk_attendance_employee db
  /\ fk_leave_employee db /\ fk_leave_approver db.

Definition references_okb (db : DB) : bool :=
  fk_employee_userb db
  && forallb (fun a => existsb (fun e => emp_pk e =? att_employee a)
                               (employees db)) (attendances db)
  && fk_leave_employeeb db
  && forallb (fun l => match approved_by l with
                       | Some k => existsb (fun u => user_id u =? k) (users db)
                       | None => true
                       end) (leaves db).

(** What the removal of the employees with the keys [pks] leaves of the
    database [db] in [db']: the users as they were, and of the other
    tables the rows that do not belong to those employees. *)
Definition employees_removed (pks : list Z) (db db' : DB) : Prop :=
  users db' = users db
  /\ (forall e, In e (employees db')
                <-> In e (employees db) /\ ~ In (emp_pk e) pks)
  /\ (forall a, In a (attendances db')
                <-> In a (attendances db) /\ ~ In (att_employee a) pks)
  /\ (forall l, In l (leaves db')
                <-> In l (leaves db) /\ ~ In (leave_employee l) pks).

(** A user is linked to a ticked employee. *)
Definition linkedb (pks : list Z) (db : DB) (u : User) : bool :=
  existsb (fun e => existsb (Z.eqb (emp_pk e)) pks
                    && (emp_user e =? user_id u))
          (employees db).

(** The users table with [is_active] set to [flag] for the users linked
    to a ticked employee. *)
Definition users_with_active (flag : bool) (pks : list Z) (db : DB)
  : list User :=
  map (fun u => if linkedb pks db u then with_is_active flag u else u)
      (users db).

(** The instant is a datetime both in UTC and on the zone's wall clock:
    neither conversion of [astimezone] overflows. *)
Definition representable (t : datetime) : Prop :=
  datetime_min <= t /\ wall_clock t <= datetime_max.

(** What the columns of the attendance table can hold: timestamps that
    are UTC datetimes, and a [worked_seconds] that is not negative. *)
Definition row_storable (a : Attendance) : Prop :=
  adaptable (clock_in a) = true /\ adaptable (clock_out a) = true
  /\ 0 <= worked_seconds a.

Definition rows_storable (db : DB) : Prop :=
  Forall row_storable (attendances db).

Definition rows_storableb (db : DB) : bool :=
  forallb (fun a => adaptable (clock_in a) && adaptable (clock_out a)
                    && (0 <=? worked_seconds a))
          (attendances db).

(** The record [get_or_create] makes for a pair that has none. *)
Definition blank_record (db : DB) (emp : Z) (d : date) : Attendance :=
  mkAttendance (next_pk att_pk (attendances db)) emp d None None 0.

(** The records of the report that the viewer is shown: all of them for
    a staff viewer without a department filter, those of the department
    for a staff viewer with one, the viewer's own otherwise. *)
Definition shown_to (db : DB) (viewer : User) (dept : string) (j : joined)
  : bool :=
  if is_staff viewer
  then (dept =? "")%string || (department (j_emp j) =? dept)%string
  else match user_employee db viewer with
       | Ok own => att_employee (j_att j) =? emp_pk own
       | Raise _ => false
       end.

(** The stored records dated [first] to [last] that are shown to the
    viewer and carry the key [k], in table order. *)
Definition month_records (db : DB) (viewer : User) (dept : string)
    (first last : date) (k : group_key) : list Attendance :=
  filter (fun a =>
            (first <=? att_date a) && (att_date a <=? last)
            && match join db a with
               | Some j => shown_to db viewer dept j && key_eqb (key_of j) k
               | None => false
               end)
         (attendances db).

(** The table after a save that went through. *)
Definition saved_rows (a' : Attendance) (rows : list Attendance)
  : list Attendance :=
  if existsb (fun r => att_pk r =? att_pk a') rows
  then update_row att_pk a' rows
  else (rows ++ [a'])%list.

(** * Properties *)

(** ** Worked seconds *)

(** *** The float of [total_seconds] *)

Lemma round_half_even_bounds (n d : Z) :
  0 < d -> n / d <= round_half_even n d <= n / d + 1.
Proof.
  intros Hd. unfold round_half_even.
  destruct (2 * (n mod d) <? d); [lia|].
  destruct (d <? 2 * (n mod d)); [lia|].
  destruct (Z.even (n / d)); lia.
Qed.

Lemma round_half_even_up (n d : Z) :
  0 < d -> round_half_even n d = n / d + 1 -> d <= 2 * (n mod d).
Proof.
  intros Hd. unfold round_half_even.
  destruct (2 * (n mod d) <? d) eqn:E; [lia|]. lia.
Qed.

Lemma float_truediv_nonneg (n d : Z) :
  0 < n -> 0 < d -> 0 <= int_of_float (float_truediv n d).
Proof.
  intros Hn Hd. unfold int_of_float, float_truediv. cbn [fst snd].
  set (e := if _ <? _ then _ else _).
  assert (Hm : 0 <= round_half_even (fst (scaled n d e)) (snd (scaled n d e))).
  { unfold scaled. destruct (0 <=? e) eqn:E; cbn [fst snd].
    - assert (0 < 2 ^ e) by (apply Z.pow_pos_nonneg; lia).
      pose proof (round_half_even_bounds n (d * 2 ^ e) ltac:(nia)).
      assert (0 <= n / (d * 2 ^ e)) by (apply Z.div_pos; nia). lia.
    - assert (0 < 2 ^ (- e)) by (apply Z.pow_pos_nonneg; lia).
      pose proof (round_half_even_bounds (n * 2 ^ (- e)) d Hd).
      assert (0 <= (n * 2 ^ (- e)) / d) by (apply Z.div_pos; nia). lia. }
  destruct (0 <=? e) eqn:E.
  - assert (0 < 2 ^ e) by (apply Z.pow_pos_nonneg; lia). nia.
  - apply Z.div_pos; [exact Hm|]. apply Z.pow_pos_nonneg; lia.
Qed.

(** The exponent chosen for an interval below 2**34 seconds. *)
Lemma float_truediv_exponent (n : Z) :
  0 < n -> n < 2 ^ 34 * us_per_second ->
  snd (float_truediv n us_per_second) <= -19.
Proof.
  intros Hn Hlt. unfold float_truediv. cbn [snd].
  change (Z.log2 us_per_second) with 19.
  assert (Hlog : Z.log2 n < 54).
  { apply Z.log2_lt_pow2; [exact Hn|]. unfold us_per_second in Hlt. lia. }
  set (e0 := Z.log2 n - 19 - 53).
  destruct (_ <? _) eqn:E; [lia|].
  apply Z.ltb_ge in E.
  destruct (Z.eq_dec e0 (-19)) as [He|He]; [|lia].
  exfalso. rewrite He in E. unfold scaled in E. cbn in E.
  unfold us_per_second in *.
  assert (n * 524288 / 1000000 < 9007199254740992); [|lia].
  apply Z.div_lt_upper_bound; lia.
Qed.

Lemma exact_below_one (f P : Z) :
  0 <= f < us_per_second -> 2 ^ 19 <= P ->
  round_half_even (f * P) us_per_second < P.
Proof.
  intros Hf HP. unfold us_per_second in *.
  change (2 ^ 19) with 524288 in HP.
  pose proof (round_half_even_bounds (f * P) 1000000 ltac:(lia)) as Hb.
  pose proof (Z.div_mod (f * P) 1000000 ltac:(lia)) as Hdm.
  pose proof (Z.mod_pos_bound (f * P) 1000000 ltac:(lia)) as Hr.
  destruct (Z.eq_dec (round_half_even (f * P) 1000000)
                     (f * P / 1000000 + 1)) as [Hup|Hno].
  - apply round_half_even_up in Hup; [|lia].
    nia.
  - assert (round_half_even (f * P) 1000000 = f * P / 1000000) by lia.
    nia.
Qed.

Lemma int_of_float_exact (n : Z) :
  0 < n -> n < 2 ^ 34 * us_per_second ->
  int_of_float (float_truediv n us_per_second) = n / us_per_second.
Proof.
  intros Hn Hlt.
  pose proof (float_truediv_exponent n Hn Hlt) as He.
  unfold int_of_float. destruct (0 <=? snd _) eqn:E; [lia|]. clear E.
  unfold float_truediv in *. cbn [fst snd] in *.
  set (e := if _ <? _ then _ else _) in *.
  clearbody e.
  unfold scaled. destruct (0 <=? e) eqn:E; [lia|]. clear E. cbn [fst snd].
  set (P := 2 ^ (- e)).
  assert (HP : 2 ^ 19 <= P) by (apply Z.pow_le_mono_r; lia).
  assert (HP0 : 0 < P) by (change (2 ^ 19) with 524288 in HP; lia).
  pose proof (Z.div_mod n us_per_second ltac:(unfold us_per_second; lia)) as Hdm.
  pose proof (Z.mod_pos_bound n us_per_second ltac:(unfold us_per_second; lia))
    as Hf.
  set (N := n / us_per_second) in *. set (f := n mod us_per_second) in *.
  assert (Hnum : n * P = f * P + (N * P) * us_per_second) by lia.
  assert (Hround : round_half_even (n * P) us_per_second
                   = N * P + round_half_even (f * P) us_per_second).
  { unfold round_half_even. rewrite Hnum.
    rewrite Z.div_add, Z.mod_add by (unfold us_per_second; lia).
    cbv zeta.
    destruct (_ <? _); [lia|]. destruct (_ <? _); [lia|].
    rewrite (Z.add_comm _ (N * P)).
    replace (Z.even (N * P + f * P / us_per_second))
      with (Z.even (f * P / us_per_second)); [destruct (Z.even _); lia|].
    rewrite Z.even_add.
    assert (HevenP : Z.even (N * P) = true).
    { rewrite Z.even_mul. unfold P.
      replace (- e) with (Z.succ (- e - 1)) by lia.
      rewrite Z.pow_succ_r by lia. rewrite Z.even_mul. simpl.
      now rewrite orb_true_r. }
    rewrite HevenP. destruct (Z.even (f * P / us_per_second)); reflexivity. }
  rewrite Hround.
  pose proof (exact_below_one f P Hf HP) as Hlt1.
  pose proof (round_half_even_bounds (f * P) us_per_second
                ltac:(unfold us_per_second; lia)) as Hb.
  assert (0 <= f * P / us_per_second)
    by (apply Z.div_pos; [nia | unfold us_per_second; lia]).
  symmetry. apply Z.div_unique with (r := round_half_even (f * P) us_per_second).
  - left. lia.
  - lia.
Qed.

Lemma int_total_seconds_exact (delta : timedelta) :
  Z.abs delta < 2 ^ 34 * us_per_second ->
  int_total_seconds delta = Z.quot delta us_per_second.
Proof.
  intros Hlt. unfold int_total_seconds.
  destruct (Z.eqb_spec delta 0) as [->|Hne]; [reflexivity|].
  destruct (0 <? delta) eqn:E.
  - apply Z.ltb_lt in E. rewrite int_of_float_exact by lia.
    symmetry. apply Z.quot_div_nonneg; [lia | reflexivity].
  - apply Z.ltb_ge in E. rewrite int_of_float_exact by lia.
    rewrite <- (Z.quot_div_nonneg (- delta)) by (unfold us_per_second; lia).
    rewrite Z.quot_opp_l by (unfold us_per_second; lia). lia.
Qed.

Lemma int_total_seconds_nonneg (delta : timedelta) :
  0 <= delta -> 0 <= int_total_seconds delta.
Proof.
  intros H. unfold int_total_seconds.
  destruct (Z.eqb_spec delta 0) as [->|Hne]; [lia|].
  destruct (0 <? delta) eqn:E; [|lia].
  apply float_truediv_nonneg; [lia | reflexivity].
Qed.

Lemma int_total_seconds_neg (delta : timedelta) :
  delta < 0 -> int_total_seconds delta <= 0.
Proof.
  intros H. unfold int_total_seconds.
  destruct (Z.eqb_spec delta 0) as [->|Hne]; [lia|].
  destruct (0 <? delta) eqn:E; [lia|].
  pose proof (float_truediv_nonneg (- delta) us_per_second ltac:(lia) eq_refl).
  lia.
Qed.

(** Whole seconds, for an interval that is not negative and shorter
    than 2**34 seconds (some 544 years). *)
Lemma int_total_seconds_whole (delta : timedelta) :
  0 <= delta < 2 ^ 34 * us_per_second ->
  int_total_seconds delta = delta / us_per_second.
Proof.
  intros H. rewrite int_total_seconds_exact by lia.
  apply Z.quot_div_nonneg; [lia | reflexivity].
Qed.

(** From 2**34 seconds on the float has fewer than six decimal places
    left, and a fraction of 0.999999 is rounded up to the next second. *)
Example int_total_seconds_rounds_up :
  int_total_seconds 32319475199999999 = 32319475200
  /\ 32319475199999999 / us_per_second = 32319475199.
Proof. split; vm_compute; reflexivity. Qed.

(** *** The derived field *)

Lemma compute_worked_both (a : Attendance) (cin cout : datetime) :
  clock_in a = Some cin -> clock_out a = Some cout ->
  worked_seconds (compute_worked a)
  = Z.max 0 (int_total_seconds (cout - cin)).
Proof.
  intros Hi Ho. unfold compute_worked. rewrite Hi, Ho. reflexivity.
Qed.

Lemma compute_worked_fields (a : Attendance) :
  att_pk (compute_worked a) = att_pk a
  /\ att_employee (compute_worked a) = att_employee a
  /\ att_date (compute_worked a) = att_date a
  /\ clock_in (compute_worked a) = clock_in a
  /\ clock_out (compute_worked a) = clock_out a.
Proof.
  unfold compute_worked.
  destruct (clock_in a) eqn:Hi, (clock_out a) eqn:Ho; simpl;
    repeat split; auto.
Qed.

Lemma compute_worked_nonneg (a : Attendance) :
  0 <= worked_seconds a -> 0 <= worked_seconds (compute_worked a).
Proof.
  intros H. unfold compute_worked.
  destruct (clock_in a), (clock_out a); simpl; lia.
Qed.


(** *** The write of [super().save()] *)

Lemma Attendance_save_inv (a : Attendance) (db db' : DB) (r : Attendance) :
  Attendance_save a db = (db', Ok r) ->
  r = compute_worked a
  /\ db' = set_attendances db (saved_rows r (attendances db))
  /\ adaptable (clock_in r) = true /\ adaptable (clock_out r) = true
  /\ 0 <= worked_seconds r.
Proof.
  unfold Attendance_save, saved_rows.
  destruct (adaptable (clock_in (compute_worked a))) eqn:Hi;
    [|discriminate].
  destruct (adaptable (clock_out (compute_worked a))) eqn:Ho;
    [|discriminate].
  cbn [andb negb].
  destruct (worked_seconds (compute_worked a) <? 0) eqn:Hw; [discriminate|].
  apply Z.ltb_ge in Hw.
  destruct (existsb _ (filter _ _)); [discriminate|].
  destruct (negb (existsb _ (employees db))); [discriminate|].
  destruct (existsb _ (attendances db)) eqn:Hex; intros [= <- <-];
    rewrite Hex; repeat split; auto.
Qed.

Lemma Attendance_save_raises (a : Attendance) (db db' : DB) (e : exn) :
  Attendance_save a db = (db', Raise e) -> db' = db.
Proof.
  unfold Attendance_save.
  destruct (negb _); [now intros [= <- _]|].
  destruct (_ <? 0); [now intros [= <- _]|].
  destruct (existsb _ (filter _ _)); [now intros [= <- _]|].
  destruct (negb _); [now intros [= <- _]|].
  destruct (existsb _ (attendances db)); discriminate.
Qed.

(** A save goes through when the timestamps are UTC datetimes, the
    employee exists and no other row holds the pair. *)
Lemma Attendance_save_writes (a : Attendance) (db : DB) :
  adaptable (clock_in a) = true -> adaptable (clock_out a) = true ->
  0 <= worked_seconds (compute_worked a) ->
  (exists e, In e (employees db) /\ emp_pk e = att_employee a) ->
  (forall r, In r (attendances db) -> att_employee r = att_employee a ->
             att_date r = att_date a -> att_pk r = att_pk a) ->
  Attendance_save a db
  = (set_attendances db (saved_rows (compute_worked a) (attendances db)),
     Ok (compute_worked a)).
Proof.
  intros Hi Ho Hw (e & He & Hpk) Huniq.
  destruct (compute_worked_fields a) as (Fpk & Femp & Fdate & Fin & Fout).
  unfold Attendance_save, saved_rows. rewrite Fin, Fout, Hi, Ho.
  cbn [andb negb].
  destruct (worked_seconds (compute_worked a) <? 0) eqn:E; [lia|].
  replace (existsb _ (filter _ (attendances db))) with false.
  2:{ symmetry. apply not_true_is_false. intros Hex.
      apply existsb_exists in Hex. destruct Hex as (r & Hr & Hk).
      apply filter_In in Hr. destruct Hr as [Hr Hne].
      apply andb_true_iff in Hk. rewrite !Z.eqb_eq in Hk. destruct Hk as [K1 K2].
      apply negb_true_iff, Z.eqb_neq in Hne. apply Hne.
      rewrite Fpk. apply Huniq; congruence. }
  replace (existsb (fun e0 => emp_pk e0 =? att_employee (compute_worked a))
                   (employees db)) with true.
  2:{ symmetry. apply existsb_exists. exists e. split; [exact He|].
      apply Z.eqb_eq. congruence. }
  cbn [negb].
  destruct (existsb _ (attendances db)); reflexivity.
Qed.






(** The scenario end to end: EMP1 clocks in at 09:00 and out at 17:30 on
    2024-03-01 through [mark_attendance]. *)
Example emp1_clocks_in_and_out :
  let db0 := mkDB [mkUser 1 "emp1" "secret" "Asha" "Rao" false false true]
                  [mkEmployee 1 1 "EMP1" "IT" "Engineer" 19000] [] [] in
  let clock a hh mm :=
    mkRequest POST None
      (Some (mkMarkData "EMP1" a
               (Some (mkAware (local_datetime 2024 3 1 hh mm 0)
                              CurrentTimezone))))
      0 in
  let db1 := fst (mark_attendance (clock IN 9 0) db0) in
  let db2 := fst (mark_attendance (clock OUT 17 30) db1) in
  map worked_seconds (attendances db2) = [30600]
  /\ map att_date (attendances db2) = [days_from_civil 2024 3 1].
Proof. vm_compute. split; reflexivity. Qed.

(** ** Leave status under the admin actions *)

Section LeaveActions.

Variable k : Z.

Lemma find_map_same_pk (f : Leave -> Leave) (ls : list Leave) :
  (forall l, leave_pk (f l) = leave_pk l) ->
  find (fun l => leave_pk l =? k) (map f ls)
  = option_map f (find (fun l => leave_pk l =? k) ls).
Proof.
  intros Hpk. induction ls as [|l ls IH]; simpl; [reflexivity|].
  rewrite Hpk. destruct (leave_pk l =? k); [reflexivity | exact IH].
Qed.

Lemma selected_iff (pks : list Z) (l : Leave) :
  selected pks l = true <-> In (leave_pk l) pks.
Proof.
  unfold selected. rewrite existsb_exists. split.
  - intros (x & Hin & Heq). apply Z.eqb_eq in Heq. now subst.
  - intros Hin. exists (leave_pk l). split; [exact Hin | apply Z.eqb_refl].
Qed.

(** What one [queryset.update] does to the status of leave [k]. *)
Lemma status_of_queryset_update (s s0 : LeaveStatus) (now : datetime)
    (user : Z) (pks : list Z) (db : DB) :
  status_of k db = Some s0 ->
  status_of k (queryset_update pks (decide_leave s now user) db)
  = Some (if existsb (Z.eqb k) pks then s else s0).
Proof.
  unfold status_of, queryset_update. simpl. intros H.
  rewrite find_map_same_pk.
  - destruct (find (fun l => leave_pk l =? k) (leaves db)) as [l|] eqn:Hf;
      [|discriminate].
    apply find_some in Hf. destruct Hf as [_ Hk]. apply Z.eqb_eq in Hk.
    simpl in *. unfold selected. rewrite Hk.
    injection H as <-. destruct (existsb (Z.eqb k) pks); reflexivity.
  - intros l. destruct (selected pks l); reflexivity.
Qed.

Lemma status_of_run_step (st : admin_step) (db : DB) (s0 : LeaveStatus) :
  status_of k db = Some s0 ->
  status_of k (run_step st db)
  = Some (if existsb (Z.eqb k) (step_selection st)
          then target_status (step_action st) else s0).
Proof.
  intros H. unfold run_step, approve_leaves, reject_leaves.
  destruct (step_action st); simpl;
    now apply status_of_queryset_update.
Qed.

Lemma terminal_preserved_by_steps (sts : list admin_step) :
  forall (db : DB) (s : LeaveStatus),
    status_of k db = Some s -> terminal s = true ->
    exists s', status_of k (run_steps sts db) = Some s'
               /\ terminal s' = true.
Proof.
  induction sts as [|st sts IH]; intros db s Hs Ht.
  - exists s. split; assumption.
  - simpl. apply (status_of_run_step st) in Hs.
    eapply IH; [exact Hs|].
    destruct (existsb (Z.eqb k) (step_selection st)); [|exact Ht].
    destruct (step_action st); reflexivity.
Qed.

End LeaveActions.

(** C1, as stated, fails: rejecting an approved leave is neither refused
    nor a no-op; the leave moves from APPROVED to REJECTED and its
    approver and approval time are overwritten. *)
Lemma C1_approved_leave_can_be_rejected :
  let l := mkLeave 1 1 19783 19785 "family event" APPROVED 100 (Some 7)
                   (Some 200) in
  let db := mkDB [] [] [] [l] in
  let db' := reject_leaves 8 300 [1] db in
  status_of 1 db = Some APPROVED
  /\ status_of 1 db' = Some REJECTED
  /\ leaves db' = [mkLeave 1 1 19783 19785 "family event" REJECTED 100
                           (Some 8) (Some 300)]
  /\ db' <> db.
Proof.
  simpl. repeat split; try reflexivity. discriminate.
Qed.

(** C1, amended: no sequence of approve and reject steps takes a leave
    from APPROVED or REJECTED back to PENDING (nor removes it), but each
    step is unconditional: a selected leave gets the status of the action,
    whatever its status was, and a leave that is not selected keeps its
    status. *)
Theorem C1_leave_never_reverts_to_pending (k : Z) (db : DB)
    (s : LeaveStatus) :
  status_of k db = Some s ->
  (forall st,
      status_of k (run_step st db)
      = Some (if existsb (Z.eqb k) (step_selection st)
              then target_status (step_action st) else s))
  /\ (terminal s = true ->
      forall sts, exists s',
          status_of k (run_steps sts db) = Some s' /\ terminal s' = true
          /\ s' <> PENDING).
Proof.
  intros Hs. split.
  - intros st. now apply status_of_run_step.
  - intros Ht sts.
    destruct (terminal_preserved_by_steps k sts db s Hs Ht) as (s' & H1 & H2).
    exists s'. repeat split; try assumption.
    intros ->. discriminate.
Qed.

(** An approved leave, rejected and then approved again. *)
Lemma C1_leave_never_reverts_witness :
  let db := mkDB [] [] []
                 [mkLeave 1 1 19783 19785 "" APPROVED 100 (Some 7) (Some 200)] in
  exists s',
    status_of 1 (run_steps [mkStep Reject 8 300 [1]; mkStep Approve 9 400 [1; 2]]
                           db) = Some s'
    /\ terminal s' = true /\ s' <> PENDING.
Proof.
  intros db.
  exact (proj2 (C1_leave_never_reverts_to_pending 1 db APPROVED eq_refl)
               eq_refl
               [mkStep Reject 8 300 [1]; mkStep Approve 9 400 [1; 2]]).
Defined.

(** ** Registration *)

Lemma next_pk_fresh {A : Type} (pk : A -> Z) (rows : list A) (r : A) :
  In r rows -> pk r < next_pk pk rows.
Proof.
  unfold next_pk. induction rows as [|x rows IH]; cbn [fold_right In].
  - intros [].
  - intros [-> | Hin]; [lia|]. specialize (IH Hin). lia.
Qed.

Lemma create_user_ok (uname pw first last : string) (db db1 : DB) (u : User) :
  create_user uname pw first last db = (db1, Ok u) ->
  uname <> ""
  /\ existsb (fun x => (username x =? uname)%string) (users db) = false
  /\ u = mkUser (next_pk user_id (users db)) uname pw first last
                false false true
  /\ db1 = set_users db (users db ++ [u]).
Proof.
  unfold create_user.
  destruct (String.eqb_spec uname "") as [|Hne]; [discriminate|].
  destruct (existsb _ (users db)) eqn:Hex; [discriminate|].
  intros H. injection H as <- <-. repeat split; auto.
Qed.

Lemma create_user_fresh (uname pw first last : string) (db : DB) :
  uname <> "" ->
  existsb (fun x => (username x =? uname)%string) (users db) = false ->
  let u := mkUser (next_pk user_id (users db)) uname pw first last
                  false false true in
  create_user uname pw first last db
  = (set_users db (users db ++ [u]), Ok u).
Proof.
  intros Hne Hex. unfold create_user.
  destruct (String.eqb_spec uname "") as [|_]; [contradiction|].
  rewrite Hex. reflexivity.
Qed.

Lemma no_user_named (uname : string) (us : list User) :
  existsb (fun x => (username x =? uname)%string) us = false ->
  forall u, In u us -> username u <> uname.
Proof.
  intros Hex u Hin Heq.
  assert (existsb (fun x => (username x =? uname)%string) us = true).
  { apply existsb_exists. exists u. split; [exact Hin|].
    now apply String.eqb_eq. }
  congruence.
Qed.

(** The user the block holds when it reaches [Employee.objects.create],
    and the database at that point. *)
Lemma register_body_after_user (now : datetime) (data : RegisterData)
    (db db1 : DB) (u : User) :
  create_user (reg_username data) (reg_password data)
              (reg_first_name data) (reg_last_name data) db = (db1, Ok u) ->
  exists db2 u2,
    user_id u2 = user_id u /\ username u2 = username u
    /\ employees db2 = employees db
    /\ (reg_is_admin data = true ->
        u2 = with_admin_flags u
        /\ users db2 = update_row user_id u2 (users db1))
    /\ (reg_is_admin data = false -> u2 = u /\ db2 = db1)
    /\ register_body now data db
       = match Employee_create now u2 (reg_employee_id data)
                 (reg_department data) (reg_designation data) db2 with
         | (db3, Ok emp) => (db3, Ok (emp, u2))
         | (db3, Raise e) => (db3, Raise e)
         end.
Proof.
  intros Hc. pose proof (create_user_ok _ _ _ _ _ _ _ Hc) as (_ & _ & _ & Hdb1).
  unfold register_body, bind. rewrite Hc.
  destruct (reg_is_admin data) eqn:Hadm.
  - exists (set_users db1 (update_row user_id (with_admin_flags u) (users db1))),
           (with_admin_flags u).
    unfold User_save, ret. simpl.
    repeat split; try reflexivity; try discriminate.
    subst db1. reflexivity.
  - exists db1, u. unfold ret.
    repeat split; try reflexivity; try discriminate.
    subst db1. reflexivity.
Qed.

Lemma Employee_create_raises (now : datetime) (u : User)
    (eid dept desig : string) (db db' : DB) (e : exn) :
  Employee_create now u eid dept desig db = (db', Raise e) ->
  db' = db
  /\ (e = IntegrityError "attendance_employee.employee_id"
      \/ e = IntegrityError "attendance_employee.user_id").
Proof.
  unfold Employee_create.
  destruct (existsb (by_employee_id eid) (employees db)).
  - intros H. injection H as <- <-. auto.
  - destruct (existsb _ (employees db)).
    + intros H. injection H as <- <-. auto.
    + discriminate.
Qed.

(** A duplicate [employee_id] makes the block fail once the account row
    has been written. *)
Lemma duplicate_employee_id_fails (now : datetime) (data : RegisterData)
    (db db1 : DB) (u : User) :
  create_user (reg_username data) (reg_password data)
              (reg_first_name data) (reg_last_name data) db = (db1, Ok u) ->
  existsb (by_employee_id (reg_employee_id data)) (employees db) = true ->
  snd (register_body now data db)
  = Raise (IntegrityError "attendance_employee.employee_id")
  /\ exists u', In u' (users (fst (register_body now data db)))
                /\ username u' = reg_username data.
Proof.
  intros Hc Hdup.
  destruct (register_body_after_user now data db db1 u Hc)
    as (db2 & u2 & Hid & Hname & Hemp & Hadm & Hnot & ->).
  pose proof (create_user_ok _ _ _ _ _ _ _ Hc) as (_ & _ & Hu & Hdb1).
  unfold Employee_create. rewrite Hemp, Hdup. simpl. split; [reflexivity|].
  exists u2. split.
  - destruct (reg_is_admin data).
    + destruct (Hadm eq_refl) as [Hu2 ->]. unfold update_row.
      apply in_map_iff. exists u. rewrite Hid, Z.eqb_refl. split; [reflexivity|].
      subst db1. simpl. apply in_or_app. right. now left.
    + destruct (Hnot eq_refl) as [-> ->]. subst db1. simpl.
      apply in_or_app. right. now left.
  - rewrite Hname, Hu. reflexivity.
Qed.

(** C4: when the account row has been created and the creation of the
    employee then fails, the handler reports the failure and the database
    is the one before the request: the account row is gone and no user
    with the submitted name is left without an employee. *)
Theorem C4_registration_rolls_back (req : request (option RegisterData))
    (data : RegisterData) (db db1 : DB) (u : User) (e : exn) :
  req_method req = POST -> req_data req = Some data ->
  create_user (reg_username data) (reg_password data)
              (reg_first_name data) (reg_last_name data) db = (db1, Ok u) ->
  snd (register_body (req_now req) data db) = Raise e ->
  In u (users db1)
  /\ (e = IntegrityError "attendance_employee.employee_id"
      \/ e = IntegrityError "attendance_employee.user_id")
  /\ register_employee req db = (db, RegisterFailed e)
  /\ (forall u', In u' (users (fst (register_employee req db))) ->
                 username u' <> reg_username data).
Proof.
  intros Hm Hd Hc Hraise.
  pose proof (create_user_ok _ _ _ _ _ _ _ Hc) as (_ & Hex & _ & Hdb1).
  destruct (register_body_after_user (req_now req) data db db1 u Hc)
    as (db2 & u2 & _ & _ & _ & _ & _ & Hbody).
  assert (Hreg : register_employee req db = (db, RegisterFailed e)).
  { unfold register_employee, atomic. rewrite Hm, Hd.
    destruct (register_body (req_now req) data db) as [db3 [[emp usr]|e']];
      simpl in Hraise; [discriminate|]. now injection Hraise as ->. }
  repeat split.
  - subst db1. simpl. apply in_or_app. right. now left.
  - rewrite Hbody in Hraise.
    destruct (Employee_create _ _ _ _ _ _) as [db3 [emp|e']] eqn:Hcreate;
      simpl in Hraise; [discriminate|].
    injection Hraise as ->.
    now apply Employee_create_raises in Hcreate.
  - exact Hreg.
  - rewrite Hreg. simpl. now apply no_user_named.
Qed.

(** A registration that reuses EMP1: the new account is written inside
    the block and is gone after the request. *)
Lemma C4_registration_rolls_back_witness :
  let db := mkDB [mkUser 1 "asha" "secret" "Asha" "Rao" false false true]
                 [mkEmployee 1 1 "EMP1" "IT" "Engineer" 19000] [] [] in
  let data := mkRegisterData "ravi" "Ravi" "Iyer" "secret" "EMP1" "HR"
                             "Recruiter" false in
  let req := mkRequest POST None (Some data) 0 in
  users (fst (register_body 0 data db))
  = [mkUser 1 "asha" "secret" "Asha" "Rao" false false true;
     mkUser 2 "ravi" "secret" "Ravi" "Iyer" false false true]
  /\ register_employee req db
     = (db, RegisterFailed (IntegrityError "attendance_employee.employee_id")).
Proof.
  intros db data req. split; [reflexivity|].
  exact (proj1 (proj2 (proj2
    (C4_registration_rolls_back req data db
       (set_users db (users db ++ [mkUser 2 "ravi" "secret" "Ravi" "Iyer"
                                          false false true]))
       (mkUser 2 "ravi" "secret" "Ravi" "Iyer" false false true)
       (IntegrityError "attendance_employee.employee_id")
       eq_refl eq_refl eq_refl eq_refl)))).
Defined.

Lemma update_row_in {A : Type} (pk : A -> Z) (r r0 : A) (rows : list A) :
  In r0 rows -> pk r0 = pk r -> In r (update_row pk r rows).
Proof.
  intros Hin Hpk. unfold update_row. apply in_map_iff.
  exists r0. rewrite Hpk, Z.eqb_refl. auto.
Qed.

Lemma fresh_user_not_linked (db : DB) (k : Z) :
  fk_employee_user db -> k = next_pk user_id (users db) ->
  existsb (fun e => emp_user e =? k) (employees db) = false.
Proof.
  intros Hfk ->. apply not_true_is_false. intros Hex.
  apply existsb_exists in Hex. destruct Hex as (e & Hin & Heq).
  apply Z.eqb_eq in Heq. destruct (Hfk e Hin) as (u & Hu & Hid).
  pose proof (next_pk_fresh user_id (users db) u Hu). lia.
Qed.

(** C9: a registration with [is_admin] set, submitted with a free user
    name and a free employee id, succeeds whoever sends it (the handler
    never reads the session) and stores an account with both [is_staff]
    and [is_superuser] set, linked to the new employee. *)
Theorem C9_open_registration_creates_admin
    (req : request (option RegisterData)) (data : RegisterData) (db : DB) :
  req_method req = POST -> req_data req = Some data ->
  reg_is_admin data = true ->
  reg_username data <> "" ->
  existsb (fun u => (username u =? reg_username data)%string) (users db)
  = false ->
  existsb (by_employee_id (reg_employee_id data)) (employees db) = false ->
  fk_employee_user db ->
  exists db' emp user,
    register_employee req db = (db', Registered emp user)
    /\ username user = reg_username data
    /\ is_staff user = true /\ is_superuser user = true
    /\ In user (users db') /\ In emp (employees db')
    /\ emp_user emp = user_id user
    /\ employee_id emp = reg_employee_id data
    /\ forall session,
        register_employee
          (mkRequest POST session (Some data) (req_now req)) db
        = (db', Registered emp user).
Proof.
  intros Hm Hd Hadm Hne Hfree Heid Hfk.
  pose proof (create_user_fresh (reg_username data) (reg_password data)
                (reg_first_name data) (reg_last_name data) db Hne Hfree) as Hc.
  cbv zeta in Hc.
  set (u := mkUser (next_pk user_id (users db)) (reg_username data)
                   (reg_password data) (reg_first_name data)
                   (reg_last_name data) false false true) in *.
  destruct (register_body_after_user (req_now req) data db _ u Hc)
    as (db2 & u2 & Hid & Hname & Hemp & Hyes & _ & Hbody).
  destruct (Hyes Hadm) as [Hu2 Husers].
  assert (Hcreate :
            Employee_create (req_now req) u2 (reg_employee_id data)
              (reg_department data) (reg_designation data) db2
            = (set_employees db2
                 (employees db2
                  ++ [mkEmployee (next_pk emp_pk (employees db2)) (user_id u2)
                        (reg_employee_id data) (reg_department data)
                        (reg_designation data) (local_date (req_now req))]),
               Ok (mkEmployee (next_pk emp_pk (employees db2)) (user_id u2)
                     (reg_employee_id data) (reg_department data)
                     (reg_designation data) (local_date (req_now req))))).
  { unfold Employee_create. rewrite Hemp, Heid.
    rewrite (fresh_user_not_linked db (user_id u2) Hfk); [reflexivity|].
    rewrite Hid. reflexivity. }
  rewrite Hcreate in Hbody.
  eexists _, _, u2.
  assert (Hany : forall session,
             register_employee
               (mkRequest POST session (Some data) (req_now req)) db
             = (set_employees db2
                  (employees db2
                   ++ [mkEmployee (next_pk emp_pk (employees db2)) (user_id u2)
                         (reg_employee_id data) (reg_department data)
                         (reg_designation data) (local_date (req_now req))]),
                Registered
                  (mkEmployee (next_pk emp_pk (employees db2)) (user_id u2)
                     (reg_employee_id data) (reg_department data)
                     (reg_designation data) (local_date (req_now req)))
                  u2)).
  { intros session. unfold register_employee, atomic. simpl.
    rewrite Hbody. reflexivity. }
  split.
  { unfold register_employee, atomic. rewrite Hm, Hd, Hbody. reflexivity. }
  split; [rewrite Hname; reflexivity|].
  split; [rewrite Hu2; reflexivity|].
  split; [rewrite Hu2; reflexivity|].
  split.
  { simpl. rewrite Husers. apply update_row_in with (r0 := u).
    - simpl. apply in_or_app. right. now left.
    - symmetry. exact Hid. }
  split; [simpl; apply in_or_app; right; now left|].
  split; [reflexivity|].
  split; [reflexivity|].
  exact Hany.
Qed.

(** An anonymous visitor registers an administrator on an empty
    database. *)
Lemma C9_open_registration_witness :
  exists db' emp user,
    register_employee
      (mkRequest POST None
         (Some (mkRegisterData "mallory" "M" "" "secret" "EMP9" "" "" true)) 0)
      empty_db = (db', Registered emp user)
    /\ is_staff user = true /\ is_superuser user = true.
Proof.
  destruct (C9_open_registration_creates_admin
              (mkRequest POST None
                 (Some (mkRegisterData "mallory" "M" "" "secret" "EMP9" "" ""
                                       true)) 0)
              (mkRegisterData "mallory" "M" "" "secret" "EMP9" "" "" true)
              empty_db eq_refl eq_refl eq_refl
              ltac:(discriminate) eq_refl eq_refl
              ltac:(intros e []))
    as (db' & emp & user & H & _ & Hs & Hsu & _).
  exists db', emp, user. auto.
Defined.

(** ** Queries that return one row *)

Lemma get_unique_ok {A : Type} (p : A -> bool) (rows : list A) (r : A) :
  get_unique p rows = Ok r -> filter p rows = [r].
Proof.
  unfold get_unique. destruct (filter p rows) as [|x [|y l]]; try discriminate.
  now intros [= ->].
Qed.

Lemma get_unique_in {A : Type} (p : A -> bool) (rows : list A) (r : A) :
  get_unique p rows = Ok r -> In r rows /\ p r = true.
Proof.
  intros H. apply get_unique_ok in H. apply filter_In. rewrite H. now left.
Qed.

Lemma get_unique_only {A : Type} (p : A -> bool) (rows : list A) (r x : A) :
  get_unique p rows = Ok r -> In x rows -> p x = true -> x = r.
Proof.
  intros H Hin Hp. apply get_unique_ok in H.
  assert (Hx : In x (filter p rows)) by (apply filter_In; auto).
  rewrite H in Hx. destruct Hx as [<-|[]]. reflexivity.
Qed.

Lemma Forall2_map_self {A : Type} (R : A -> A -> Prop) (f : A -> A)
    (l : list A) :
  (forall x, In x l -> R x (f x)) -> Forall2 R l (map f l).
Proof.
  induction l as [|x l IH]; intros H; simpl; constructor.
  - apply H. now left.
  - apply IH. intros y Hy. apply H. now right.
Qed.

(** ** Applying for leave *)

(** What [LeaveApplyForm] makes of a valid submission. *)
Lemma LeaveApplyForm_instance_some (p : LeavePost)
    (mk : Z -> Z -> datetime -> Leave) :
  LeaveApplyForm_instance p = Some mk ->
  exists s e,
    post_start_date p = Some s /\ post_end_date p = Some e
    /\ has_nul (post_reason p) = false
    /\ mk = fun pk emp now =>
              mkLeave pk emp s e (strip (post_reason p)) PENDING now
                      None None.
Proof.
  unfold LeaveApplyForm_instance.
  destruct (post_start_date p) as [s|]; [|discriminate].
  destruct (post_end_date p) as [e|]; [|discriminate].
  destruct (has_nul (post_reason p)); [discriminate|].
  intros [= <-]. exists s, e. auto.
Qed.

(** C10: a leave created by [apply_leave] belongs to the employee of the
    logged-in user, whatever was submitted; its status is PENDING and its
    approver and approval time are unset.  The submitted data supplies
    the two dates and the reason only, the reason with the white space
    at its ends stripped. *)
Theorem C10_leave_bound_to_viewer (req : request LeavePost) (db db' : DB)
    (l : Leave) :
  apply_leave req db = (db', LeaveSubmitted l) ->
  exists viewer emp,
    request_user db req = Some viewer
    /\ In emp (employees db) /\ emp_user emp = user_id viewer
    /\ (forall e, In e (employees db) -> emp_user e = user_id viewer ->
                  e = emp)
    /\ leave_employee l = emp_pk emp
    /\ status l = PENDING /\ approved_by l = None /\ approved_at l = None
    /\ post_start_date (req_data req) = Some (start_date l)
    /\ post_end_date (req_data req) = Some (end_date l)
    /\ reason l = strip (post_reason (req_data req))
    /\ applied_at l = req_now req
    /\ leaves db' = (leaves db ++ [l])%list
    /\ users db' = users db /\ employees db' = employees db
    /\ attendances db' = attendances db.
Proof.
  unfold apply_leave. intros H.
  destruct (request_user db req) as [viewer|]; [|discriminate].
  destruct (req_method req); [discriminate|].
  destruct (LeaveApplyForm_instance (req_data req)) as [mk|] eqn:Hform;
    [|discriminate].
  apply LeaveApplyForm_instance_some in Hform.
  destruct Hform as (s & e & Hs & He & _ & ->).
  destruct (user_employee db viewer) as [emp|ex] eqn:Hemp; [|discriminate].
  unfold Leave_insert in H. injection H as <- <-.
  unfold user_employee in Hemp.
  pose proof (get_unique_in _ _ _ Hemp) as [Hin Hlink].
  apply Z.eqb_eq in Hlink.
  exists viewer, emp. simpl.
  repeat split; try reflexivity; try assumption.
  intros e0 He0 Hl0. eapply get_unique_only; eauto. now apply Z.eqb_eq.
Qed.

(** The user of EMP2 submits a form that also names employee 1 and an
    approved status, with a reason between spaces and line ends. *)
Lemma C10_leave_bound_to_viewer_witness :
  let db := mkDB [mkUser 1 "asha" "secret" "Asha" "Rao" false false true;
                  mkUser 2 "ravi" "secret" "Ravi" "Iyer" false false true]
                 [mkEmployee 1 1 "EMP1" "IT" "Engineer" 19000;
                  mkEmployee 2 2 "EMP2" "HR" "Recruiter" 19000] [] [] in
  let reason_sent :=
    String " " (String "009" ("travel" ++ String "013" (String "010" ""))) in
  let req := mkRequest POST (Some 2)
               (mkLeavePost (Some 19790) (Some 19792) reason_sent
                  [("employee", "1"); ("status", "APPROVED")]) 500 in
  exists viewer emp l,
    apply_leave req db = (set_leaves db [l], LeaveSubmitted l)
    /\ request_user db req = Some viewer
    /\ In emp (employees db) /\ emp_user emp = user_id viewer
    /\ emp_pk emp = 2 /\ leave_employee l = 2 /\ status l = PENDING
    /\ reason l = "travel".
Proof.
  intros db reason_sent req.
  destruct (C10_leave_bound_to_viewer req db
              (set_leaves db [mkLeave 1 2 19790 19792 "travel" PENDING 500
                                      None None])
              (mkLeave 1 2 19790 19792 "travel" PENDING 500 None None)
              eq_refl)
    as (viewer & emp & H1 & H2 & H3 & _ & H5 & H6 & _ & _ & _ & _ & H7 & _).
  exists viewer, emp,
    (mkLeave 1 2 19790 19792 "travel" PENDING 500 None None).
  split; [reflexivity|]. repeat split; try assumption.
  symmetry. exact H5.
Defined.

(** ** Termination and activation *)

Lemma with_is_active_same (flag : bool) (u : User) :
  same_except_active u (with_is_active flag u).
Proof. unfold same_except_active. simpl. repeat split. Qed.

Lemma same_except_active_refl (u : User) : same_except_active u u.
Proof. unfold same_except_active. repeat split. Qed.

Lemma Forall2_same_except_active_refl (us : list User) :
  Forall2 same_except_active us us.
Proof.
  induction us; constructor; auto using same_except_active_refl.
Qed.

Lemma toggle_frame_unchanged (flag : bool) (db : DB) (o : toggle_outcome) :
  (forall emp, o <> Toggled emp) -> toggle_frame flag db (db, o).
Proof.
  intros Hnot. unfold toggle_frame. simpl.
  split; [reflexivity|]. split; [reflexivity|]. split; [reflexivity|].
  split; [apply Forall2_same_except_active_refl|].
  split; [|reflexivity].
  intros emp H. now apply Hnot in H.
Qed.

Lemma set_employee_active_frame (flag : bool) (req : request string)
    (db : DB) :
  toggle_frame flag db (set_employee_active flag req db).
Proof.
  unfold set_employee_active.
  destruct (request_user db req) as [viewer|];
    [|now apply toggle_frame_unchanged].
  destruct (is_staff viewer); simpl; [|now apply toggle_frame_unchanged].
  destruct (req_method req); [now apply toggle_frame_unchanged|].
  destruct (get_unique (by_employee_id (req_data req)) (employees db))
    as [emp|ex] eqn:Hemp.
  2:{ destruct ex; now apply toggle_frame_unchanged. }
  destruct (get_unique (by_user_pk (emp_user emp)) (users db))
    as [u|ex] eqn:Hu; [|now apply toggle_frame_unchanged].
  unfold User_save, toggle_frame. simpl.
  pose proof (get_unique_ok _ _ _ Hu) as Hfilter.
  pose proof (get_unique_in _ _ _ Hu) as [Hin Hpk].
  unfold by_user_pk in Hpk. apply Z.eqb_eq in Hpk.
  assert (Hrow : forall x, In x (users db) ->
                           (user_id x =? user_id (with_is_active flag u)) = true ->
                           x = u).
  { intros x Hx Hx'. simpl in Hx'. rewrite Hpk in Hx'.
    eapply get_unique_only; eauto. }
  split; [reflexivity|]. split; [reflexivity|]. split; [reflexivity|].
  split; [|split].
  - unfold update_row. apply Forall2_map_self. intros x Hx.
    destruct (user_id x =? user_id (with_is_active flag u)) eqn:E.
    + rewrite (Hrow x Hx E). apply with_is_active_same.
    + apply same_except_active_refl.
  - intros emp' [= <-]. split; [apply (get_unique_in _ _ _ Hemp)|].
    exists u. split; [exact Hfilter|].
    unfold update_row. apply Forall2_map_self. intros x Hx.
    destruct (user_id x =? user_id (with_is_active flag u)) eqn:E.
    + left. split; [apply (Hrow x Hx E) | reflexivity].
    + right. split; [|reflexivity]. intros ->. simpl in E.
      rewrite Z.eqb_refl in E. discriminate.
  - intros Hnot. exfalso. apply (Hnot emp). reflexivity.
Qed.

(** A POST by an active staff user that names an existing employee whose
    user row exists does toggle. *)
Lemma set_employee_active_toggles (flag : bool) (req : request string)
    (db : DB) (viewer : User) (emp : Employee) (u : User) :
  request_user db req = Some viewer -> is_staff viewer = true ->
  req_method req = POST ->
  get_unique (by_employee_id (req_data req)) (employees db) = Ok emp ->
  get_unique (by_user_pk (emp_user emp)) (users db) = Ok u ->
  set_employee_active flag req db
  = (set_users db (update_row user_id (with_is_active flag u) (users db)),
     Toggled emp).
Proof.
  intros Hv Hs Hm Hemp Hu. unfold set_employee_active.
  rewrite Hv, Hs, Hm, Hemp, Hu. reflexivity.
Qed.

(** C7: [terminate_employee] and [activate_employee] leave the employee,
    attendance and leave tables as they were and keep every user row; the
    only row that can differ is the user of the named employee, and only
    in [is_active], which becomes false on termination and true on
    activation. *)
Theorem C7_toggle_changes_only_active_flag (req : request string) (db : DB) :
  toggle_frame false db (terminate_employee req db)
  /\ toggle_frame true db (activate_employee req db).
Proof.
  split; apply set_employee_active_frame.
Qed.

(** A staff user terminates EMP2. *)
Lemma C7_toggle_witness :
  let db := mkDB [mkUser 1 "admin" "secret" "Ada" "Min" true true true;
                  mkUser 2 "ravi" "secret" "Ravi" "Iyer" false false true]
                 [mkEmployee 1 2 "EMP2" "HR" "Recruiter" 19000]
                 [mkAttendance 1 1 19783 (Some 5) None 0]
                 [mkLeave 1 1 19790 19792 "travel" PENDING 500 None None] in
  let r := terminate_employee (mkRequest POST (Some 1) "EMP2" 0) db in
  snd r = Toggled (mkEmployee 1 2 "EMP2" "HR" "Recruiter" 19000)
  /\ map is_active (users (fst r)) = [true; false]
  /\ toggle_frame false db r.
Proof.
  intros db r. split; [reflexivity|]. split; [reflexivity|].
  exact (proj1 (C7_toggle_changes_only_active_flag
                  (mkRequest POST (Some 1) "EMP2" 0) db)).
Defined.

(** ** Marking attendance *)

Section ListFacts.

Context {A : Type}.

Lemma filter_map_commute (q : A -> bool) (f : A -> A) (l : list A) :
  (forall x, In x l -> q (f x) = q x) ->
  filter q (map f l) = map f (filter q l).
Proof.
  induction l as [|x l IH]; intros H; simpl; [reflexivity|].
  rewrite (H x (or_introl eq_refl)).
  rewrite IH by (intros y Hy; apply H; now right).
  destruct (q x); reflexivity.
Qed.

Lemma map_fixed (f : A -> A) (l : list A) :
  (forall x, In x l -> f x = x) -> map f l = l.
Proof.
  intros H. rewrite <- (map_id l) at 2. now apply map_ext_in.
Qed.

Lemma NoDup_snoc (l : list Z) (x : Z) :
  NoDup l -> ~ In x l -> NoDup (l ++ [x]).
Proof.
  induction l as [|y l IH]; intros Hnd Hx; simpl.
  - constructor; [intros [] | constructor].
  - inversion Hnd as [|y' l' Hy Hl]; subst. constructor.
    + rewrite in_app_iff. intros [Hin | [-> | []]]; [auto|].
      apply Hx. now left.
    + apply IH; [exact Hl|]. intros Hin. apply Hx. now right.
Qed.

Lemma pk_unique_eq (pk : A -> Z) (rows : list A) (x y : A) :
  pk_unique pk rows -> In x rows -> In y rows -> pk x = pk y -> x = y.
Proof.
  unfold pk_unique. induction rows as [|r rows IH]; simpl; [intros _ []|].
  intros Hnd Hx Hy Hpk. inversion Hnd as [|k ks Hk Hks]; subst.
  destruct Hx as [<-|Hx], Hy as [<-|Hy]; auto.
  - exfalso. apply Hk. rewrite Hpk. now apply in_map.
  - exfalso. apply Hk. rewrite <- Hpk. now apply in_map.
Qed.

End ListFacts.

Lemma att_key_true (emp : Z) (d : date) (a : Attendance) :
  att_key emp d a = true <-> att_employee a = emp /\ att_date a = d.
Proof.
  unfold att_key. rewrite andb_true_iff, !Z.eqb_eq. reflexivity.
Qed.

(** [get_or_create] under the table's constraints: it cannot raise, and
    afterwards the table holds exactly one record for the pair. *)
Lemma Attendance_get_or_create_spec (emp : Z) (d : date) (db : DB) :
  attendance_table_ok db ->
  exists a created,
    let db1 := fst (Attendance_get_or_create emp d db) in
    snd (Attendance_get_or_create emp d db) = Ok (a, created)
    /\ filter (att_key emp d) (attendances db1) = [a]
    /\ attendance_table_ok db1
    /\ other_records emp d (attendances db1)
       = other_records emp d (attendances db)
    /\ users db1 = users db /\ employees db1 = employees db
    /\ leaves db1 = leaves db
    /\ (created = false -> db1 = db).
Proof.
  intros [Hpk Huniq]. unfold Attendance_get_or_create, get_unique.
  pose proof (Huniq emp d) as Hlen.
  destruct (filter (att_key emp d) (attendances db)) as [|a [|b l]] eqn:Hf.
  - set (a0 := mkAttendance (next_pk att_pk (attendances db)) emp d
                            None None 0).
    assert (Hk : att_key emp d a0 = true).
    { apply att_key_true. split; reflexivity. }
    exists a0, true. simpl.
    split; [reflexivity|]. split.
    { rewrite filter_app, Hf. simpl. rewrite Hk. reflexivity. }
    split.
    { split; simpl.
      - unfold pk_unique. rewrite map_app. simpl. apply NoDup_snoc; [exact Hpk|].
        intros Hin. apply in_map_iff in Hin. destruct Hin as (x & Hx & Hin).
        pose proof (next_pk_fresh att_pk _ x Hin). simpl in Hx. lia.
      - intros e' d'. rewrite filter_app, length_app. simpl.
        destruct (att_key e' d' a0) eqn:Hk'; simpl.
        + apply att_key_true in Hk'. simpl in Hk'. destruct Hk' as [<- <-].
          rewrite Hf. simpl. lia.
        + pose proof (Huniq e' d'). lia. }
    split.
    { unfold other_records. rewrite filter_app. simpl. rewrite Hk. simpl.
      apply app_nil_r. }
    repeat split. discriminate.
  - exists a, false. simpl. repeat split; auto.
  - simpl in Hlen. lia.
Qed.

(** Saving a changed copy of the one record for the pair. *)
Lemma Attendance_save_spec (emp : Z) (d : date) (a a2 : Attendance)
    (db : DB) :
  attendance_table_ok db ->
  filter (att_key emp d) (attendances db) = [a] ->
  att_pk a2 = att_pk a -> att_employee a2 = att_employee a ->
  att_date a2 = att_date a ->
  let db2 := set_attendances db
               (saved_rows (compute_worked a2) (attendances db)) in
  filter (att_key emp d) (attendances db2) = [compute_worked a2]
  /\ attendance_table_ok db2
  /\ other_records emp d (attendances db2)
     = other_records emp d (attendances db)
  /\ users db2 = users db /\ employees db2 = employees db
  /\ leaves db2 = leaves db.
Proof.
  intros [Hpk Huniq] Hf Hpk2 Hemp2 Hdate2.
  destruct (compute_worked_fields a2) as (Hcpk & Hcemp & Hcdate & _ & _).
  set (a' := compute_worked a2) in *.
  assert (Hina : In a (attendances db) /\ att_key emp d a = true).
  { apply filter_In. rewrite Hf. now left. }
  destruct Hina as [Hina Hka].
  assert (Hex : existsb (fun r => att_pk r =? att_pk a') (attendances db)
                = true).
  { apply existsb_exists. exists a. split; [exact Hina|].
    apply Z.eqb_eq. congruence. }
  unfold saved_rows. rewrite Hex.
  set (f := fun x => if att_pk x =? att_pk a' then a' else x).
  assert (Hhit : forall x, In x (attendances db) ->
                           (att_pk x =? att_pk a') = true -> x = a).
  { intros x Hx E. apply Z.eqb_eq in E.
    apply (pk_unique_eq att_pk (attendances db)); auto. congruence. }
  assert (Hkey : forall e' d' x, In x (attendances db) ->
                                 att_key e' d' (f x) = att_key e' d' x).
  { intros e' d' x Hx. unfold f.
    destruct (att_pk x =? att_pk a') eqn:E; [|reflexivity].
    rewrite (Hhit x Hx E). unfold att_key. congruence. }
  simpl. change (update_row att_pk a' (attendances db))
    with (map f (attendances db)).
  split.
  { rewrite filter_map_commute by (intros; now apply Hkey).
    rewrite Hf. simpl. unfold f.
    replace (att_pk a =? att_pk a') with true
      by (symmetry; apply Z.eqb_eq; congruence).
    reflexivity. }
  split.
  { split; simpl.
    - unfold pk_unique. rewrite map_map.
      replace (map (fun x => att_pk (f x)) (attendances db))
        with (map att_pk (attendances db)); [exact Hpk|].
      apply map_ext. intros x. unfold f.
      destruct (att_pk x =? att_pk a') eqn:E; [|reflexivity].
      apply Z.eqb_eq in E. congruence.
    - intros e' d'.
      rewrite filter_map_commute by (intros; now apply Hkey).
      rewrite length_map. apply Huniq. }
  split.
  { unfold other_records.
    rewrite filter_map_commute by (intros x Hx; now rewrite Hkey).
    apply map_fixed. intros x Hx. apply filter_In in Hx.
    destruct Hx as [Hx Hnk]. unfold f.
    destruct (att_pk x =? att_pk a') eqn:E; [|reflexivity].
    rewrite (Hhit x Hx E) in Hnk. rewrite Hka in Hnk. discriminate. }
  repeat split.
Qed.

(** Why a save of the one record for the pair can fail: when the
    employee exists and the stored value of [worked_seconds] is not
    negative, only through a timestamp that is no UTC datetime. *)
Lemma Attendance_save_raise_reason (emp : Z) (d : date) (a a2 : Attendance)
    (db db' : DB) (e : exn) :
  filter (att_key emp d) (attendances db) = [a] ->
  att_pk a2 = att_pk a -> att_employee a2 = emp -> att_date a2 = d ->
  (exists x, In x (employees db) /\ emp_pk x = emp) ->
  0 <= worked_seconds a2 ->
  Attendance_save a2 db = (db', Raise e) ->
  e = OverflowError
  /\ adaptable (clock_in a2) && adaptable (clock_out a2) = false.
Proof.
  intros Hf Hpk Hemp Hdate Hfk Hw Hsave.
  destruct (adaptable (clock_in a2) && adaptable (clock_out a2)) eqn:Had.
  - exfalso. apply andb_true_iff in Had. destruct Had as [Hi Ho].
    rewrite Attendance_save_writes in Hsave; [discriminate | auto | auto | | |].
    + now apply compute_worked_nonneg.
    + destruct Hfk as (x & Hx & Hxe). exists x. split; [exact Hx | congruence].
    + intros r Hr He Hd.
      assert (Hin : In r (filter (att_key emp d) (attendances db))).
      { apply filter_In. split; [exact Hr|]. apply att_key_true.
        split; congruence. }
      rewrite Hf in Hin. destruct Hin as [<-|[]]. now symmetry.
  - split; [|reflexivity]. unfold Attendance_save in Hsave.
    destruct (compute_worked_fields a2) as (_ & _ & _ & Fin & Fout).
    rewrite Fin, Fout, Had in Hsave. simpl in Hsave. now injection Hsave as _ <-.
Qed.

Lemma Attendance_get_or_create_origin (emp : Z) (d : date) (db : DB)
    (a : Attendance) (created : bool) :
  snd (Attendance_get_or_create emp d db) = Ok (a, created) ->
  (In a (attendances db) /\ att_key emp d a = true
   /\ fst (Attendance_get_or_create emp d db) = db)
  \/ (filter (att_key emp d) (attendances db) = []
      /\ a = blank_record db emp d
      /\ attendances (fst (Attendance_get_or_create emp d db))
         = (attendances db ++ [a])%list).
Proof.
  unfold Attendance_get_or_create, get_unique.
  destruct (filter (att_key emp d) (attendances db)) as [|a0 [|b l]] eqn:Hf;
    simpl; try discriminate.
  - intros [= <- _]. right. auto.
  - intros [= <- _]. left.
    assert (Hin : In a0 (attendances db) /\ att_key emp d a0 = true)
      by (apply filter_In; rewrite Hf; now left).
    destruct Hin. auto.
Qed.

Lemma utcoffset_bounds (t : datetime) : 19270 <= utcoffset t <= 23400.
Proof.
  unfold utcoffset, tz_offset_seconds.
  repeat match goal with |- context [if ?c then _ else _] => destruct c end;
    lia.
Qed.

Lemma in_utc_range_true (t : datetime) :
  in_utc_range t = true <-> datetime_min <= t <= datetime_max.
Proof.
  unfold in_utc_range. rewrite andb_true_iff, !Z.leb_le. reflexivity.
Qed.

Lemma representable_in_utc_range (t : datetime) :
  representable t -> in_utc_range t = true.
Proof.
  intros [Hmin Hmax]. apply in_utc_range_true. split; [exact Hmin|].
  unfold wall_clock in Hmax. pose proof (utcoffset_bounds t).
  unfold us_per_second in Hmax. lia.
Qed.

Lemma not_in_utc_range_not_representable (t : datetime) :
  in_utc_range t = false -> ~ representable t.
Proof.
  intros Hf Hr. apply representable_in_utc_range in Hr. congruence.
Qed.

(** What [localtime_date] answers, and when. *)
Lemma localtime_date_cases (value : aware_datetime) :
  (localtime_date value = Ok (local_date (instant value))
   /\ (tz value = OtherTimezone -> representable (instant value)))
  \/ (localtime_date value = Raise OverflowError
      /\ tz value = OtherTimezone /\ ~ representable (instant value)).
Proof.
  unfold localtime_date. destruct (tz value); [left; split; [reflexivity|]|].
  { discriminate. }
  destruct (in_utc_range (instant value)) eqn:Hr; simpl.
  - destruct (datetime_max <? wall_clock (instant value)) eqn:Hw.
    + right. split; [reflexivity|]. split; [reflexivity|].
      apply Z.ltb_lt in Hw. intros [_ H]. lia.
    + left. split; [reflexivity|]. intros _.
      apply Z.ltb_ge in Hw. apply in_utc_range_true in Hr.
      split; [apply Hr | exact Hw].
  - right. split; [reflexivity|]. split; [reflexivity|].
    now apply not_in_utc_range_not_representable.
Qed.

Lemma with_clock_fields (action : mark_action) (t : datetime)
    (a : Attendance) :
  att_pk (with_clock action t a) = att_pk a
  /\ att_employee (with_clock action t a) = att_employee a
  /\ att_date (with_clock action t a) = att_date a
  /\ worked_seconds (with_clock action t a) = worked_seconds a.
Proof. destruct action; simpl; auto. Qed.

(** Every POST of a valid form for a known employee, step by step: the
    local date, the record [a] that [get_or_create] hands back, and the
    save of that record with the clock field set. *)
Lemma mark_attendance_cases (req : request (option MarkData))
    (data : MarkData) (db : DB) (emp : Employee) :
  attendance_table_ok db ->
  req_method req = POST -> req_data req = Some data ->
  get_unique (by_employee_id (mark_employee_id data)) (employees db)
  = Ok emp ->
  let ts := timestamp_or_now data (req_now req) in
  let d := local_date (instant ts) in
  let r := mark_attendance req db in
  (localtime_date ts = Raise OverflowError
   /\ r = (db, MarkRaised OverflowError))
  \/ (localtime_date ts = Ok d
      /\ exists a row,
          let a2 := with_clock (mark_action_of data) (instant ts) a in
          ((In a (attendances db) /\ att_key (emp_pk emp) d a = true
            /\ ((forall s, snd r <> Mark200 s) -> fst r = db))
           \/ (filter (att_key (emp_pk emp) d) (attendances db) = []
               /\ a = blank_record db (emp_pk emp) d
               /\ ((forall s, snd r <> Mark200 s) ->
                   attendances (fst r) = (attendances db ++ [a])%list)))
          /\ filter (att_key (emp_pk emp) d) (attendances (fst r)) = [row]
          /\ other_records (emp_pk emp) d (attendances (fst r))
             = other_records (emp_pk emp) d (attendances db)
          /\ attendance_table_ok (fst r)
          /\ users (fst r) = users db /\ employees (fst r) = employees db
          /\ leaves (fst r) = leaves db
          /\ ((exists e,
                 snd r = MarkRaised e /\ row = a
                 /\ (0 <= worked_seconds a ->
                     e = OverflowError
                     /\ adaptable (clock_in a2) && adaptable (clock_out a2)
                        = false))
              \/ (snd r = Mark200 (mkMarkSnapshot (employee_id emp) d
                                     (clock_in row) (clock_out row)
                                     (worked_seconds row))
                  /\ row = compute_worked a2
                  /\ adaptable (clock_in row) = true
                  /\ adaptable (clock_out row) = true
                  /\ 0 <= worked_seconds row))).
Proof.
  intros Hok Hm Hd Hemp ts d r.
  destruct (localtime_date_cases ts) as [[Hlt _] | (Hlt & _ & _)].
  2:{ left. split; [exact Hlt|]. subst r. unfold mark_attendance.
      rewrite Hm, Hd, Hemp. cbv zeta. fold ts. now rewrite Hlt. }
  right. split; [exact Hlt|].
  assert (Hr : r = match (ac <- Attendance_get_or_create (emp_pk emp) d ;;
                          Attendance_save
                            (with_clock (mark_action_of data) (instant ts)
                                        (fst ac))) db with
                   | (db', Ok a) =>
                       (db', Mark200 (mkMarkSnapshot (employee_id emp)
                                        (att_date a) (clock_in a)
                                        (clock_out a) (worked_seconds a)))
                   | (db', Raise e) => (db', MarkRaised e)
                   end).
  { subst r. unfold mark_attendance. rewrite Hm, Hd, Hemp. cbv zeta.
    fold ts. rewrite Hlt. unfold with_clock.
    destruct (mark_action_of data); reflexivity. }
  clearbody r. subst r. unfold bind.
  destruct (Attendance_get_or_create_spec (emp_pk emp) d db Hok)
    as (a & created & H).
  pose proof (Attendance_get_or_create_origin (emp_pk emp) d db a created)
    as Horigin.
  destruct (Attendance_get_or_create (emp_pk emp) d db) as [db1 r1].
  cbn [fst snd] in H, Horigin.
  destruct H as (-> & Hf1 & Hok1 & Hoth1 & Hu1 & He1 & Hl1 & _).
  specialize (Horigin eq_refl). cbn [fst].
  set (a2 := with_clock (mark_action_of data) (instant ts) a).
  destruct (with_clock_fields (mark_action_of data) (instant ts) a)
    as (Hp & He & Hdt & Hws). fold a2 in Hp, He, Hdt, Hws.
  assert (Hkey : att_employee a = emp_pk emp /\ att_date a = d).
  { assert (Hin : In a (filter (att_key (emp_pk emp) d) (attendances db1)))
      by (rewrite Hf1; now left).
    apply filter_In in Hin. now apply att_key_true. }
  destruct Hkey as [Hka Hkd].
  destruct (Attendance_save a2 db1) as [db2 [saved|e]] eqn:Hsave.
  - apply Attendance_save_inv in Hsave.
    destruct Hsave as (-> & -> & Hai & Hao & Hnn).
    destruct (Attendance_save_spec (emp_pk emp) d a a2 db1 Hok1 Hf1 Hp He Hdt)
      as (Hf2 & Hok2 & Hoth2 & Hu2 & He2 & Hl2).
    destruct (compute_worked_fields a2) as (_ & _ & Hcd & _ & _).
    exists a, (compute_worked a2). cbv zeta. cbn [fst snd].
    split.
    { destruct Horigin as [(O1 & O2 & _) | (O1 & O2 & _)].
      - left. split; [exact O1|]. split; [exact O2|].
        intros Hs. exfalso. eapply Hs. reflexivity.
      - right. split; [exact O1|]. split; [exact O2|].
        intros Hs. exfalso. eapply Hs. reflexivity. }
    split; [exact Hf2|]. split; [congruence|]. split; [exact Hok2|].
    split; [congruence|]. split; [congruence|]. split; [congruence|].
    right. rewrite Hcd, Hdt, Hkd. auto.
  - pose proof (Attendance_save_raises _ _ _ _ Hsave) as ->.
    exists a, a. cbv zeta. cbn [fst snd].
    split.
    { destruct Horigin as [(O1 & O2 & O3) | (O1 & O2 & O3)].
      - left. split; [exact O1|]. split; [exact O2|]. intros _. exact O3.
      - right. split; [exact O1|]. split; [exact O2|]. intros _. exact O3. }
    split; [exact Hf1|]. split; [exact Hoth1|]. split; [exact Hok1|].
    split; [exact Hu1|]. split; [exact He1|]. split; [exact Hl1|].
    left. exists e. split; [reflexivity|]. split; [reflexivity|].
    intros Hnn.
    apply (Attendance_save_raise_reason (emp_pk emp) d a a2 db1 db1 e);
      auto; try congruence.
    exists emp. split; [|reflexivity]. rewrite He1.
    apply (get_unique_in _ _ _ Hemp).
Qed.

(** *** The local date *)


(** The local date is the day of the wall clock. *)
Lemma local_date_day (t : datetime) :
  local_date t * us_per_day <= wall_clock t < (local_date t + 1) * us_per_day.
Proof.
  unfold local_date.
  assert (Hpos : 0 < us_per_day) by (unfold us_per_day, us_per_second; lia).
  pose proof (Z.div_mod (wall_clock t) us_per_day ltac:(lia)).
  pose proof (Z.mod_pos_bound (wall_clock t) us_per_day Hpos).
  lia.
Qed.




(** Between 1 September 1942 and 14 October 1945 the zone was at
    UTC+06:30: 18:00 UTC on 1 June 1943 was already 2 June there. *)
Example local_date_in_1943 :
  utcoffset (utc_datetime 1943 6 1 18 0 0) = 23400
  /\ local_date (utc_datetime 1943 6 1 18 0 0) = days_from_civil 1943 6 2.
Proof. split; vm_compute; reflexivity. Qed.

(** *** A call that is answered *)

Lemma representable_localtime (ts : aware_datetime) :
  representable (instant ts) ->
  localtime_date ts = Ok (local_date (instant ts)).
Proof.
  intros Hr. destruct (localtime_date_cases ts) as [[H _] | (_ & _ & H)];
    [exact H | contradiction].
Qed.

Lemma with_clock_adaptable (action : mark_action) (t : datetime)
    (a : Attendance) :
  in_utc_range t = true ->
  adaptable (clock_in a) = true -> adaptable (clock_out a) = true ->
  adaptable (clock_in (with_clock action t a))
  && adaptable (clock_out (with_clock action t a)) = true.
Proof.
  intros Ht Hi Ho. destruct action; simpl; rewrite ?Ht, ?Hi, ?Ho; reflexivity.
Qed.

Lemma blank_record_storable (db : DB) (emp : Z) (d : date) :
  row_storable (blank_record db emp d).
Proof. unfold row_storable. simpl. repeat split; lia. Qed.

(** One call of [mark_attendance] with a representable timestamp: it is
    answered with 200, and the record for the pair is the record [a]
    found or created, with the clock field set and the worked seconds
    recomputed. *)
Lemma mark_attendance_spec (req : request (option MarkData))
    (data : MarkData) (db : DB) (emp : Employee) :
  attendance_table_ok db -> rows_storable db ->
  req_method req = POST -> req_data req = Some data ->
  get_unique (by_employee_id (mark_employee_id data)) (employees db)
  = Ok emp ->
  let ts := timestamp_or_now data (req_now req) in
  representable (instant ts) ->
  let d := local_date (instant ts) in
  let db' := fst (mark_attendance req db) in
  exists a a',
    ((In a (attendances db) /\ att_key (emp_pk emp) d a = true)
     \/ (filter (att_key (emp_pk emp) d) (attendances db) = []
         /\ a = blank_record db (emp_pk emp) d))
    /\ a' = compute_worked (with_clock (mark_action_of data) (instant ts) a)
    /\ snd (mark_attendance req db)
       = Mark200 (mkMarkSnapshot (employee_id emp) d (clock_in a')
                                 (clock_out a') (worked_seconds a'))
    /\ filter (att_key (emp_pk emp) d) (attendances db') = [a']
    /\ (mark_action_of data = IN -> clock_in a' = Some (instant ts))
    /\ (mark_action_of data = OUT -> clock_out a' = Some (instant ts))
    /\ other_records (emp_pk emp) d (attendances db')
       = other_records (emp_pk emp) d (attendances db)
    /\ attendance_table_ok db' /\ rows_storable db'
    /\ users db' = users db /\ employees db' = employees db
    /\ leaves db' = leaves db.
Proof.
  intros Hok Hrows Hm Hd Hemp ts Hrep d db'.
  pose proof (representable_localtime ts Hrep) as Hlt.
  destruct (mark_attendance_cases req data db emp Hok Hm Hd Hemp)
    as [[Hraise _] | (_ & a & row & H)].
  { fold ts in Hraise. congruence. }
  cbv zeta in H. fold ts d db' in H.
  destruct H as (Horigin & Hf & Hoth & Hok' & Hu & He & Hl & Hcase).
  assert (Hsta : row_storable a).
  { destruct Horigin as [(Hin & _) | (_ & -> & _)].
    - unfold rows_storable in Hrows. rewrite Forall_forall in Hrows.
      now apply Hrows.
    - apply blank_record_storable. }
  destruct Hsta as (Sin & Sout & Sw).
  destruct Hcase as [(e & _ & _ & Hwhy) | (Hsnd & -> & Ai & Ao & Aw)].
  { destruct (Hwhy Sw) as [_ Hbad].
    rewrite with_clock_adaptable in Hbad; auto; [discriminate|].
    now apply representable_in_utc_range. }
  exists a. eexists. split.
  { destruct Horigin as [(H1 & H2 & _) | (H1 & H2 & _)]; auto. }
  split; [reflexivity|]. split; [exact Hsnd|]. split; [exact Hf|].
  destruct (compute_worked_fields
              (with_clock (mark_action_of data) (instant ts) a))
    as (_ & _ & _ & Hci & Hco).
  split; [intros Ha; rewrite Hci, Ha; reflexivity|].
  split; [intros Ha; rewrite Hco, Ha; reflexivity|].
  split; [exact Hoth|]. split; [exact Hok'|]. split; [|auto].
  unfold rows_storable in *. rewrite Forall_forall in Hrows |- *.
  intros x Hx. destruct (att_key (emp_pk emp) d x) eqn:Hk.
  - assert (Hin : In x (filter (att_key (emp_pk emp) d) (attendances db')))
      by (apply filter_In; auto).
    rewrite Hf in Hin. destruct Hin as [<-|[]]. repeat split; assumption.
  - assert (Hin : In x (other_records (emp_pk emp) d (attendances db'))).
    { unfold other_records. apply filter_In. rewrite Hk. auto. }
    rewrite Hoth in Hin. apply filter_In in Hin. apply Hrows, Hin.
Qed.


Lemma rows_storableb_sound (db : DB) :
  rows_storableb db = true -> rows_storable db.
Proof.
  unfold rows_storableb, rows_storable. rewrite forallb_forall, Forall_forall.
  intros H a Ha. specialize (H a Ha).
  rewrite !andb_true_iff, Z.leb_le in H. unfold row_storable. tauto.
Qed.


(** ** Monthly report *)

Lemma monthrange_days_bounds (year month last_day : Z) :
  monthrange_days year month = Some last_day -> 28 <= last_day <= 31.
Proof.
  unfold monthrange_days.
  destruct ((month <? 1) || (12 <? month)); [discriminate|].
  destruct (month =? 2).
  - destruct (isleap year); intros [= <-]; lia.
  - destruct ((month =? 4) || (month =? 6) || (month =? 9) || (month =? 11));
      intros [= <-]; lia.
Qed.

Lemma csv_lines_rows (working_days : Z) (rows : list ReportRow) :
  forall ls, csv_lines working_days rows = Ok ls -> map fst ls = rows.
Proof.
  induction rows as [|r rows IH]; simpl; intros ls H.
  - now injection H as <-.
  - unfold csv_line in H.
    destruct (working_days >? 0).
    + destruct (truediv (row_days_present r) working_days) as [q|e];
        [|discriminate].
      destruct (csv_lines working_days rows) as [ls'|e]; [|discriminate].
      injection H as <-. simpl. now rewrite (IH ls' eq_refl).
    + destruct (csv_lines working_days rows) as [ls'|e]; [|discriminate].
      injection H as <-. simpl. now rewrite (IH ls' eq_refl).
Qed.

Lemma csv_lines_never_divide_by_zero (working_days : Z)
    (rows : list ReportRow) :
  csv_lines working_days rows <> Raise ZeroDivisionError.
Proof.
  induction rows as [|r rows IH]; simpl; [discriminate|].
  unfold csv_line, truediv.
  destruct (working_days >? 0) eqn:Hwd.
  - destruct (working_days =? 0) eqn:E; [lia|].
    destruct (csv_lines working_days rows) as [ls|e]; [discriminate|].
    intros [= ->]. now apply IH.
  - destruct (csv_lines working_days rows) as [ls|e]; [discriminate|].
    intros [= ->]. now apply IH.
Qed.

Lemma get_unique_raises {A : Type} (p : A -> bool) (rows : list A) (e : exn) :
  get_unique p rows = Raise e ->
  e = DoesNotExist \/ e = MultipleObjectsReturned.
Proof.
  unfold get_unique. destruct (filter p rows) as [|x [|y l]];
    intros [= <-]; auto.
Qed.

Lemma report_queryset_raises (db : DB) (viewer : User) (dept : string)
    (bounds : date * date) (e : exn) :
  report_queryset db viewer dept bounds = Raise e ->
  e = DoesNotExist \/ e = MultipleObjectsReturned.
Proof.
  unfold report_queryset, user_employee.
  destruct (negb (is_staff viewer)).
  - destruct (get_unique _ (employees db)) as [own|e'] eqn:Hown.
    + destruct (_ && _); discriminate.
    + intros [= <-]. eapply get_unique_raises; eauto.
  - destruct (_ && _); discriminate.
Qed.

(** The context a page response carries, as the handler computes it. *)
Lemma monthly_report_page (req : request ReportQuery) (db : DB)
    (ctx : ReportContext) :
  monthly_report req db = ReportPage ctx ->
  exists viewer last_day bounds qs avg,
    let q := req_data req in
    let year := query_year q (req_now req) in
    let month := query_month q (req_now req) in
    let rows := map prepare_row (order_by_emp_id (annotate qs)) in
    request_user db req = Some viewer
    /\ monthrange_days year month = Some last_day
    /\ month_range year month last_day = Ok bounds
    /\ report_queryset db viewer (q_department q) bounds = Ok qs
    /\ average_attendance_of (sum_Z (map row_days_present rows))
         (Z.of_nat (List.length (order_by_emp_id (annotate qs)))) last_day
       = Ok avg
    /\ ctx = mkReportContext rows year month (q_department q)
               (is_staff viewer)
               (Z.of_nat (List.length (order_by_emp_id (annotate qs))))
               (sum_Z (map row_days_present rows)) avg
               (str_int (sum_Z (map row_total_seconds rows) / 3600) ++ "h")
               last_day.
Proof.
  unfold monthly_report. intros H.
  destruct (request_user db req) as [viewer|]; [|discriminate].
  destruct (monthrange_days _ _) as [last_day|] eqn:Hmr; [|discriminate].
  destruct (month_range _ _ last_day) as [bounds|e] eqn:Hb; [|discriminate].
  destruct (report_queryset db viewer _ bounds) as [qs|e] eqn:Hqs.
  2:{ destruct e; discriminate. }
  cbv zeta in H.
  destruct (average_attendance_of _ _ last_day) as [avg|e] eqn:Havg;
    [|discriminate].
  exists viewer, last_day, bounds, qs, avg. cbv zeta.
  repeat split; try assumption.
  destruct (q_download (req_data req)) as [download|].
  - destruct (download_content_type download) as [ct|].
    + destruct (csv_lines last_day _); discriminate.
    + now injection H as <-.
  - now injection H as <-.
Qed.

(** The rows of any report response. *)
Lemma monthly_report_rows (req : request ReportQuery) (db : DB)
    (rows : list ReportRow) :
  rows_of (monthly_report req db) = Some rows ->
  exists viewer last_day bounds qs,
    let q := req_data req in
    let year := query_year q (req_now req) in
    let month := query_month q (req_now req) in
    request_user db req = Some viewer
    /\ monthrange_days year month = Some last_day
    /\ month_range year month last_day = Ok bounds
    /\ report_queryset db viewer (q_department q) bounds = Ok qs
    /\ rows = map prepare_row (order_by_emp_id (annotate qs)).
Proof.
  unfold monthly_report. intros H.
  destruct (request_user db req) as [viewer|]; [|discriminate].
  destruct (monthrange_days _ _) as [last_day|] eqn:Hmr; [|discriminate].
  destruct (month_range _ _ last_day) as [bounds|e] eqn:Hb; [|discriminate].
  destruct (report_queryset db viewer _ bounds) as [qs|e] eqn:Hqs.
  2:{ destruct e; discriminate. }
  cbv zeta in H.
  destruct (average_attendance_of _ _ last_day) as [avg|e] eqn:Havg;
    [|discriminate].
  exists viewer, last_day, bounds, qs. cbv zeta.
  repeat split; try assumption.
  destruct (q_download (req_data req)) as [download|].
  - destruct (download_content_type download) as [ct|].
    + destruct (csv_lines last_day _) as [ls|e] eqn:Hcsv; [|discriminate].
      simpl in H. injection H as <-. now apply csv_lines_rows in Hcsv.
    + simpl in H. now injection H as <-.
  - simpl in H. now injection H as <-.
Qed.

Lemma average_attendance_of_spec (tp n wd : Z) :
  0 < wd ->
  (0 < n ->
   n * wd <> 0
   /\ average_attendance_of tp n wd
      = Ok (Percent1f (Qmult (Qdiv (inject_Z tp) (inject_Z (n * wd)))
                             (inject_Z 100))))
  /\ (n <= 0 -> average_attendance_of tp n wd = Ok (PercentText "0%")).
Proof.
  intros Hwd. unfold average_attendance_of, truediv. split; intros Hn.
  - assert (Hprod : n * wd <> 0) by nia.
    split; [exact Hprod|].
    destruct (n >? 0) eqn:E; [|lia].
    destruct (n * wd =? 0) eqn:E0; [lia | reflexivity].
  - destruct (n >? 0) eqn:E; [lia | reflexivity].
Qed.

Lemma month_range_raises (year month last_day : Z) (e : exn) :
  month_range year month last_day = Raise e -> e = ValidationError.
Proof.
  unfold month_range. destruct (_ || _); [|discriminate]. now intros [= <-].
Qed.

Lemma monthly_report_never_divides_by_zero (req : request ReportQuery)
    (db : DB) :
  monthly_report req db <> ReportRaised ZeroDivisionError.
Proof.
  unfold monthly_report.
  destruct (request_user db req) as [viewer|]; [|discriminate].
  destruct (monthrange_days _ _) as [last_day|] eqn:Hmr; [|discriminate].
  pose proof (monthrange_days_bounds _ _ _ Hmr) as Hwd.
  destruct (month_range _ _ last_day) as [bounds|e] eqn:Hb.
  2:{ apply month_range_raises in Hb. subst e. discriminate. }
  destruct (report_queryset db viewer _ bounds) as [qs|e] eqn:Hqs.
  2:{ apply report_queryset_raises in Hqs. destruct Hqs; subst e; discriminate. }
  cbv zeta.
  set (tp := sum_Z _). set (n := Z.of_nat _).
  destruct (average_attendance_of_spec tp n last_day ltac:(lia)) as [Hpos Hzero].
  destruct (Z_lt_le_dec 0 n) as [Hn|Hn].
  - destruct (Hpos Hn) as [_ ->].
    destruct (q_download (req_data req)) as [download|]; [|discriminate].
    destruct (download_content_type download) as [ct|]; [|discriminate].
    destruct (csv_lines last_day _) as [ls|e] eqn:Hcsv; [discriminate|].
    intros [= ->]. now apply csv_lines_never_divide_by_zero in Hcsv.
  - rewrite (Hzero Hn).
    destruct (q_download (req_data req)) as [download|]; [|discriminate].
    destruct (download_content_type download) as [ct|]; [|discriminate].
    destruct (csv_lines last_day _) as [ls|e] eqn:Hcsv; [discriminate|].
    intros [= ->]. now apply csv_lines_never_divide_by_zero in Hcsv.
Qed.

(** C6: the report never divides by zero.  With no employee in the
    report the average is the literal "0%", computed without a division
    whatever the other operands are; otherwise it is
    [total_present_days / (total_employees * working_days) * 100], where
    the total is the sum of the rows' days present, the count is the
    number of rows and the working days are the days of the month. *)
Theorem C6_average_attendance_guarded (req : request ReportQuery) (db : DB) :
  monthly_report req db <> ReportRaised ZeroDivisionError
  /\ (forall tp wd, average_attendance_of tp 0 wd = Ok (PercentText "0%"))
  /\ forall ctx,
      monthly_report req db = ReportPage ctx ->
      let n := ctx_total_employees ctx in
      let wd := ctx_working_days ctx in
      let tp := ctx_total_present_days ctx in
      n = Z.of_nat (List.length (ctx_rows ctx))
      /\ tp = sum_Z (map row_days_present (ctx_rows ctx))
      /\ monthrange_days (ctx_year ctx) (ctx_month ctx) = Some wd
      /\ (0 < n ->
          n * wd <> 0
          /\ ctx_average_attendance ctx
             = Percent1f (Qmult (Qdiv (inject_Z tp) (inject_Z (n * wd)))
                                (inject_Z 100)))
      /\ (n = 0 -> ctx_average_attendance ctx = PercentText "0%").
Proof.
  split; [apply monthly_report_never_divides_by_zero|].
  split; [reflexivity|].
  intros ctx H.
  destruct (monthly_report_page req db ctx H)
    as (viewer & last_day & bounds & qs & avg & Hpage).
  cbv zeta in Hpage.
  destruct Hpage as (_ & Hmr & _ & _ & Havg & ->). simpl.
  pose proof (monthrange_days_bounds _ _ _ Hmr) as Hwd.
  destruct (average_attendance_of_spec
              (sum_Z (map row_days_present
                          (map prepare_row (order_by_emp_id (annotate qs)))))
              (Z.of_nat (List.length (order_by_emp_id (annotate qs))))
              last_day ltac:(lia)) as [Hpos Hzero].
  split; [now rewrite length_map|].
  split; [reflexivity|]. split; [exact Hmr|]. split.
  - intros Hn. destruct (Hpos Hn) as [Hprod Heq]. split; [exact Hprod|].
    rewrite Heq in Havg. now injection Havg as <-.
  - intros Hn. rewrite Hzero in Havg by lia. now injection Havg as <-.
Qed.

(** *** Ordering *)

Lemma insert_by_emp_id_in (r x : AggRow) (rs : list AggRow) :
  In r (insert_by_emp_id x rs) <-> r = x \/ In r rs.
Proof.
  induction rs as [|y rs IH]; simpl.
  - intuition.
  - destruct (_ <=? _)%string; simpl; [intuition|].
    rewrite IH. intuition.
Qed.

Lemma order_by_emp_id_in (r : AggRow) (rs : list AggRow) :
  In r (order_by_emp_id rs) <-> In r rs.
Proof.
  unfold order_by_emp_id. induction rs as [|x rs IH]; simpl; [reflexivity|].
  rewrite insert_by_emp_id_in, IH. intuition.
Qed.

Lemma insert_by_emp_id_length (x : AggRow) (rs : list AggRow) :
  List.length (insert_by_emp_id x rs) = S (List.length rs).
Proof.
  induction rs as [|y rs IH]; simpl; [reflexivity|].
  destruct (_ <=? _)%string; simpl; [reflexivity | now rewrite IH].
Qed.

Lemma order_by_emp_id_length (rs : list AggRow) :
  List.length (order_by_emp_id rs) = List.length rs.
Proof.
  unfold order_by_emp_id. induction rs as [|x rs IH]; simpl; [reflexivity|].
  now rewrite insert_by_emp_id_length, IH.
Qed.

Lemma insert_by_emp_id_hd (x y : AggRow) (rs : list AggRow) :
  agg_le y x -> HdRel agg_le y rs -> HdRel agg_le y (insert_by_emp_id x rs).
Proof.
  intros Hyx Hhd. destruct rs as [|z rs]; simpl.
  - now constructor.
  - destruct (_ <=? _)%string; constructor; [exact Hyx|].
    now inversion Hhd.
Qed.

Lemma insert_by_emp_id_sorted (x : AggRow) (rs : list AggRow) :
  Sorted agg_le rs -> Sorted agg_le (insert_by_emp_id x rs).
Proof.
  induction 1 as [|y rs Hs IH Hhd]; simpl.
  - repeat constructor.
  - destruct (_ <=? _)%string eqn:E.
    + constructor; [now constructor | now constructor].
    + constructor; [exact IH|].
      apply insert_by_emp_id_hd; [|exact Hhd].
      unfold agg_le.
      destruct (String.leb_total (key_emp_id (agg_key x))
                                 (key_emp_id (agg_key y))); congruence.
Qed.

Lemma order_by_emp_id_sorted (rs : list AggRow) :
  Sorted agg_le (order_by_emp_id rs).
Proof.
  unfold order_by_emp_id. induction rs as [|x rs IH]; simpl.
  - constructor.
  - now apply insert_by_emp_id_sorted.
Qed.

Lemma prepare_rows_sorted (rs : list AggRow) :
  Sorted agg_le rs -> Sorted row_le (map prepare_row rs).
Proof.
  induction 1 as [|y rs Hs IH Hhd]; simpl; constructor; [exact IH|].
  destruct Hhd; simpl; constructor. assumption.
Qed.

(** *** Grouping *)

Lemma key_eqb_eq (k1 k2 : group_key) : key_eqb k1 k2 = true <-> k1 = k2.
Proof.
  destruct k1 as [[a1 b1] c1], k2 as [[a2 b2] c2]. unfold key_eqb. simpl.
  rewrite !andb_true_iff, !String.eqb_eq. split.
  - intros [[-> ->] ->]. reflexivity.
  - intros [= -> -> ->]. auto.
Qed.

Lemma key_eqb_refl (k : group_key) : key_eqb k k = true.
Proof. now apply key_eqb_eq. Qed.

Lemma distinct_keys_in (k : group_key) (ks : list group_key) :
  In k (distinct_keys ks) <-> In k ks.
Proof.
  induction ks as [|k0 ks IH]; simpl; [reflexivity|].
  rewrite filter_In, IH. split.
  - intros [H | [H _]]; auto.
  - intros [H | H]; [auto|].
    destruct (key_eqb k k0) eqn:E.
    + apply key_eqb_eq in E. auto.
    + right. auto.
Qed.

Lemma group_of_in (j : joined) (k : group_key) (qs : list joined) :
  In j (group_of k qs) <-> In j qs /\ key_of j = k.
Proof.
  unfold group_of. rewrite filter_In, key_eqb_eq. reflexivity.
Qed.

Lemma sql_sum_nonempty (xs : list Z) :
  xs <> [] -> sql_sum xs = Some (fold_right Z.add 0 xs).
Proof. destruct xs; [congruence | reflexivity]. Qed.

Lemma sum_present_flags (js : list joined) :
  fold_right Z.add 0 (map (fun j => present_flag (j_att j)) js)
  = Z.of_nat (List.length (filter (fun j => has_clock_in (j_att j)) js)).
Proof.
  induction js as [|j js IH]; [reflexivity|].
  cbn [map fold_right filter]. rewrite IH.
  unfold present_flag, has_clock_in.
  destruct (clock_in (j_att j)); cbn [List.length]; lia.
Qed.

(** The rows of the aggregate: one per key present, with the sums over
    the records that carry the key. *)
Lemma annotate_in (r : AggRow) (qs : list joined) :
  In r (annotate qs) ->
  exists j,
    In j qs /\ agg_key r = key_of j
    /\ agg_total_seconds r
       = Some (fold_right Z.add 0
                 (map (fun j' => worked_seconds (j_att j'))
                      (group_of (key_of j) qs)))
    /\ agg_days_present r
       = Some (Z.of_nat
                 (List.length (filter (fun j' => has_clock_in (j_att j'))
                                      (group_of (key_of j) qs)))).
Proof.
  unfold annotate. rewrite in_map_iff. intros (k & <- & Hk).
  apply distinct_keys_in, in_map_iff in Hk. destruct Hk as (j & <- & Hj).
  exists j. simpl.
  assert (Hne : group_of (key_of j) qs <> []).
  { intros Hnil. assert (Hin : In j (group_of (key_of j) qs))
      by (apply group_of_in; auto).
    rewrite Hnil in Hin. destruct Hin. }
  repeat split; [exact Hj| |].
  - apply sql_sum_nonempty. intros H. apply map_eq_nil in H. auto.
  - rewrite sql_sum_nonempty, sum_present_flags; [reflexivity|].
    intros H. apply map_eq_nil in H. auto.
Qed.

Lemma annotate_covers (j : joined) (qs : list joined) :
  In j qs -> exists r, In r (annotate qs) /\ agg_key r = key_of j.
Proof.
  intros Hj. unfold annotate. eexists. split.
  - apply in_map_iff. exists (key_of j). split; [reflexivity|].
    apply distinct_keys_in. now apply in_map.
  - reflexivity.
Qed.

(** *** The queryset *)

Lemma join_some (db : DB) (a : Attendance) (j : joined) :
  join db a = Some j ->
  j_att j = a
  /\ In (j_emp j) (employees db) /\ emp_pk (j_emp j) = att_employee a
  /\ In (j_user j) (users db) /\ user_id (j_user j) = emp_user (j_emp j).
Proof.
  unfold join.
  destruct (find _ (employees db)) as [e|] eqn:He; [|discriminate].
  destruct (find _ (users db)) as [u|] eqn:Hu; [|discriminate].
  intros [= <-]. apply find_some in He, Hu.
  destruct He as [He1 He2], Hu as [Hu1 Hu2].
  apply Z.eqb_eq in He2. unfold by_user_pk in Hu2. apply Z.eqb_eq in Hu2.
  unfold j_att, j_emp, j_user. simpl. auto.
Qed.

Lemma join_same_employee (db : DB) (a a' : Attendance) (j j' : joined) :
  join db a = Some j -> join db a' = Some j' ->
  att_employee a = att_employee a' ->
  j_emp j = j_emp j' /\ j_user j = j_user j'.
Proof.
  unfold join. intros H H' Heq. rewrite <- Heq in H'.
  destruct (find _ (employees db)) as [e|]; [|discriminate].
  destruct (find _ (users db)) as [u|]; [|discriminate].
  injection H as <-. injection H' as <-. auto.
Qed.

Lemma join_all_in (db : DB) (rs : list Attendance) (j : joined) :
  In j (join_all db rs) -> In (j_att j) rs /\ join db (j_att j) = Some j.
Proof.
  induction rs as [|a rs IH]; simpl; [intros []|].
  destruct (join db a) as [j0|] eqn:Hj.
  - intros [<- | Hin].
    + destruct (join_some db a j0 Hj) as [-> _]. auto.
    + destruct (IH Hin). auto.
  - intros Hin. destruct (IH Hin). auto.
Qed.

Lemma report_queryset_incl (db : DB) (viewer : User) (dept : string)
    (bounds : date * date) (qs : list joined) :
  report_queryset db viewer dept bounds = Ok qs ->
  incl qs (join_all db (filter (in_range bounds) (attendances db))).
Proof.
  unfold report_queryset.
  destruct (negb (is_staff viewer)).
  - destruct (user_employee db viewer) as [own|e]; [|discriminate].
    destruct (_ && _); intros [= <-] j Hj;
      repeat (apply filter_In in Hj; destruct Hj as [Hj _]); exact Hj.
  - destruct (_ && _); intros [= <-] j Hj;
      repeat (apply filter_In in Hj; destruct Hj as [Hj _]); exact Hj.
Qed.

(** Every record of the queryset is a stored record of the month, joined
    with its employee and the employee's user. *)
Lemma report_queryset_in (db : DB) (viewer : User) (dept : string)
    (bounds : date * date) (qs : list joined) (j : joined) :
  report_queryset db viewer dept bounds = Ok qs -> In j qs ->
  In (j_att j) (attendances db)
  /\ fst bounds <= att_date (j_att j) <= snd bounds
  /\ join db (j_att j) = Some j.
Proof.
  intros Hqs Hj. apply (report_queryset_incl _ _ _ _ _ Hqs) in Hj.
  apply join_all_in in Hj. destruct Hj as [Hin Hjoin].
  apply filter_In in Hin. destruct Hin as [Hin Hr].
  unfold in_range in Hr. apply andb_true_iff in Hr.
  rewrite !Z.leb_le in Hr. auto.
Qed.

(** For a viewer who is not staff the queryset is the viewer's own
    records of the month; the department parameter is not read. *)
Lemma report_queryset_non_staff (db : DB) (viewer : User) (dept : string)
    (bounds : date * date) :
  is_staff viewer = false ->
  report_queryset db viewer dept bounds
  = match user_employee db viewer with
    | Ok own =>
        Ok (filter (fun j => att_employee (j_att j) =? emp_pk own)
                   (join_all db (filter (in_range bounds) (attendances db))))
    | Raise e => Raise e
    end.
Proof.
  intros Hs. unfold report_queryset. rewrite Hs. simpl.
  destruct (user_employee db viewer); [|reflexivity].
  now rewrite andb_false_r.
Qed.

Lemma month_range_ok (year month last_day : Z) (bounds : date * date) :
  month_range year month last_day = Ok bounds ->
  bounds = (days_from_civil year month 1, days_from_civil year month last_day).
Proof.
  unfold month_range. destruct (_ || _); [discriminate|]. now intros [= <-].
Qed.

Lemma filter_none {A : Type} (f : A -> bool) (l : list A) :
  (forall x, In x l -> f x = false) -> filter f l = [].
Proof.
  induction l as [|x l IH]; intros H; simpl; [reflexivity|].
  rewrite (H x (or_introl eq_refl)). apply IH. intros y Hy. apply H. now right.
Qed.

Lemma distinct_keys_single (ks : list group_key) :
  (forall k k', In k ks -> In k' ks -> k = k') ->
  (List.length (distinct_keys ks) <= 1)%nat.
Proof.
  destruct ks as [|k ks]; intros H; simpl; [lia|].
  rewrite filter_none; [simpl; lia|].
  intros k' Hk'. rewrite distinct_keys_in in Hk'.
  rewrite (H k' k (or_intror Hk') (or_introl eq_refl)).
  now rewrite key_eqb_refl.
Qed.

(** Under a unique [employee_id] the group of a key is the set of the
    queryset's records of one employee. *)
Lemma group_of_employee (db : DB) (qs : list joined) (j : joined) :
  employee_id_unique (employees db) ->
  (forall j', In j' qs -> join db (j_att j') = Some j') ->
  In j qs ->
  group_of (key_of j) qs
  = filter (fun j' => att_employee (j_att j') =? att_employee (j_att j)) qs.
Proof.
  intros Huniq Hjoin Hj. unfold group_of. apply filter_ext_in. intros j' Hj'.
  pose proof (join_some db _ _ (Hjoin j Hj)) as (_ & He & Hpk & _).
  pose proof (join_some db _ _ (Hjoin j' Hj')) as (_ & He' & Hpk' & _).
  destruct (att_employee (j_att j') =? att_employee (j_att j)) eqn:E.
  - apply Z.eqb_eq in E. apply key_eqb_eq.
    destruct (join_same_employee db _ _ _ _ (Hjoin j' Hj') (Hjoin j Hj) E)
      as [He1 Hu1].
    unfold key_of. now rewrite He1, Hu1.
  - apply not_true_is_false. intros Hk. apply key_eqb_eq in Hk.
    assert (Heq : j_emp j' = j_emp j).
    { apply Huniq; auto. unfold key_of in Hk. congruence. }
    apply Z.eqb_neq in E. apply E. congruence.
Qed.

Lemma prepare_row_time (r : AggRow) :
  let row := prepare_row r in
  row_total_time row
  = (str_int (row_total_seconds row / 3600) ++ "h "
     ++ str_int ((row_total_seconds row mod 3600) / 60) ++ "m")%string
  /\ 0 <= (row_total_seconds row mod 3600) / 60 < 60.
Proof.
  simpl. split; [reflexivity|].
  pose proof (Z.mod_pos_bound (or_zero (agg_total_seconds r)) 3600
                              ltac:(lia)) as Hm.
  split.
  - apply Z.div_pos; lia.
  - apply Z.div_lt_upper_bound; lia.
Qed.

Lemma filter_all {A : Type} (f : A -> bool) (l : list A) :
  (forall x, In x l -> f x = true) -> filter f l = l.
Proof.
  induction l as [|x l IH]; intros H; simpl; [reflexivity|].
  rewrite (H x (or_introl eq_refl)). f_equal. apply IH.
  intros y Hy. apply H. now right.
Qed.

Lemma filter_filter {A : Type} (f g : A -> bool) (l : list A) :
  filter f (filter g l) = filter (fun x => g x && f x) l.
Proof.
  induction l as [|x l IH]; simpl; [reflexivity|].
  destruct (g x); simpl; [destruct (f x)|]; now rewrite IH.
Qed.

Lemma join_att (db : DB) (a : Attendance) (j : joined) :
  join db a = Some j -> j_att j = a.
Proof. intros H. now apply join_some in H. Qed.

(** The attendance rows behind a filtered join are a filter of the
    table. *)
Lemma join_all_filter_atts (db : DB) (p : joined -> bool)
    (rs : list Attendance) :
  map j_att (filter p (join_all db rs))
  = filter (fun a => match join db a with
                     | Some j => p j
                     | None => false
                     end) rs.
Proof.
  induction rs as [|a rs IH]; simpl; [reflexivity|].
  destruct (join db a) as [j|] eqn:Hj; [|exact IH].
  simpl. destruct (p j); simpl; [|exact IH].
  now rewrite IH, (join_att db a j Hj).
Qed.

(** A record whose employee exists is joined, every employee having its
    user. *)
Lemma join_exists (db : DB) (a : Attendance) (e : Employee) :
  fk_employee_user db ->
  In e (employees db) -> emp_pk e = att_employee a ->
  exists j, join db a = Some j.
Proof.
  intros Hfk He Hpk. unfold join.
  destruct (find (fun e0 => emp_pk e0 =? att_employee a) (employees db))
    as [e'|] eqn:Hfe.
  - destruct (find (by_user_pk (emp_user e')) (users db)) as [u'|] eqn:Hfu;
      [eauto|].
    exfalso. apply find_some in Hfe. destruct Hfe as [He' _].
    destruct (Hfk e' He') as (u & Hu & Hid).
    assert (Hno := find_none _ _ Hfu u Hu). unfold by_user_pk in Hno.
    apply Z.eqb_neq in Hno. contradiction.
  - exfalso.
    assert (Hno := find_none _ _ Hfe e He). simpl in Hno.
    apply Z.eqb_neq in Hno. contradiction.
Qed.

Lemma join_all_covers (db : DB) (rs : list Attendance) (a : Attendance)
    (j : joined) :
  In a rs -> join db a = Some j -> In j (join_all db rs).
Proof.
  induction rs as [|x rs IH]; simpl; [intros []|].
  intros [-> | Hin] Hj.
  - rewrite Hj. now left.
  - destruct (join db x); [right|]; now apply IH.
Qed.

(** The queryset is the month's records that are shown to the viewer. *)
Lemma report_queryset_shown (db : DB) (viewer : User) (dept : string)
    (bounds : date * date) (qs : list joined) :
  report_queryset db viewer dept bounds = Ok qs ->
  qs = filter (shown_to db viewer dept)
              (join_all db (filter (in_range bounds) (attendances db))).
Proof.
  unfold report_queryset, shown_to.
  destruct (is_staff viewer) eqn:Hs; simpl.
  - rewrite andb_true_r.
    destruct (String.eqb_spec dept "") as [->|Hne]; simpl; intros [= <-].
    + symmetry. now apply filter_all.
    + reflexivity.
  - destruct (user_employee db viewer) as [own|e]; [|discriminate].
    rewrite andb_false_r. now intros [= <-].
Qed.

Lemma filter_of_map {A B : Type} (f : A -> B) (p : B -> bool) (l : list A) :
  filter p (map f l) = map f (filter (fun x => p (f x)) l).
Proof.
  induction l as [|x l IH]; simpl; [reflexivity|].
  destruct (p (f x)); simpl; now rewrite IH.
Qed.

(** The stored records behind the group of a key. *)
Lemma group_of_month_records (db : DB) (viewer : User) (dept : string)
    (first last : date) (qs : list joined) (k : group_key) :
  report_queryset db viewer dept (first, last) = Ok qs ->
  map j_att (group_of k qs) = month_records db viewer dept first last k.
Proof.
  intros Hqs. apply report_queryset_shown in Hqs. subst qs.
  unfold group_of, month_records.
  rewrite filter_filter, join_all_filter_atts, filter_filter.
  apply filter_ext. intros a. unfold in_range. simpl.
  destruct ((first <=? att_date a) && (att_date a <=? last)); reflexivity.
Qed.

(** C8: the rows of a monthly report are in ascending order of employee
    identifier.  The records behind the report are exactly the stored
    records dated within the month that are joined with their employee
    and that employee's user and are shown to the viewer (every stored
    record of the month is joined when the employees have their users);
    every such record has a row, and each row stands for those of them
    that share its key.  The row carries the
    employee's identifier, the first name of the employee's user, the
    department, the number of its records with a clock-in, the sum of
    their worked seconds and that sum printed as "{h}h {m}m".  When
    [employee_id] is unique the records of a row are those of one
    employee. *)
Theorem C8_report_rows_ordered_and_filled (req : request ReportQuery)
    (db : DB) (rows : list ReportRow) :
  rows_of (monthly_report req db) = Some rows ->
  Sorted row_le rows
  /\ exists viewer last_day qs,
      let year := query_year (req_data req) (req_now req) in
      let month := query_month (req_data req) (req_now req) in
      let dept := q_department (req_data req) in
      let first := days_from_civil year month 1 in
      let last := days_from_civil year month last_day in
      request_user db req = Some viewer
      /\ monthrange_days year month = Some last_day
      /\ report_queryset db viewer dept (first, last) = Ok qs
      /\ (forall j, In j qs <->
            In (j_att j) (attendances db)
            /\ first <= att_date (j_att j) <= last
            /\ join db (j_att j) = Some j
            /\ shown_to db viewer dept j = true)
      /\ (forall j, In j qs ->
            In (j_emp j) (employees db)
            /\ emp_pk (j_emp j) = att_employee (j_att j)
            /\ In (j_user j) (users db)
            /\ user_id (j_user j) = emp_user (j_emp j))
      /\ (fk_employee_user db ->
          forall a e,
            In a (attendances db) -> first <= att_date a <= last ->
            In e (employees db) -> emp_pk e = att_employee a ->
            exists j,
              join db a = Some j /\ j_att j = a
              /\ (shown_to db viewer dept j = true -> In j qs))
      /\ (forall j, In j qs ->
            exists r, In r rows
                      /\ row_employee_id r = employee_id (j_emp j))
      /\ (forall r, In r rows ->
            exists j,
              let grp := group_of (key_of j) qs in
              let records :=
                month_records db viewer dept first last (key_of j) in
              In j qs
              /\ map j_att grp = records
              /\ row_employee_id r = employee_id (j_emp j)
              /\ row_name r = first_name (j_user j)
              /\ row_department r = department (j_emp j)
              /\ row_days_present r
                 = Z.of_nat (List.length (filter has_clock_in records))
              /\ row_total_seconds r
                 = fold_right Z.add 0 (map worked_seconds records)
              /\ row_total_time r
                 = (str_int (row_total_seconds r / 3600) ++ "h "
                    ++ str_int ((row_total_seconds r mod 3600) / 60)
                    ++ "m")%string
              /\ 0 <= (row_total_seconds r mod 3600) / 60 < 60
              /\ (employee_id_unique (employees db) ->
                  grp = filter (fun j' => att_employee (j_att j')
                                          =? att_employee (j_att j)) qs)).
Proof.
  intros H.
  destruct (monthly_report_rows req db rows H)
    as (viewer & last_day & bounds & qs & Hrows).
  cbv zeta in Hrows. destruct Hrows as (Hv & Hmr & Hb & Hqs & ->).
  apply month_range_ok in Hb. subst bounds.
  split.
  { apply prepare_rows_sorted, order_by_emp_id_sorted. }
  exists viewer, last_day, qs. cbv zeta.
  set (first := days_from_civil (query_year (req_data req) (req_now req))
                  (query_month (req_data req) (req_now req)) 1) in *.
  set (last := days_from_civil (query_year (req_data req) (req_now req))
                 (query_month (req_data req) (req_now req)) last_day) in *.
  set (dept := q_department (req_data req)) in *.
  split; [exact Hv|]. split; [exact Hmr|]. split; [exact Hqs|].
  assert (Hin : forall j, In j qs ->
                  In (j_att j) (attendances db)
                  /\ first <= att_date (j_att j) <= last
                  /\ join db (j_att j) = Some j).
  { intros j Hj. exact (report_queryset_in _ _ _ _ _ j Hqs Hj). }
  assert (Hback : forall j,
             In (j_att j) (attendances db)
             /\ first <= att_date (j_att j) <= last
             /\ join db (j_att j) = Some j
             /\ shown_to db viewer dept j = true -> In j qs).
  { intros j (H1 & H2 & H3 & H4).
    rewrite (report_queryset_shown _ _ _ _ _ Hqs).
    apply filter_In. split; [|exact H4].
    apply (join_all_covers db _ (j_att j)); [|exact H3].
    apply filter_In. split; [exact H1|]. unfold in_range. simpl.
    apply andb_true_iff. rewrite !Z.leb_le. exact H2. }
  split; [|split; [|split; [|split]]].
  - intros j. split; [|apply Hback].
    intros Hj. destruct (Hin j Hj) as (H1 & H2 & H3).
    repeat split; try assumption; try apply H2.
    rewrite (report_queryset_shown _ _ _ _ _ Hqs) in Hj.
    now apply filter_In in Hj.
  - intros j Hj. destruct (Hin j Hj) as (_ & _ & H3).
    now apply join_some in H3.
  - intros Hfk a e Ha Hdate He Hpk.
    destruct (join_exists db a e Hfk He Hpk) as (j & Hj).
    exists j. pose proof (join_att db a j Hj) as Hatt.
    split; [exact Hj|]. split; [exact Hatt|].
    intros Hshown. apply Hback. rewrite Hatt. auto.
  - intros j Hj. destruct (annotate_covers j qs Hj) as (ar & Har & Hkey).
    exists (prepare_row ar). split.
    + apply in_map. now apply order_by_emp_id_in.
    + simpl. rewrite Hkey. reflexivity.
  - intros r Hr. apply in_map_iff in Hr. destruct Hr as (ar & <- & Har).
    rewrite order_by_emp_id_in in Har.
    destruct (annotate_in ar qs Har) as (j & Hj & Hkey & Hsec & Hdays).
    exists j.
    destruct (prepare_row_time ar) as [Htime Hmins].
    pose proof (group_of_month_records db viewer dept first last qs
                  (key_of j) Hqs) as Hrec.
    split; [exact Hj|]. split; [exact Hrec|].
    split; [simpl; rewrite Hkey; reflexivity|].
    split; [simpl; rewrite Hkey; reflexivity|].
    split; [simpl; rewrite Hkey; reflexivity|].
    split.
    { simpl. rewrite Hdays. simpl. rewrite <- Hrec, filter_of_map, length_map.
      reflexivity. }
    split.
    { simpl. rewrite Hsec. simpl. rewrite <- Hrec, map_map. reflexivity. }
    split; [exact Htime|]. split; [exact Hmins|].
    intros Huniq. apply (group_of_employee db); auto.
    intros j' Hj'. now apply Hin.
Qed.

(** The report of March 2024 as a staff user sees it: EMP2 has two
    records in March, one of them without a clock-out, and one in April
    that is not counted. *)
Lemma C8_report_rows_witness :
  rows_of (monthly_report (sample_report_request 1 "") sample_db)
  = Some [mkReportRow "EMP1" "Ravi" "HR" 1 "8h 0m" 28800;
          mkReportRow "EMP2" "Asha" "IT" 2 "8h 30m" 30600]
  /\ Sorted row_le
       [mkReportRow "EMP1" "Ravi" "HR" 1 "8h 0m" 28800;
        mkReportRow "EMP2" "Asha" "IT" 2 "8h 30m" 30600]
  /\ map att_pk
         (month_records sample_db
            (mkUser 1 "admin" "secret" "Ada" "Min" true true true) ""
            (days_from_civil 2024 3 1) (days_from_civil 2024 3 31)
            ("EMP2", "Asha", "IT"))
     = [1; 3].
Proof.
  split; [reflexivity|]. split; [|reflexivity].
  exact (proj1 (C8_report_rows_ordered_and_filled
                  (sample_report_request 1 "") sample_db
                  [mkReportRow "EMP1" "Ravi" "HR" 1 "8h 0m" 28800;
                   mkReportRow "EMP2" "Asha" "IT" 2 "8h 30m" 30600]
                  eq_refl)).
Defined.

(** *** Role narrowing *)

Lemma csv_lines_ok (working_days : Z) (rows : list ReportRow) :
  0 < working_days -> exists ls, csv_lines working_days rows = Ok ls.
Proof.
  intros Hwd. induction rows as [|r rows [ls IH]]; simpl.
  - now exists [].
  - rewrite IH. unfold csv_line, truediv.
    destruct (working_days >? 0) eqn:E; [|lia].
    destruct (working_days =? 0) eqn:E0; [lia|]. eexists. reflexivity.
Qed.

(** The rows of a response depend on the request through the viewer, the
    month and the queryset only. *)
Lemma rows_of_monthly_report (req : request ReportQuery) (db : DB) :
  rows_of (monthly_report req db)
  = match request_user db req with
    | None => None
    | Some viewer =>
        let year := query_year (req_data req) (req_now req) in
        let month := query_month (req_data req) (req_now req) in
        match monthrange_days year month with
        | None => None
        | Some last_day =>
            match month_range year month last_day with
            | Raise _ => None
            | Ok bounds =>
                match report_queryset db viewer
                        (q_department (req_data req)) bounds with
                | Raise _ => None
                | Ok qs => Some (map prepare_row
                                     (order_by_emp_id (annotate qs)))
                end
            end
        end
    end.
Proof.
  unfold monthly_report.
  destruct (request_user db req) as [viewer|]; [|reflexivity]. cbv zeta.
  destruct (monthrange_days _ _) as [last_day|] eqn:Hmr; [|reflexivity].
  pose proof (monthrange_days_bounds _ _ _ Hmr) as Hwd.
  destruct (month_range _ _ last_day) as [bounds|e]; [|reflexivity].
  destruct (report_queryset db viewer _ bounds) as [qs|e].
  2:{ destruct e; reflexivity. }
  set (rows := map prepare_row (order_by_emp_id (annotate qs))).
  set (tp := sum_Z _). set (n := Z.of_nat _).
  destruct (average_attendance_of_spec tp n last_day ltac:(lia)) as [Hpos Hzero].
  assert (Havg : exists avg, average_attendance_of tp n last_day = Ok avg).
  { destruct (Z_lt_le_dec 0 n) as [Hn|Hn].
    - destruct (Hpos Hn) as [_ ->]. eexists. reflexivity.
    - rewrite (Hzero Hn). eexists. reflexivity. }
  destruct Havg as [avg ->].
  destruct (q_download (req_data req)) as [download|]; [|reflexivity].
  destruct (download_content_type download) as [ct|]; [|reflexivity].
  destruct (csv_lines_ok last_day rows ltac:(lia)) as [ls Hls].
  rewrite Hls. simpl. f_equal. now apply csv_lines_rows in Hls.
Qed.

(** C3: for a viewer who is not staff, the records that are aggregated
    are the viewer's own employee's records of the month, selected before
    the aggregation; the response has at most one row, it is the
    viewer's, and the rows are the same whatever department was asked
    for. *)
Theorem C3_non_staff_report_is_own (req : request ReportQuery) (db : DB)
    (viewer : User) :
  request_user db req = Some viewer -> is_staff viewer = false ->
  pk_unique emp_pk (employees db) ->
  (forall dept,
      rows_of (monthly_report (with_department dept req) db)
      = rows_of (monthly_report req db))
  /\ forall rows,
      rows_of (monthly_report req db) = Some rows ->
      exists own bounds qs,
        user_employee db viewer = Ok own
        /\ report_queryset db viewer (q_department (req_data req)) bounds
           = Ok qs
        /\ qs = filter (fun j => att_employee (j_att j) =? emp_pk own)
                       (join_all db (filter (in_range bounds)
                                            (attendances db)))
        /\ (forall j, In j qs ->
              att_employee (j_att j) = emp_pk own /\ j_emp j = own)
        /\ rows = map prepare_row (order_by_emp_id (annotate qs))
        /\ (List.length rows <= 1)%nat
        /\ (forall r, In r rows ->
              row_employee_id r = employee_id own
              /\ row_department r = department own).
Proof.
  intros Hv Hstaff Hpk. split.
  - intros dept. rewrite !rows_of_monthly_report.
    change (request_user db (with_department dept req))
      with (request_user db req).
    rewrite Hv. cbv zeta.
    change (query_year (req_data (with_department dept req))
                       (req_now (with_department dept req)))
      with (query_year (req_data req) (req_now req)).
    change (query_month (req_data (with_department dept req))
                        (req_now (with_department dept req)))
      with (query_month (req_data req) (req_now req)).
    destruct (monthrange_days _ _) as [last_day|]; [|reflexivity].
    destruct (month_range _ _ last_day) as [bounds|e]; [|reflexivity].
    now rewrite !report_queryset_non_staff.
  - intros rows H.
    destruct (monthly_report_rows req db rows H)
      as (viewer' & last_day & bounds & qs & Hrows).
    cbv zeta in Hrows. destruct Hrows as (Hv' & _ & _ & Hqs & ->).
    rewrite Hv in Hv'. injection Hv' as <-.
    pose proof Hqs as Hqs'.
    rewrite report_queryset_non_staff in Hqs' by exact Hstaff.
    destruct (user_employee db viewer) as [own|e] eqn:Hown; [|discriminate].
    injection Hqs' as Hqs'.
    pose proof (get_unique_in _ _ _ Hown) as [Hown_in _].
    assert (Hmine : forall j, In j qs ->
                      att_employee (j_att j) = emp_pk own /\ j_emp j = own).
    { intros j Hj.
      destruct (report_queryset_in _ _ _ _ _ j Hqs Hj) as (_ & _ & Hjoin).
      rewrite <- Hqs' in Hj. apply filter_In in Hj. destruct Hj as [_ Hj].
      apply Z.eqb_eq in Hj. split; [exact Hj|].
      destruct (join_some db _ _ Hjoin) as (_ & He & Hepk & _).
      apply (pk_unique_eq emp_pk (employees db)); auto. congruence. }
    assert (Hkeys : forall k k', In k (map key_of qs) -> In k' (map key_of qs) ->
                                 k = k').
    { intros k k' Hk Hk'. apply in_map_iff in Hk, Hk'.
      destruct Hk as (j & <- & Hj), Hk' as (j' & <- & Hj').
      destruct (report_queryset_in _ _ _ _ _ j Hqs Hj) as (_ & _ & Hjoin).
      destruct (report_queryset_in _ _ _ _ _ j' Hqs Hj') as (_ & _ & Hjoin').
      destruct (join_same_employee db _ _ _ _ Hjoin Hjoin') as [He Hu].
      - destruct (Hmine j Hj), (Hmine j' Hj'). congruence.
      - unfold key_of. now rewrite He, Hu. }
    exists own, bounds, qs.
    split; [reflexivity|]. split; [exact Hqs|].
    split; [now symmetry|]. split; [exact Hmine|]. split; [reflexivity|].
    split.
    + rewrite length_map, order_by_emp_id_length. unfold annotate.
      rewrite length_map. now apply distinct_keys_single.
    + intros r Hr. apply in_map_iff in Hr. destruct Hr as (ar & <- & Har).
      rewrite order_by_emp_id_in in Har.
      destruct (annotate_in ar qs Har) as (j & Hj & Hkey & _).
      destruct (Hmine j Hj) as [_ Hj_own]. simpl. rewrite Hkey.
      unfold key_of, key_emp_id. simpl. now rewrite Hj_own.
Qed.

(** Asha, of IT, asks for the HR report of March 2024. *)
Lemma C3_non_staff_report_witness :
  rows_of (monthly_report (sample_report_request 2 "HR") sample_db)
  = Some [mkReportRow "EMP2" "Asha" "IT" 2 "8h 30m" 30600]
  /\ rows_of (monthly_report
                (with_department "" (sample_report_request 2 "HR"))
                sample_db)
     = rows_of (monthly_report (sample_report_request 2 "HR") sample_db).
Proof.
  split; [reflexivity|].
  assert (Hpk : pk_unique emp_pk (employees sample_db)).
  { unfold pk_unique. simpl. repeat constructor; simpl; intuition lia. }
  exact (proj1 (C3_non_staff_report_is_own
                  (sample_report_request 2 "HR") sample_db
                  (mkUser 2 "asha" "secret" "Asha" "Rao" false false true)
                  eq_refl eq_refl Hpk) "").
Defined.

(** The staff report of March 2024, over all departments and over a
    department without records. *)
Lemma C6_average_attendance_witness :
  (exists ctx,
      monthly_report (sample_report_request 1 "") sample_db = ReportPage ctx
      /\ ctx_total_employees ctx = 2 /\ ctx_working_days ctx = 31
      /\ ctx_total_present_days ctx = 3
      /\ ctx_average_attendance ctx
         = Percent1f (Qmult (Qdiv (inject_Z 3) (inject_Z (2 * 31)))
                            (inject_Z 100)))
  /\ (exists ctx,
         monthly_report (sample_report_request 1 "FIN") sample_db
         = ReportPage ctx
         /\ ctx_total_employees ctx = 0
         /\ ctx_average_attendance ctx = PercentText "0%").
Proof.
  split.
  - eexists. split; [reflexivity|]. simpl.
    repeat (split; [reflexivity|]).
    destruct (C6_average_attendance_guarded (sample_report_request 1 "")
                sample_db) as (_ & _ & Hctx).
    destruct (Hctx _ eq_refl) as (_ & _ & _ & Hpos & _).
    exact (proj2 (Hpos eq_refl)).
  - eexists. split; [reflexivity|]. simpl. split; [reflexivity|].
    destruct (C6_average_attendance_guarded (sample_report_request 1 "FIN")
                sample_db) as (_ & _ & Hctx).
    destruct (Hctx _ eq_refl) as (_ & _ & _ & _ & Hzero).
    exact (Hzero eq_refl).
Defined.

(** * Further properties *)

(** ** Listing leaves *)

Lemma leave_joined_iff (db : DB) (l : Leave) :
  fk_employee_user db ->
  leave_joined db l = true
  <-> exists e, In e (employees db) /\ emp_pk e = leave_employee l.
Proof.
  intros Hfk. unfold leave_joined. split.
  - destruct (find _ (employees db)) as [e|] eqn:He; [|discriminate].
    intros _. apply find_some in He. destruct He as [Hin Hpk].
    apply Z.eqb_eq in Hpk. eauto.
  - intros (e & Hin & Hpk).
    destruct (find _ (employees db)) as [e0|] eqn:He.
    + apply find_some in He. destruct He as [Hin0 _].
      destruct (Hfk e0 Hin0) as (u & Hu & Hid).
      destruct (find (by_user_pk (emp_user e0)) (users db)) eqn:Hf;
        [reflexivity|].
      pose proof (find_none _ _ Hf u Hu) as Hno. unfold by_user_pk in Hno.
      apply Z.eqb_neq in Hno. contradiction.
    + pose proof (find_none _ _ He e Hin) as Hno. simpl in Hno.
      apply Z.eqb_neq in Hno. contradiction.
Qed.

(** X1: a staff user is shown every leave; any other user is shown the
    leaves of the user's own employee, all of them and no others. *)
Theorem X1_leave_list_visibility (req : request unit) (db : DB)
    (viewer : User) :
  request_user db req = Some viewer -> fk_employee_user db ->
  (forall l, In l (leaves db) ->
             exists e, In e (employees db) /\ emp_pk e = leave_employee l) ->
  (is_staff viewer = true -> leave_list req db = LeaveListPage (leaves db))
  /\ (is_staff viewer = false ->
      forall own, user_employee db viewer = Ok own ->
        exists ls,
          leave_list req db = LeaveListPage ls
          /\ forall l, In l ls
                       <-> In l (leaves db) /\ leave_employee l = emp_pk own).
Proof.
  intros Hv Hfk Hfkl. unfold leave_list. rewrite Hv. split; intros Hs.
  - rewrite Hs. f_equal. apply filter_all. intros l Hl.
    apply leave_joined_iff; auto.
  - intros own Hown. rewrite Hs, Hown. eexists. split; [reflexivity|].
    intros l. rewrite !filter_In, Z.eqb_eq. split.
    + intros [[Hin Heq] _]. auto.
    + intros [Hin Heq]. repeat split; auto.
      apply leave_joined_iff; auto.
Qed.

Section Checkers.

Context {A : Type} (eqb : A -> A -> bool).
Hypothesis eqb_eq : forall x y, eqb x y = true <-> x = y.

Lemma nodupb_sound (l : list A) : nodupb eqb l = true -> NoDup l.
Proof.
  induction l as [|x l IH]; simpl; [constructor|].
  rewrite andb_true_iff, negb_true_iff. intros [Hx Hl].
  constructor; [|now apply IH].
  intros Hin.
  assert (existsb (eqb x) l = true).
  { apply existsb_exists. exists x. split; [exact Hin | now apply eqb_eq]. }
  congruence.
Qed.

End Checkers.

Lemma pair_eqb_eq (p q : Z * Z) : pair_eqb p q = true <-> p = q.
Proof.
  destruct p, q. unfold pair_eqb. simpl.
  rewrite andb_true_iff, !Z.eqb_eq. split; [intros [-> ->] | intros [= -> ->]];
    auto.
Qed.

Lemma fk_employee_userb_sound (db : DB) :
  fk_employee_userb db = true -> fk_employee_user db.
Proof.
  unfold fk_employee_userb. rewrite forallb_forall. intros H e He.
  specialize (H e He). apply existsb_exists in H.
  destruct H as (u & Hu & Heq). apply Z.eqb_eq in Heq. eauto.
Qed.

Lemma fk_leave_employeeb_sound (db : DB) :
  fk_leave_employeeb db = true ->
  forall l, In l (leaves db) ->
            exists e, In e (employees db) /\ emp_pk e = leave_employee l.
Proof.
  unfold fk_leave_employeeb. rewrite forallb_forall. intros H l Hl.
  specialize (H l Hl). apply existsb_exists in H.
  destruct H as (e & He & Heq). apply Z.eqb_eq in Heq. eauto.
Qed.

Lemma accounts_okb_sound (db : DB) : accounts_okb db = true -> accounts_ok db.
Proof.
  unfold accounts_okb, accounts_ok, pk_unique. rewrite !andb_true_iff.
  intros [[[[[H1 H2] H3] H4] H5] H6].
  repeat split;
    try (apply (nodupb_sound Z.eqb Z.eqb_eq); assumption);
    try (apply (nodupb_sound String.eqb String.eqb_eq); assumption).
  now apply fk_employee_userb_sound.
Qed.

Lemma unique_together_of_keys (rows : list Attendance) :
  NoDup (map (fun a => (att_employee a, att_date a)) rows) ->
  unique_together rows.
Proof.
  intros Hnd emp d. induction rows as [|a rows IH]; simpl; [lia|].
  inversion Hnd as [|k ks Hk Hks]; subst. specialize (IH Hks).
  destruct (att_key emp d a) eqn:E; [|exact IH].
  apply att_key_true in E. destruct E as [<- <-].
  rewrite filter_none; [simpl; lia|].
  intros x Hx. apply not_true_is_false. intros Hkx.
  apply att_key_true in Hkx. destruct Hkx as [He Hd].
  apply Hk. apply in_map_iff. exists x. rewrite He, Hd. auto.
Qed.

Lemma attendance_table_okb_sound (db : DB) :
  attendance_table_okb db = true -> attendance_table_ok db.
Proof.
  unfold attendance_table_okb, attendance_table_ok, pk_unique.
  rewrite andb_true_iff. intros [H1 H2]. split.
  - now apply (nodupb_sound Z.eqb Z.eqb_eq).
  - apply unique_together_of_keys.
    now apply (nodupb_sound pair_eqb pair_eqb_eq).
Qed.

Lemma X1_leave_list_witness :
  exists ls,
    leave_list (mkRequest GET (Some 3) tt 0) sample_db_leaves
    = LeaveListPage ls
    /\ forall l, In l ls
                 <-> In l (leaves sample_db_leaves) /\ leave_employee l = 2.
Proof.
  exact (proj2 (X1_leave_list_visibility (mkRequest GET (Some 3) tt 0)
                  sample_db_leaves
                  (mkUser 3 "ravi" "secret" "Ravi" "Iyer" false false true)
                  eq_refl
                  (fk_employee_userb_sound sample_db_leaves eq_refl)
                  (fk_leave_employeeb_sound sample_db_leaves eq_refl))
               eq_refl (mkEmployee 2 3 "EMP1" "HR" "Recruiter" 19000)
               eq_refl).
Defined.

(** What a successful [apply_leave] did. *)
Lemma apply_leave_submitted (req : request LeavePost) (db db' : DB)
    (l : Leave) :
  apply_leave req db = (db', LeaveSubmitted l) ->
  exists viewer emp,
    request_user db req = Some viewer
    /\ user_employee db viewer = Ok emp
    /\ leave_employee l = emp_pk emp
    /\ leaves db' = (leaves db ++ [l])%list
    /\ users db' = users db /\ employees db' = employees db
    /\ attendances db' = attendances db.
Proof.
  unfold apply_leave. intros H.
  destruct (request_user db req) as [viewer|]; [|discriminate].
  destruct (req_method req); [discriminate|].
  destruct (LeaveApplyForm_instance (req_data req)) as [mk|] eqn:Hform;
    [|discriminate].
  apply LeaveApplyForm_instance_some in Hform.
  destruct Hform as (s & e & _ & _ & _ & ->).
  destruct (user_employee db viewer) as [emp|ex] eqn:Hemp; [|discriminate].
  unfold Leave_insert in H. injection H as <- <-.
  exists viewer, emp. simpl. repeat split; try reflexivity; assumption.
Qed.

(** X2: a leave submitted through [apply_leave] is on the submitter's
    own list right after, and on no list of a user who is not staff and
    whose employee is another one. *)
Theorem X2_submitted_leave_is_listed (req : request LeavePost)
    (db db' : DB) (l : Leave) :
  apply_leave req db = (db', LeaveSubmitted l) -> fk_employee_user db ->
  (forall m now, exists ls,
        leave_list (mkRequest m (req_session req) tt now) db'
        = LeaveListPage ls /\ In l ls)
  /\ (forall req2 viewer2 own2 ls2,
         request_user db' req2 = Some viewer2 -> is_staff viewer2 = false ->
         user_employee db' viewer2 = Ok own2 ->
         emp_pk own2 <> leave_employee l ->
         leave_list req2 db' = LeaveListPage ls2 -> ~ In l ls2).
Proof.
  intros H Hfk.
  destruct (apply_leave_submitted req db db' l H)
    as (viewer & emp & Hv & Hown & Hle & Hleaves & Husers & Hemps & _).
  pose proof (get_unique_in _ _ _ Hown) as [Hemp_in _].
  assert (Hfk' : fk_employee_user db').
  { intros e He. rewrite Hemps in He. rewrite Husers. now apply Hfk. }
  assert (Hjoined : leave_joined db' l = true).
  { apply leave_joined_iff; [exact Hfk'|]. exists emp. rewrite Hemps. auto. }
  assert (Hin : In l (leaves db')).
  { rewrite Hleaves. apply in_or_app. right. now left. }
  split.
  - intros m now. unfold leave_list.
    assert (Hv' : request_user db' (mkRequest m (req_session req) tt now)
                  = Some viewer).
    { unfold request_user in *. simpl. now rewrite Husers. }
    rewrite Hv'. destruct (is_staff viewer).
    + eexists. split; [reflexivity|]. apply filter_In. auto.
    + assert (Hown' : user_employee db' viewer = Ok emp).
      { unfold user_employee in *. now rewrite Hemps. }
      rewrite Hown'. eexists. split; [reflexivity|].
      rewrite !filter_In. repeat split; auto. now apply Z.eqb_eq.
  - intros req2 viewer2 own2 ls2 Hv2 Hs2 Hown2 Hne Hlist Hl.
    unfold leave_list in Hlist. rewrite Hv2, Hs2, Hown2 in Hlist.
    injection Hlist as <-. rewrite !filter_In, Z.eqb_eq in Hl.
    destruct Hl as [[_ Heq] _]. congruence.
Qed.

Lemma X2_submitted_leave_witness :
  let l := mkLeave 3 2 19810 19812 "wedding" PENDING 900 None None in
  exists ls,
    leave_list (mkRequest GET (Some 3) tt 950)
               (set_leaves sample_db_leaves (leaves sample_db_leaves ++ [l]))
    = LeaveListPage ls /\ In l ls.
Proof.
  intros l.
  exact (proj1 (X2_submitted_leave_is_listed
                  (mkRequest POST (Some 3)
                     (mkLeavePost (Some 19810) (Some 19812) "wedding" []) 900)
                  sample_db_leaves
                  (set_leaves sample_db_leaves
                              (leaves sample_db_leaves ++ [l]))
                  l eq_refl
                  (fk_employee_userb_sound sample_db_leaves eq_refl))
               GET 950).
Defined.

(** ** The admin actions on leaves, beyond the status *)

Lemma same_request_refl (l : Leave) : same_request l l.
Proof. unfold same_request. repeat split. Qed.

Lemma same_request_trans (l1 l2 l3 : Leave) :
  same_request l1 l2 -> same_request l2 l3 -> same_request l1 l3.
Proof.
  unfold same_request. intros (a1 & a2 & a3 & a4 & a5 & a6)
    (b1 & b2 & b3 & b4 & b5 & b6). repeat split; congruence.
Qed.

Lemma Forall2_same_request_trans (ls1 ls2 ls3 : list Leave) :
  Forall2 same_request ls1 ls2 -> Forall2 same_request ls2 ls3 ->
  Forall2 same_request ls1 ls3.
Proof.
  intros H12. revert ls3. induction H12 as [|x y l l' Hxy _ IH];
    intros ls3 H23; inversion H23; subst; constructor.
  - eapply same_request_trans; eauto.
  - now apply IH.
Qed.

Lemma run_step_same_request (st : admin_step) (db : DB) :
  users (run_step st db) = users db
  /\ employees (run_step st db) = employees db
  /\ attendances (run_step st db) = attendances db
  /\ Forall2 same_request (leaves db) (leaves (run_step st db)).
Proof.
  unfold run_step, approve_leaves, reject_leaves, queryset_update.
  destruct (step_action st); simpl; repeat split;
    apply Forall2_map_self; intros l _;
    destruct (selected _ l); simpl;
    try apply same_request_refl; unfold same_request; simpl; repeat split.
Qed.

(** X3: approving and rejecting never add or remove a leave and never
    touch what was requested (employee, dates, reason, time of
    application) nor any other table, however many steps are run.  One
    step gives every selected leave the status of the action together
    with the acting user and the time of the step, and leaves every other
    leave exactly as it was. *)
Theorem X3_admin_actions_keep_the_request (sts : list admin_step) (db : DB) :
  users (run_steps sts db) = users db
  /\ employees (run_steps sts db) = employees db
  /\ attendances (run_steps sts db) = attendances db
  /\ Forall2 same_request (leaves db) (leaves (run_steps sts db))
  /\ forall st,
      Forall2 (fun l l' =>
                 (In (leave_pk l) (step_selection st) ->
                  status l' = target_status (step_action st)
                  /\ approved_by l' = Some (step_user st)
                  /\ approved_at l' = Some (step_now st))
                 /\ (~ In (leave_pk l) (step_selection st) -> l' = l))
              (leaves db) (leaves (run_step st db)).
Proof.
  assert (Hsteps : forall sts db,
             users (run_steps sts db) = users db
             /\ employees (run_steps sts db) = employees db
             /\ attendances (run_steps sts db) = attendances db
             /\ Forall2 same_request (leaves db) (leaves (run_steps sts db))).
  { clear. induction sts as [|st sts IH]; intros db; simpl.
    - repeat split. induction (leaves db); constructor;
        auto using same_request_refl.
    - destruct (run_step_same_request st db) as (H1 & H2 & H3 & H4).
      destruct (IH (run_step st db)) as (I1 & I2 & I3 & I4).
      repeat split; try congruence.
      eapply Forall2_same_request_trans; eauto. }
  destruct (Hsteps sts db) as (H1 & H2 & H3 & H4).
  split; [exact H1|]. split; [exact H2|]. split; [exact H3|].
  split; [exact H4|]. intros st.
  unfold run_step, approve_leaves, reject_leaves, queryset_update.
  destruct (step_action st); simpl; apply Forall2_map_self; intros l _;
    destruct (selected (step_selection st) l) eqn:E; simpl; split;
    try (intros _; repeat split; reflexivity);
    try (intros Hin; apply selected_iff in Hin; congruence);
    try (intros Hnot; exfalso; apply Hnot; now apply selected_iff).
Qed.

(** ** Marking attendance, beyond the upsert *)

Lemma compute_worked_consistent (a : Attendance) :
  (clock_in a = None \/ clock_out a = None -> worked_seconds a = 0) ->
  att_consistent (compute_worked a).
Proof.
  intros H. unfold att_consistent, compute_worked.
  destruct (clock_in a) as [cin|] eqn:Hi, (clock_out a) as [cout|] eqn:Ho;
    simpl; rewrite ?Hi, ?Ho; auto.
Qed.

Lemma with_clock_consistent (action : mark_action) (t : datetime)
    (a : Attendance) :
  att_consistent a ->
  att_consistent (compute_worked (with_clock action t a)).
Proof.
  intros Ha. apply compute_worked_consistent. unfold att_consistent in Ha.
  destruct action; simpl; intros [Hnone|Hnone]; try discriminate;
    rewrite Hnone in Ha.
  - destruct (clock_in a); exact Ha.
  - exact Ha.
Qed.

Lemma blank_record_consistent (db : DB) (emp : Z) (d : date) :
  att_consistent (blank_record db emp d).
Proof. reflexivity. Qed.

(** What the stored value is worth in whole seconds. *)
Lemma att_consistent_whole (a : Attendance) (cin cout : datetime) :
  att_consistent a -> clock_in a = Some cin -> clock_out a = Some cout ->
  (cin <= cout -> cout - cin < 2 ^ 34 * us_per_second ->
   worked_seconds a = (cout - cin) / us_per_second)
  /\ (cout < cin -> worked_seconds a = 0).
Proof.
  unfold att_consistent. intros Ha Hi Ho. rewrite Hi, Ho in Ha. split.
  - intros Hle Hlt. rewrite Ha, int_total_seconds_whole by lia.
    apply Z.max_r. apply Z.div_pos; unfold us_per_second; lia.
  - intros Hlt. rewrite Ha. apply Z.max_l. apply int_total_seconds_neg. lia.
Qed.

(** X4: [mark_attendance] keeps the stored [worked_seconds] in step with
    the timestamps.  If every record held 0 while a timestamp was missing
    and otherwise the value [save] computes from the two, the same is true
    after any call, answered or not; and that value is the whole seconds
    of the interval when it is not negative and shorter than 2**34
    seconds, and 0 when the clock-out is the earlier one. *)
Theorem X4_mark_attendance_keeps_worked_seconds
    (req : request (option MarkData)) (db : DB) :
  attendance_table_ok db ->
  Forall att_consistent (attendances db) ->
  let db' := fst (mark_attendance req db) in
  Forall att_consistent (attendances db')
  /\ forall a cin cout,
      In a (attendances db') ->
      clock_in a = Some cin -> clock_out a = Some cout ->
      (cin <= cout -> cout - cin < 2 ^ 34 * us_per_second ->
       worked_seconds a = (cout - cin) / us_per_second)
      /\ (cout < cin -> worked_seconds a = 0).
Proof.
  intros Hok Hall db'.
  assert (Hall' : Forall att_consistent (attendances db')).
  { subst db'.
    destruct (req_method req) eqn:Hm;
      [unfold mark_attendance; now rewrite Hm|].
    destruct (req_data req) as [data|] eqn:Hd;
      [|unfold mark_attendance; now rewrite Hm, Hd].
    destruct (get_unique (by_employee_id (mark_employee_id data))
                         (employees db)) as [emp|e] eqn:Hemp.
    2:{ unfold mark_attendance. rewrite Hm, Hd, Hemp. now destruct e. }
    destruct (mark_attendance_cases req data db emp Hok Hm Hd Hemp)
      as [[_ ->] | (_ & a & row & H)]; [exact Hall|].
    cbv zeta in H.
    destruct H as (Horigin & Hf & Hoth & _ & _ & _ & _ & Hcase).
    set (d := local_date (instant (timestamp_or_now data (req_now req))))
      in *.
    rewrite Forall_forall in Hall |- *.
    assert (Ha : att_consistent a).
    { destruct Horigin as [(Hin & _) | (_ & -> & _)]; [now apply Hall|].
      apply blank_record_consistent. }
    intros x Hx. destruct (att_key (emp_pk emp) d x) eqn:Hk.
    - assert (Hin : In x (filter (att_key (emp_pk emp) d)
                                 (attendances (fst (mark_attendance req db)))))
        by (apply filter_In; auto).
      rewrite Hf in Hin. destruct Hin as [<-|[]].
      destruct Hcase as [(e & _ & -> & _) | (_ & -> & _)]; [exact Ha|].
      now apply with_clock_consistent.
    - assert (Hin : In x (other_records (emp_pk emp) d
                            (attendances (fst (mark_attendance req db))))).
      { unfold other_records. apply filter_In. rewrite Hk. auto. }
      rewrite Hoth in Hin. apply filter_In in Hin. apply Hall, Hin. }
  split; [exact Hall'|].
  intros a cin cout Hin. rewrite Forall_forall in Hall'.
  apply att_consistent_whole. now apply Hall'.
Qed.

Lemma att_consistentb_sound (rows : list Attendance) :
  forallb (fun a =>
             match clock_in a, clock_out a with
             | Some cin, Some cout =>
                 worked_seconds a =? Z.max 0 (int_total_seconds (cout - cin))
             | _, _ => worked_seconds a =? 0
             end) rows = true ->
  Forall att_consistent rows.
Proof.
  rewrite forallb_forall, Forall_forall. intros H a Ha. specialize (H a Ha).
  unfold att_consistent.
  destruct (clock_in a), (clock_out a); now apply Z.eqb_eq.
Qed.

(** EMP2 clocks out at 18:15 on 2024-03-04, nine and a quarter hours
    after the stored clock-in. *)
Lemma X4_mark_attendance_witness :
  let db' :=
    fst (mark_attendance
           (mark_request None 0 "EMP2" OUT
              (mkAware (local_datetime 2024 3 4 18 15 0) CurrentTimezone))
           sample_db) in
  Forall att_consistent (attendances db')
  /\ In (mkAttendance 3 1 (days_from_civil 2024 3 4)
                      (Some (local_datetime 2024 3 4 9 0 0))
                      (Some (local_datetime 2024 3 4 18 15 0)) 33300)
        (attendances db').
Proof.
  intros db'. split.
  - apply X4_mark_attendance_keeps_worked_seconds.
    + apply attendance_table_okb_sound. reflexivity.
    + apply att_consistentb_sound. vm_compute. reflexivity.
  - vm_compute. auto.
Defined.

(** Two timestamps of one local date are less than 2**34 seconds
    apart. *)
Lemma same_date_interval (ta tb : datetime) :
  local_date ta = local_date tb ->
  Z.abs (tb - ta) < 2 ^ 34 * us_per_second.
Proof.
  intros H. pose proof (local_date_day ta) as Ha.
  pose proof (local_date_day tb) as Hb. rewrite H in Ha.
  pose proof (utcoffset_bounds ta). pose proof (utcoffset_bounds tb).
  unfold wall_clock, us_per_day, us_per_second in *.
  change (2 ^ 34) with 17179869184. lia.
Qed.

(** Two answered calls for one employee and one local date. *)
Lemma mark_attendance_twice (db : DB) (emp : Employee) (eid : string)
    (act1 act2 : mark_action) (ta tb : aware_datetime) (sa sb : option Z)
    (na nb : datetime) :
  attendance_table_ok db -> rows_storable db ->
  get_unique (by_employee_id eid) (employees db) = Ok emp ->
  representable (instant ta) -> representable (instant tb) ->
  local_date (instant ta) = local_date (instant tb) ->
  exists a0,
    filter (att_key (emp_pk emp) (local_date (instant ta)))
           (attendances
              (fst (mark_attendance (mark_request sb nb eid act2 tb)
                      (fst (mark_attendance (mark_request sa na eid act1 ta)
                                            db)))))
    = [compute_worked (with_clock act2 (instant tb)
                         (compute_worked (with_clock act1 (instant ta) a0)))].
Proof.
  intros Hok Hrows Hemp Hra Hrb Hdate.
  set (r1 := mark_request sa na eid act1 ta).
  set (r2 := mark_request sb nb eid act2 tb).
  destruct (mark_attendance_spec r1 (mkMarkData eid act1 (Some ta)) db emp
              Hok Hrows eq_refl eq_refl Hemp Hra)
    as (a0 & a1 & _ & Ha1 & _ & Hf1 & _ & _ & _ & Hok1 & Hrows1 & _ & Hemps
        & _).
  cbn [timestamp_or_now mark_timestamp mark_action_of req_now r1 mark_request]
    in Ha1, Hf1, Hok1, Hrows1, Hemps.
  set (db1 := fst (mark_attendance r1 db)) in *.
  assert (Hemp1 : get_unique (by_employee_id eid) (employees db1) = Ok emp)
    by now rewrite Hemps.
  destruct (mark_attendance_spec r2 (mkMarkData eid act2 (Some tb)) db1 emp
              Hok1 Hrows1 eq_refl eq_refl Hemp1 Hrb)
    as (b0 & b1 & Horigin & Hb1 & _ & Hf2 & _).
  cbn [timestamp_or_now mark_timestamp mark_action_of req_now r2 mark_request]
    in Horigin, Hb1, Hf2.
  rewrite <- Hdate in Horigin, Hf2.
  exists a0. rewrite Hf2, Hb1.
  assert (Hb0 : b0 = a1).
  { destruct Horigin as [[Hin Hk] | (Hnil & _)].
    - assert (Hin' : In b0 (filter (att_key (emp_pk emp)
                                            (local_date (instant ta)))
                                   (attendances db1)))
        by (apply filter_In; auto).
      rewrite Hf1 in Hin'. destruct Hin' as [<-|[]]. reflexivity.
    - rewrite Hf1 in Hnil. discriminate. }
  now rewrite Hb0, Ha1.
Qed.

Lemma clocked_of_both (t1 t2 : datetime) (a : Attendance) :
  local_date t1 = local_date t2 ->
  clock_in a = Some t1 -> clock_out a = Some t2 ->
  clocked t1 t2 (compute_worked a).
Proof.
  intros Hdate Hi Ho. unfold clocked.
  destruct (compute_worked_fields a) as (_ & _ & _ & Hci & Hco).
  split; [congruence|]. split; [congruence|].
  rewrite (compute_worked_both a t1 t2 Hi Ho).
  pose proof (same_date_interval t1 t2 Hdate) as Hlt. split.
  - intros Hle. rewrite int_total_seconds_whole by lia.
    apply Z.max_r. apply Z.div_pos; unfold us_per_second; lia.
  - intros Hlt'. apply Z.max_l. apply int_total_seconds_neg. lia.
Qed.

(** X5: a clock-in at [t1] and a clock-out at [t2] on one local date,
    both representable, give the same record whichever call comes first,
    the clock-out being accepted before any clock-in: the record holds
    both timestamps and the whole seconds from [t1] to [t2], or 0 when
    [t2] is earlier. *)
Theorem X5_clock_in_and_out_in_either_order (db : DB) (emp : Employee)
    (eid : string) (t1 t2 : aware_datetime) (s1 s2 : option Z)
    (n1 n2 : datetime) :
  attendance_table_ok db -> rows_storable db ->
  get_unique (by_employee_id eid) (employees db) = Ok emp ->
  representable (instant t1) -> representable (instant t2) ->
  local_date (instant t1) = local_date (instant t2) ->
  let rin := mark_request s1 n1 eid IN t1 in
  let rout := mark_request s2 n2 eid OUT t2 in
  let key := att_key (emp_pk emp) (local_date (instant t1)) in
  (exists a,
      filter key (attendances
                    (fst (mark_attendance rout
                            (fst (mark_attendance rin db))))) = [a]
      /\ clocked (instant t1) (instant t2) a)
  /\ (exists a,
         filter key (attendances
                       (fst (mark_attendance rin
                               (fst (mark_attendance rout db))))) = [a]
         /\ clocked (instant t1) (instant t2) a).
Proof.
  intros Hok Hrows Hemp Hr1 Hr2 Hdate rin rout key. split.
  - destruct (mark_attendance_twice db emp eid IN OUT t1 t2 s1 s2 n1 n2
                Hok Hrows Hemp Hr1 Hr2 Hdate) as (a0 & Hf).
    eexists. split; [exact Hf|].
    destruct (compute_worked_fields (with_clock IN (instant t1) a0))
      as (_ & _ & _ & Hci & _).
    set (a1 := compute_worked (with_clock IN (instant t1) a0)) in *.
    apply clocked_of_both; [exact Hdate | | reflexivity].
    change (clock_in a1 = Some (instant t1)). now rewrite Hci.
  - symmetry in Hdate.
    destruct (mark_attendance_twice db emp eid OUT IN t2 t1 s2 s1 n2 n1
                Hok Hrows Hemp Hr2 Hr1 Hdate) as (a0 & Hf).
    rewrite Hdate in Hf. eexists. split; [exact Hf|].
    destruct (compute_worked_fields (with_clock OUT (instant t2) a0))
      as (_ & _ & _ & _ & Hco).
    set (a1 := compute_worked (with_clock OUT (instant t2) a0)) in *.
    apply clocked_of_both; [now symmetry | reflexivity |].
    change (clock_out a1 = Some (instant t2)). now rewrite Hco.
Qed.

(** EMP1 clocks out at 13:00 on 2024-03-05 and only then in at 09:00. *)
Lemma X5_clock_in_and_out_witness :
  let t1 := local_datetime 2024 3 5 9 0 0 in
  let t2 := local_datetime 2024 3 5 13 0 0 in
  exists a,
    filter (att_key 2 (local_date t1))
           (attendances
              (fst (mark_attendance
                      (mark_request None 0 "EMP1" IN
                                    (mkAware t1 CurrentTimezone))
                      (fst (mark_attendance
                              (mark_request None 0 "EMP1" OUT
                                            (mkAware t2 OtherTimezone))
                              sample_db))))) = [a]
    /\ clock_in a = Some t1 /\ clock_out a = Some t2
    /\ worked_seconds a = 14400.
Proof.
  intros t1 t2.
  assert (Hr1 : representable t1) by (split; vm_compute; discriminate).
  assert (Hr2 : representable t2) by (split; vm_compute; discriminate).
  destruct (proj2 (X5_clock_in_and_out_in_either_order sample_db
                     (mkEmployee 2 3 "EMP1" "HR" "Recruiter" 19000) "EMP1"
                     (mkAware t1 CurrentTimezone) (mkAware t2 OtherTimezone)
                     None None 0 0
                     (attendance_table_okb_sound sample_db eq_refl)
                     (rows_storableb_sound sample_db eq_refl)
                     eq_refl Hr1 Hr2 eq_refl))
    as (a & Hf & Hi & Ho & Hw & _).
  exists a. split; [exact Hf|]. split; [exact Hi|]. split; [exact Ho|].
  rewrite Hw by (vm_compute; discriminate). reflexivity.
Defined.

Lemma get_unique_nodup {A : Type} (key : A -> string) (k : string)
    (rows : list A) :
  NoDup (map key rows) ->
  get_unique (fun r => (key r =? k)%string) rows
  <> Raise MultipleObjectsReturned.
Proof.
  intros Hnd. unfold get_unique.
  destruct (filter _ rows) as [|x [|y l]] eqn:Hf; try discriminate.
  exfalso.
  assert (Hlen : (List.length (filter (fun r => (key r =? k)%string) rows)
                  <= 1)%nat).
  { clear Hf. induction rows as [|r rows IH]; simpl; [lia|].
    inversion Hnd as [|k0 ks Hk Hks]; subst. specialize (IH Hks).
    destruct (String.eqb_spec (key r) k) as [<-|]; [|exact IH].
    rewrite filter_none; [simpl; lia|].
    intros z Hz. apply not_true_is_false. intros E.
    apply String.eqb_eq in E. apply Hk. rewrite <- E. now apply in_map. }
  rewrite Hf in Hlen. simpl in Hlen. lia.
Qed.

(** The answers of [mark_attendance] short of the employee lookup. *)
Lemma mark_attendance_early (req : request (option MarkData)) (db : DB) :
  NoDup (map employee_id (employees db)) ->
  (fst (mark_attendance req db) = db
   /\ (snd (mark_attendance req db) = Mark405
       \/ snd (mark_attendance req db) = Mark400
       \/ snd (mark_attendance req db) = Mark404))
  \/ exists data emp,
      req_method req = POST /\ req_data req = Some data
      /\ get_unique (by_employee_id (mark_employee_id data)) (employees db)
         = Ok emp.
Proof.
  intros Hnd. unfold mark_attendance.
  destruct (req_method req) eqn:Hm; [left; auto|].
  destruct (req_data req) as [data|] eqn:Hd; [|left; auto].
  destruct (get_unique (by_employee_id (mark_employee_id data))
                       (employees db)) as [emp|e0] eqn:Hemp.
  - right. exists data, emp. auto.
  - left. pose proof (get_unique_raises _ _ _ Hemp) as [-> | ->]; [auto|].
    exfalso. revert Hemp. now apply get_unique_nodup.
Qed.

Lemma with_clock_adaptable_inv (action : mark_action) (t : datetime)
    (a : Attendance) :
  adaptable (clock_in (with_clock action t a)) = true ->
  adaptable (clock_out (with_clock action t a)) = true ->
  in_utc_range t = true.
Proof. destruct action; simpl; auto. Qed.

(** A timestamp that is not representable raises, for a known
    employee. *)
Lemma mark_attendance_overflow (req : request (option MarkData))
    (data : MarkData) (db : DB) (emp : Employee) :
  attendance_table_ok db -> rows_storable db ->
  req_method req = POST -> req_data req = Some data ->
  get_unique (by_employee_id (mark_employee_id data)) (employees db)
  = Ok emp ->
  let ts := timestamp_or_now data (req_now req) in
  (tz ts = OtherTimezone -> ~ representable (instant ts) ->
   mark_attendance req db = (db, MarkRaised OverflowError))
  /\ (tz ts = CurrentTimezone -> in_utc_range (instant ts) = false ->
      snd (mark_attendance req db) = MarkRaised OverflowError).
Proof.
  intros Hok Hrows Hm Hd Hemp ts.
  destruct (mark_attendance_cases req data db emp Hok Hm Hd Hemp)
    as [[Hlt Hr] | (Hlt & a & row & H)]; fold ts in Hlt.
  { split; [intros _ _; exact Hr|].
    intros Htz _. destruct (localtime_date_cases ts) as [[H _] | (_ & H & _)];
      congruence. }
  cbv zeta in H. fold ts in H.
  destruct H as (Horigin & _ & _ & _ & _ & _ & _ & Hcase).
  split.
  - intros Htz Hnot. exfalso.
    destruct (localtime_date_cases ts) as [[_ H] | (H & _)];
      [now apply Hnot, H | congruence].
  - intros Htz Hrange.
    assert (Sw : 0 <= worked_seconds a).
    { destruct Horigin as [(Hin & _) | (_ & -> & _)]; [|simpl; lia].
      unfold rows_storable in Hrows. rewrite Forall_forall in Hrows.
      apply (Hrows a Hin). }
    destruct Hcase as [(e & Hsnd & _ & Hwhy) | (_ & -> & Ai & Ao & _)].
    + destruct (Hwhy Sw) as [-> _]. exact Hsnd.
    + destruct (compute_worked_fields
                  (with_clock (mark_action_of data) (instant ts) a))
        as (_ & _ & _ & Hci & Hco).
      rewrite Hci in Ai. rewrite Hco in Ao.
      pose proof (with_clock_adaptable_inv _ _ _ Ai Ao). congruence.
Qed.

(** X6: the answers of [mark_attendance] under the constraints of the
    tables.  The only exception that escapes is the [OverflowError] of a
    timestamp that is not representable, and then nothing is written,
    except that a timestamp carrying the current time zone leaves the
    empty record [get_or_create] made for a pair that had none.  A
    representable timestamp never raises.  An answer of 405, 400 or 404
    means that nothing was written, and the snapshot of a 200 answer is
    the record now stored for the named employee and the snapshot's
    date.  For a known employee, a timestamp of another time zone that
    is not representable raises, and so does one of the current time
    zone that is no UTC datetime. *)
Theorem X6_mark_attendance_answers (req : request (option MarkData))
    (db : DB) :
  attendance_table_ok db -> rows_storable db ->
  NoDup (map employee_id (employees db)) ->
  let r := mark_attendance req db in
  (forall e, snd r = MarkRaised e ->
     e = OverflowError
     /\ exists data emp,
         req_data req = Some data
         /\ In emp (employees db)
         /\ employee_id emp = mark_employee_id data
         /\ let ts := timestamp_or_now data (req_now req) in
            ~ representable (instant ts)
            /\ users (fst r) = users db /\ employees (fst r) = employees db
            /\ leaves (fst r) = leaves db
            /\ (attendances (fst r) = attendances db
                \/ (tz ts = CurrentTimezone
                    /\ filter (att_key (emp_pk emp)
                                       (local_date (instant ts)))
                              (attendances db) = []
                    /\ exists a,
                        attendances (fst r) = (attendances db ++ [a])%list
                        /\ att_employee a = emp_pk emp
                        /\ att_date a = local_date (instant ts)
                        /\ clock_in a = None /\ clock_out a = None
                        /\ worked_seconds a = 0)))
  /\ (forall data,
        req_data req = Some data ->
        representable (instant (timestamp_or_now data (req_now req))) ->
        forall e, snd r <> MarkRaised e)
  /\ ((forall s, snd r <> Mark200 s) -> (forall e, snd r <> MarkRaised e) ->
      fst r = db)
  /\ (forall s, snd r = Mark200 s ->
        exists emp a,
          In emp (employees db) /\ employee_id emp = snap_employee s
          /\ filter (att_key (emp_pk emp) (snap_date s)) (attendances (fst r))
             = [a]
          /\ clock_in a = snap_clock_in s /\ clock_out a = snap_clock_out s
          /\ worked_seconds a = snap_worked_seconds s)
  /\ (forall data emp,
        req_method req = POST -> req_data req = Some data ->
        get_unique (by_employee_id (mark_employee_id data)) (employees db)
        = Ok emp ->
        let ts := timestamp_or_now data (req_now req) in
        (tz ts = OtherTimezone -> ~ representable (instant ts) ->
         r = (db, MarkRaised OverflowError))
        /\ (tz ts = CurrentTimezone -> in_utc_range (instant ts) = false ->
            snd r = MarkRaised OverflowError)).
Proof.
  intros Hok Hrows Hnd r. subst r.
  match goal with
  | |- ?A /\ ?B /\ ?C /\ ?D /\ _ =>
      cut (A /\ B /\ C /\ D);
      [intros (H1 & H2 & H3 & H4);
       split; [exact H1|]; split; [exact H2|]; split; [exact H3|];
       split; [exact H4|];
       intros data emp; now apply mark_attendance_overflow |]
  end.
  destruct (mark_attendance_early req db Hnd)
    as [(Hdb & Hans) | (data & emp & Hm & Hd & Hemp)].
  { split; [|split; [|split]].
    - intros e He. destruct Hans as [H | [H | H]]; congruence.
    - intros data _ _ e He. destruct Hans as [H | [H | H]]; congruence.
    - intros _ _. exact Hdb.
    - intros s Hs. destruct Hans as [H | [H | H]]; congruence. }
  pose proof (get_unique_in _ _ _ Hemp) as [Hemp_in Hemp_id].
  apply String.eqb_eq in Hemp_id.
  set (ts := timestamp_or_now data (req_now req)).
  destruct (mark_attendance_cases req data db emp Hok Hm Hd Hemp)
    as [[Hlt Hr] | (Hlt & a & row & H)].
  { fold ts in Hlt.
    assert (Hnot : ~ representable (instant ts)).
    { destruct (localtime_date_cases ts) as [[H _] | (_ & _ & H)];
        [congruence | exact H]. }
    rewrite Hr. cbn [fst snd]. split; [|split; [|split]].
    - intros e [= <-]. split; [reflexivity|]. exists data, emp.
      split; [exact Hd|]. split; [exact Hemp_in|]. split; [exact Hemp_id|].
      cbv zeta. fold ts. auto 6.
    - intros data' Hd' Hrep e _. rewrite Hd in Hd'. injection Hd' as <-.
      contradiction.
    - intros _ Hno. exfalso. now apply (Hno OverflowError).
    - discriminate. }
  cbv zeta in H. fold ts in Hlt, H.
  set (d := local_date (instant ts)) in *.
  destruct H as (Horigin & Hf & Hoth & _ & Hu & He & Hl & Hcase).
  assert (Hsta : row_storable a).
  { destruct Horigin as [(Hin & _) | (_ & -> & _)].
    - unfold rows_storable in Hrows. rewrite Forall_forall in Hrows.
      now apply Hrows.
    - apply blank_record_storable. }
  destruct Hsta as (Sin & Sout & Sw).
  destruct Hcase as [(e & Hsnd & _ & Hwhy) | (Hsnd & -> & _)].
  - destruct (Hwhy Sw) as [-> Hbad].
    assert (Hrange : in_utc_range (instant ts) = false).
    { destruct (in_utc_range (instant ts)) eqn:E; [|reflexivity].
      rewrite with_clock_adaptable in Hbad; auto. }
    pose proof (not_in_utc_range_not_representable _ Hrange) as Hnot.
    assert (Htz : tz ts = CurrentTimezone).
    { destruct (localtime_date_cases ts) as [[_ H] | (H & _)];
        [|congruence].
      destruct (tz ts); [reflexivity|]. exfalso. now apply Hnot, H. }
    assert (Hno200 : forall s, snd (mark_attendance req db) <> Mark200 s)
      by (intros s; rewrite Hsnd; discriminate).
    split; [|split; [|split]].
    + intros e He'. rewrite Hsnd in He'. injection He' as <-.
      split; [reflexivity|]. exists data, emp.
      split; [exact Hd|]. split; [exact Hemp_in|]. split; [exact Hemp_id|].
      cbv zeta. fold ts. split; [exact Hnot|]. split; [exact Hu|].
      split; [exact He|]. split; [exact Hl|].
      destruct Horigin as [(_ & _ & Hsame) | (Hnone & Hblank & Happ)].
      * left. now rewrite (Hsame Hno200).
      * right. split; [exact Htz|]. split; [exact Hnone|].
        exists a. split; [exact (Happ Hno200)|]. rewrite Hblank.
        repeat split.
    + intros data' Hd' Hrep e' _. rewrite Hd in Hd'. injection Hd' as <-.
      contradiction.
    + intros _ Hno. exfalso. now apply (Hno OverflowError).
    + intros s Hs. rewrite Hsnd in Hs. discriminate.
  - split; [|split; [|split]].
    + intros e He'. rewrite Hsnd in He'. discriminate.
    + intros data' _ _ e He'. rewrite Hsnd in He'. discriminate.
    + intros Hno. exfalso. eapply Hno. exact Hsnd.
    + intros s Hs. rewrite Hsnd in Hs. injection Hs as <-. simpl.
      exists emp. eexists. repeat split; [exact Hemp_in | exact Hf].
Qed.

(** A timestamp submitted without an offset as 0001-01-01 00:00:00 is
    given the zone's local mean time and lies 5 h 53 min 28 s before
    [datetime.min] in UTC: [localtime] hands it back, [get_or_create]
    makes the record of that day, and the save raises. *)
Example mark_attendance_before_year_one :
  let t := mkAware (datetime_min - 21208 * us_per_second) CurrentTimezone in
  let r := mark_attendance (mark_request None 0 "EMP1" IN t) sample_db in
  snd r = MarkRaised OverflowError
  /\ attendances (fst r)
     = (attendances sample_db
        ++ [mkAttendance 5 2 (days_from_civil 1 1 1) None None 0])%list.
Proof. vm_compute. split; reflexivity. Qed.

(** Two calls on the sample data: an unknown employee writes nothing; a
    timestamp of 31 December 9999, 20:00 UTC, which is past the last day
    on the zone's wall clock, raises. *)
Lemma X6_mark_attendance_witness :
  fst (mark_attendance
         (mark_request None 0 "EMP404" IN
            (mkAware (local_datetime 2024 3 5 9 0 0) CurrentTimezone))
         sample_db) = sample_db
  /\ mark_attendance
       (mark_request None 0 "EMP1" IN
          (mkAware (utc_datetime 9999 12 31 20 0 0) OtherTimezone))
       sample_db
     = (sample_db, MarkRaised OverflowError).
Proof.
  pose proof (X6_mark_attendance_answers
                (mark_request None 0 "EMP404" IN
                   (mkAware (local_datetime 2024 3 5 9 0 0) CurrentTimezone))
                sample_db
                (attendance_table_okb_sound sample_db eq_refl)
                (rows_storableb_sound sample_db eq_refl)
                (nodupb_sound String.eqb String.eqb_eq
                   (map employee_id (employees sample_db)) eq_refl))
    as (_ & _ & H & _).
  split; [|reflexivity].
  apply H; intros s; discriminate.
Defined.

(** ** Registration, beyond the rollback *)

Lemma NoDup_snoc_any {A : Type} (l : list A) (x : A) :
  NoDup l -> ~ In x l -> NoDup (l ++ [x]).
Proof.
  intros Hl Hx. apply NoDup_app; [exact Hl | repeat constructor; intros [] |].
  intros a Ha [<-|[]]. contradiction.
Qed.

Lemma update_row_fresh {A : Type} (pk : A -> Z) (r r' : A) (rows : list A) :
  pk r = next_pk pk rows -> pk r' = pk r ->
  update_row pk r' (rows ++ [r]) = (rows ++ [r'])%list.
Proof.
  intros Hr Hr'. unfold update_row. rewrite map_app. simpl.
  rewrite Hr', Z.eqb_refl. f_equal.
  apply map_fixed. intros x Hx. pose proof (next_pk_fresh pk rows x Hx).
  destruct (pk x =? pk r) eqn:E; [|reflexivity].
  apply Z.eqb_eq in E. lia.
Qed.

Lemma existsb_false_not_in {A B : Type} (f : A -> B) (p : A -> bool)
    (l : list A) (b : B) :
  (forall x, f x = b -> p x = true) ->
  existsb p l = false -> ~ In b (map f l).
Proof.
  intros Hp Hex Hin. apply in_map_iff in Hin. destruct Hin as (x & Hfx & Hx).
  assert (existsb p l = true)
    by (apply existsb_exists; exists x; auto).
  congruence.
Qed.

(** What a successful transaction block wrote. *)
Lemma register_body_ok (now : datetime) (data : RegisterData) (db db' : DB)
    (emp : Employee) (user : User) :
  register_body now data db = (db', Ok (emp, user)) ->
  users db' = (users db ++ [user])%list
  /\ employees db' = (employees db ++ [emp])%list
  /\ attendances db' = attendances db /\ leaves db' = leaves db
  /\ user_id user = next_pk user_id (users db)
  /\ username user = reg_username data
  /\ is_active user = true
  /\ is_staff user = reg_is_admin data
  /\ is_superuser user = reg_is_admin data
  /\ ~ In (username user) (map username (users db))
  /\ emp_pk emp = next_pk emp_pk (employees db)
  /\ employee_id emp = reg_employee_id data
  /\ ~ In (employee_id emp) (map employee_id (employees db))
  /\ emp_user emp = user_id user
  /\ ~ In (emp_user emp) (map emp_user (employees db)).
Proof.
  unfold register_body, bind, create_user. intros H.
  destruct (String.eqb_spec (reg_username data) "") as [|_]; [discriminate|].
  destruct (existsb _ (users db)) eqn:Hfree; [discriminate|].
  set (u := mkUser (next_pk user_id (users db)) (reg_username data)
                   (reg_password data) (reg_first_name data)
                   (reg_last_name data) false false true) in *.
  assert (Hname : ~ In (reg_username data) (map username (users db))).
  { eapply existsb_false_not_in; [|exact Hfree].
    intros x Hx. now apply String.eqb_eq. }
  destruct (reg_is_admin data) eqn:Hadm;
    unfold User_save, ret, Employee_create in H; cbn [fst snd] in H;
    cbn [employees set_users users] in H;
    (destruct (existsb (by_employee_id (reg_employee_id data)) (employees db))
       eqn:Heid; [discriminate|]);
    (destruct (existsb _ (employees db)) eqn:Hlink in H; [discriminate|]);
    injection H as <- <- <-; cbn.
  - rewrite (update_row_fresh user_id u (with_admin_flags u) (users db))
      by reflexivity.
    repeat split; try reflexivity; try assumption.
    + eapply existsb_false_not_in; [|exact Heid].
      intros x Hx. unfold by_employee_id. now apply String.eqb_eq.
    + eapply existsb_false_not_in; [|exact Hlink].
      intros x Hx. now apply Z.eqb_eq.
  - repeat split; try reflexivity; try assumption.
    + eapply existsb_false_not_in; [|exact Heid].
      intros x Hx. unfold by_employee_id. now apply String.eqb_eq.
    + eapply existsb_false_not_in; [|exact Hlink].
      intros x Hx. now apply Z.eqb_eq.
Qed.

(** X7: whatever is submitted, [register_employee] either registers one
    account together with one employee linked to it, both appended with
    fresh keys and every other row left alone, or leaves the database
    exactly as it was (form errors, a user name or an employee id already
    taken). *)
Theorem X7_registration_is_all_or_nothing
    (req : request (option RegisterData)) (db : DB) :
  let r := register_employee req db in
  (exists emp user,
      snd r = Registered emp user
      /\ users (fst r) = (users db ++ [user])%list
      /\ employees (fst r) = (employees db ++ [emp])%list
      /\ attendances (fst r) = attendances db
      /\ leaves (fst r) = leaves db
      /\ emp_user emp = user_id user /\ is_active user = true
      /\ (forall u, In u (users db) -> user_id u <> user_id user)
      /\ (forall e, In e (employees db) -> emp_pk e <> emp_pk emp))
  \/ (fst r = db /\ forall emp user, snd r <> Registered emp user).
Proof.
  unfold register_employee, atomic.
  destruct (req_method req); [right; split; [reflexivity | discriminate]|].
  destruct (req_data req) as [data|];
    [|right; split; [reflexivity | discriminate]].
  destruct (register_body (req_now req) data db) as [db' [[emp user]|e]]
    eqn:Hbody; [|right; split; [reflexivity | discriminate]].
  left. simpl.
  destruct (register_body_ok _ _ _ _ _ _ Hbody)
    as (H1 & H2 & H3 & H4 & H5 & _ & H7 & _ & _ & _ & H11 & _ & _ & H14 & _).
  exists emp, user. repeat split; auto.
  - intros u Hu. pose proof (next_pk_fresh user_id _ u Hu). lia.
  - intros e He. pose proof (next_pk_fresh emp_pk _ e He). lia.
Qed.

(** X8: [register_employee] keeps the account tables well formed: user
    and employee keys, user names and employee ids stay unique, no user
    gets a second employee and every employee still has its user. *)
Theorem X8_registration_keeps_accounts_ok
    (req : request (option RegisterData)) (db : DB) :
  accounts_ok db -> accounts_ok (fst (register_employee req db)).
Proof.
  intros Hok. unfold register_employee, atomic.
  destruct (req_method req); [exact Hok|].
  destruct (req_data req) as [data|]; [|exact Hok].
  destruct (register_body (req_now req) data db) as [db' [[emp user]|e]]
    eqn:Hbody; [|exact Hok].
  simpl.
  destruct (register_body_ok _ _ _ _ _ _ Hbody)
    as (H1 & H2 & _ & _ & H5 & _ & _ & _ & _ & H10 & H11 & _ & H13 & H14
        & H15).
  destruct Hok as (K1 & K2 & K3 & K4 & K5 & K6).
  unfold accounts_ok, pk_unique. rewrite H1, H2, !map_app. simpl.
  repeat split; try (apply NoDup_snoc_any; assumption).
  - apply NoDup_snoc_any; [exact K1|]. rewrite H5. intros Hin.
    apply in_map_iff in Hin. destruct Hin as (u & Hu & Hin).
    pose proof (next_pk_fresh user_id _ u Hin). lia.
  - apply NoDup_snoc_any; [exact K3|]. rewrite H11. intros Hin.
    apply in_map_iff in Hin. destruct Hin as (x & Hx & Hin).
    pose proof (next_pk_fresh emp_pk _ x Hin). lia.
  - intros x Hx. unfold fk_employee_user in K6. rewrite H2 in Hx.
    rewrite H1. apply in_app_or in Hx. destruct Hx as [Hx | [<-|[]]].
    + destruct (K6 x Hx) as (u & Hu & Hid). exists u. split; [|exact Hid].
      apply in_or_app. now left.
    + exists user. split; [|now symmetry]. apply in_or_app. right. now left.
Qed.

Lemma X8_registration_witness :
  accounts_ok
    (fst (register_employee
            (mkRequest POST None
               (Some (mkRegisterData "meera" "Meera" "Nair" "secret" "EMP3"
                                     "FIN" "Analyst" false)) 0)
            sample_db)).
Proof.
  apply X8_registration_keeps_accounts_ok.
  apply accounts_okb_sound. reflexivity.
Defined.

(** ** Listing employees *)

Lemma join_employees_in (db : DB) (es : list Employee) (r : emp_row) :
  In r (join_employees db es)
  <-> In (fst r) es
      /\ find (by_user_pk (emp_user (fst r))) (users db) = Some (snd r).
Proof.
  induction es as [|e es IH]; simpl; [tauto|].
  destruct (find (by_user_pk (emp_user e)) (users db)) as [u|] eqn:Hf.
  - simpl. rewrite IH. split.
    + intros [<- | [H1 H2]]; simpl; auto.
    + intros [[He | H1] H2].
      * left. destruct r as [e' u']. simpl in *. subst e'.
        rewrite Hf in H2. now injection H2 as ->.
      * right. auto.
  - rewrite IH. split.
    + intros [H1 H2]. auto.
    + intros [[He | H1] H2]; [subst e; congruence | auto].
Qed.

Lemma insert_by_date_joined_in (r x : emp_row) (rs : list emp_row) :
  In r (insert_by_date_joined x rs) <-> r = x \/ In r rs.
Proof.
  induction rs as [|y rs IH]; simpl.
  - intuition.
  - destruct (_ <=? _); simpl; [intuition|]. rewrite IH. intuition.
Qed.

Lemma order_by_date_joined_desc_in (r : emp_row) (rs : list emp_row) :
  In r (order_by_date_joined_desc rs) <-> In r rs.
Proof.
  unfold order_by_date_joined_desc.
  induction rs as [|x rs IH]; simpl; [reflexivity|].
  rewrite insert_by_date_joined_in, IH. intuition.
Qed.

Lemma insert_by_date_joined_sorted (x : emp_row) (rs : list emp_row) :
  StronglySorted joined_desc rs ->
  StronglySorted joined_desc (insert_by_date_joined x rs).
Proof.
  induction 1 as [|y rs Hs IH Hall]; simpl.
  - repeat constructor.
  - destruct (date_joined (fst y) <=? date_joined (fst x)) eqn:E.
    + apply Z.leb_le in E. constructor; [now constructor|].
      constructor; [exact E|].
      rewrite Forall_forall in Hall |- *. intros z Hz.
      specialize (Hall z Hz). unfold joined_desc in *. lia.
    + apply Z.leb_gt in E. constructor; [exact IH|].
      rewrite Forall_forall in Hall |- *. intros z Hz.
      apply insert_by_date_joined_in in Hz. destruct Hz as [-> | Hz].
      * unfold joined_desc. lia.
      * now apply Hall.
Qed.

Lemma order_by_date_joined_desc_sorted (rs : list emp_row) :
  StronglySorted joined_desc (order_by_date_joined_desc rs).
Proof.
  unfold order_by_date_joined_desc. induction rs as [|x rs IH]; simpl.
  - constructor.
  - now apply insert_by_date_joined_sorted.
Qed.

Section SortedSublists.

Context {A : Type} (R : A -> A -> Prop).

Lemma StronglySorted_filter (f : A -> bool) (l : list A) :
  StronglySorted R l -> StronglySorted R (filter f l).
Proof.
  induction 1 as [|x l Hs IH Hall]; simpl; [constructor|].
  destruct (f x); [|exact IH]. constructor; [exact IH|].
  rewrite Forall_forall in Hall |- *. intros y Hy.
  apply filter_In in Hy. now apply Hall.
Qed.

Lemma StronglySorted_skipn (n : nat) (l : list A) :
  StronglySorted R l -> StronglySorted R (skipn n l).
Proof.
  revert l. induction n as [|n IH]; intros l Hs; simpl; [exact Hs|].
  destruct l as [|x l]; [constructor|]. apply IH. now inversion Hs.
Qed.

Lemma StronglySorted_firstn (n : nat) (l : list A) :
  StronglySorted R l -> StronglySorted R (firstn n l).
Proof.
  revert l. induction n as [|n IH]; intros l Hs; simpl; [constructor|].
  destruct l as [|x l]; [constructor|]. inversion Hs as [|? ? Hl Hall]; subst.
  constructor; [now apply IH|].
  rewrite Forall_forall in Hall |- *. intros y Hy. apply Hall.
  rewrite <- (firstn_skipn n l). apply in_or_app. now left.
Qed.

End SortedSublists.

Lemma user_list_queryset_in (db : DB) (q : string) (r : emp_row) :
  In r (user_list_queryset db q)
  <-> In (fst r) (employees db)
      /\ find (by_user_pk (emp_user (fst r))) (users db) = Some (snd r)
      /\ is_active (snd r) = true
      /\ (q = "" \/ search_matches q r = true).
Proof.
  unfold user_list_queryset.
  destruct (String.eqb_spec q "") as [->|Hq].
  - rewrite order_by_date_joined_desc_in, filter_In, join_employees_in.
    intuition.
  - rewrite filter_In, order_by_date_joined_desc_in, filter_In,
      join_employees_in. intuition.
Qed.

Lemma user_list_queryset_sorted (db : DB) (q : string) :
  StronglySorted joined_desc (user_list_queryset db q).
Proof.
  unfold user_list_queryset. destruct (q =? "")%string.
  - apply order_by_date_joined_desc_sorted.
  - apply StronglySorted_filter, order_by_date_joined_desc_sorted.
Qed.

Lemma num_pages_pos (count : Z) : 1 <= num_pages 20 count.
Proof. unfold num_pages. apply Z.div_le_lower_bound; lia. Qed.

Lemma get_page_number_range (count : Z) (page : option Z) :
  1 <= get_page_number 20 count page <= num_pages 20 count.
Proof.
  pose proof (num_pages_pos count). unfold get_page_number.
  destruct page as [n|]; [|lia].
  destruct ((n <? 1) || (num_pages 20 count <? n)) eqn:E; [lia|].
  apply orb_false_iff in E. destruct E as [E1 E2].
  apply Z.ltb_ge in E1, E2. lia.
Qed.

Lemma page_objects_in {A : Type} (objects : list A) (number : Z) (x : A) :
  In x (page_objects 20 objects number) -> In x objects.
Proof.
  unfold page_objects. intros H.
  rewrite <- (firstn_skipn (Z.to_nat ((number - 1) * 20)) objects).
  apply in_or_app. right.
  match type of H with
  | In _ (firstn ?k ?l) => rewrite <- (firstn_skipn k l)
  end.
  apply in_or_app. now left.
Qed.

Lemma page_objects_length {A : Type} (objects : list A) (number : Z) :
  (List.length (page_objects 20 objects number) <= 20)%nat.
Proof.
  unfold page_objects.
  etransitivity; [apply firstn_le_length|].
  destruct (_ <=? _) eqn:E; [apply Z.leb_le in E|]; lia.
Qed.

(** X9: the employee list, page or CSV, shows only employees whose
    user exists and is active and, when a search text is given, who match
    it in the employee id, the user name, the first name or the last name
    without regard to ASCII case; the rows come in descending order of
    [date_joined], a page has at most 20 of them and its number lies
    between 1 and the number of pages whatever page was asked for. *)
Theorem X9_user_list_rows (req : request UserListQuery) (db : DB) :
  let rows := rows_listed (user_list req db) in
  StronglySorted joined_desc rows
  /\ (forall r, In r rows ->
        In (fst r) (employees db) /\ In (snd r) (users db)
        /\ user_id (snd r) = emp_user (fst r)
        /\ is_active (snd r) = true
        /\ (ul_q (req_data req) <> "" ->
            search_matches (ul_q (req_data req)) r = true))
  /\ (forall page, user_list req db = UserListHtml page ->
        (List.length (page_rows page) <= 20)%nat
        /\ 1 <= page_number page <= page_count page).
Proof.
  assert (Hrow : forall r, In r (user_list_queryset db (ul_q (req_data req))) ->
            In (fst r) (employees db) /\ In (snd r) (users db)
            /\ user_id (snd r) = emp_user (fst r)
            /\ is_active (snd r) = true
            /\ (ul_q (req_data req) <> "" ->
                search_matches (ul_q (req_data req)) r = true)).
  { intros r Hr. apply user_list_queryset_in in Hr.
    destruct Hr as (He & Hf & Ha & Hq). apply find_some in Hf.
    destruct Hf as [Hu Hpk]. unfold by_user_pk in Hpk. apply Z.eqb_eq in Hpk.
    repeat split; auto. intros Hne. destruct Hq; [contradiction | assumption]. }
  unfold user_list.
  destruct (request_user db req) as [viewer|];
    [|simpl; repeat split; try constructor; try contradiction; discriminate].
  destruct (is_staff viewer); simpl;
    [|repeat split; try constructor; try contradiction; discriminate].
  destruct (match ul_download (req_data req) with
            | Some d => (d =? "csv")%string
            | None => false
            end); simpl.
  - split; [apply user_list_queryset_sorted|]. split; [exact Hrow|].
    discriminate.
  - split.
    { unfold page_objects.
      apply StronglySorted_firstn, StronglySorted_skipn,
        user_list_queryset_sorted. }
    split.
    { intros r Hr. apply Hrow. eapply page_objects_in; eauto. }
    intros page [= <-]. simpl. split.
    + apply page_objects_length.
    + apply get_page_number_range.
Qed.

Lemma find_update_row (k : Z) (u u' : User) (us : list User) :
  In u us -> user_id u = k -> user_id u' = k ->
  find (by_user_pk k) (update_row user_id u' us)
  = option_map (fun x => if user_id x =? k then u' else x)
               (find (by_user_pk k) us).
Proof.
  intros _ _ Hk'. unfold update_row. rewrite Hk'.
  induction us as [|x us IH]; simpl; [reflexivity|].
  unfold by_user_pk at 1 3. destruct (user_id x =? k) eqn:E.
  - rewrite Hk', Z.eqb_refl. simpl. now rewrite E.
  - rewrite E. exact IH.
Qed.

(** What a successful terminate or activate call did. *)
Lemma set_employee_active_inv (flag : bool) (req : request string)
    (db db' : DB) (emp : Employee) :
  set_employee_active flag req db = (db', Toggled emp) ->
  exists u,
    In emp (employees db) /\ employee_id emp = req_data req
    /\ get_unique (by_user_pk (emp_user emp)) (users db) = Ok u
    /\ db' = set_users db (update_row user_id (with_is_active flag u)
                                      (users db))
    /\ find (by_user_pk (emp_user emp)) (users db')
       = Some (with_is_active flag u).
Proof.
  unfold set_employee_active. intros H.
  destruct (request_user db req) as [viewer|]; [|discriminate].
  destruct (is_staff viewer); simpl in H; [|discriminate].
  destruct (req_method req); [discriminate|].
  destruct (get_unique (by_employee_id (req_data req)) (employees db))
    as [emp0|ex] eqn:Hemp.
  2:{ destruct ex; discriminate. }
  destruct (get_unique (by_user_pk (emp_user emp0)) (users db))
    as [u|ex] eqn:Hu; [|discriminate].
  unfold User_save in H. injection H as <- <-.
  pose proof (get_unique_in _ _ _ Hemp) as [Hin Hid].
  pose proof (get_unique_in _ _ _ Hu) as [Hinu Hpk].
  unfold by_user_pk in Hpk. apply Z.eqb_eq in Hpk.
  unfold by_employee_id in Hid. apply String.eqb_eq in Hid.
  exists u. repeat split; auto. simpl.
  rewrite (find_update_row (emp_user emp0) u) by auto.
  destruct (find (by_user_pk (emp_user emp0)) (users db)) as [x|] eqn:Hf.
  - apply find_some in Hf. destruct Hf as [_ Hx]. unfold by_user_pk in Hx.
    simpl. now rewrite Hx.
  - pose proof (find_none _ _ Hf u Hinu) as Hno. unfold by_user_pk in Hno.
    apply Z.eqb_neq in Hno. contradiction.
Qed.

(** X10: once [terminate_employee] has succeeded for an employee, no
    employee list shows that employee, whatever the search, page or
    format; once [activate_employee] has succeeded, a staff user's CSV
    download without search text contains the employee. *)
Theorem X10_toggle_shows_in_user_list (req : request string) (db db' : DB)
    (emp : Employee) :
  (terminate_employee req db = (db', Toggled emp) ->
   forall req2 r, In r (rows_listed (user_list req2 db')) -> fst r <> emp)
  /\ (activate_employee req db = (db', Toggled emp) ->
      forall req2 viewer,
        request_user db' req2 = Some viewer -> is_staff viewer = true ->
        ul_q (req_data req2) = "" ->
        ul_download (req_data req2) = Some "csv" ->
        exists u, In (emp, u) (rows_listed (user_list req2 db'))).
Proof.
  split; intros H.
  - intros req2 r Hr Heq.
    destruct (set_employee_active_inv false req db db' emp H)
      as (u & _ & _ & _ & _ & Hfind).
    assert (Hq : In r (user_list_queryset db' (ul_q (req_data req2)))).
    { revert Hr. unfold user_list.
      destruct (request_user db' req2) as [v|]; [|intros []].
      destruct (is_staff v); simpl; [|intros []].
      destruct (match ul_download (req_data req2) with
                | Some d => (d =? "csv")%string
                | None => false
                end); simpl; [auto|]. apply page_objects_in. }
    apply user_list_queryset_in in Hq. destruct Hq as (_ & Hf & Ha & _).
    rewrite Heq, Hfind in Hf. injection Hf as Hf. rewrite <- Hf in Ha.
    discriminate.
  - intros req2 viewer Hv Hs Hq Hcsv.
    destruct (set_employee_active_inv true req db db' emp H)
      as (u & Hin & _ & _ & Hdb' & Hfind).
    exists (with_is_active true u). unfold user_list.
    rewrite Hv, Hs, Hcsv, Hq. simpl.
    apply (user_list_queryset_in db' "" (emp, with_is_active true u)).
    simpl. subst db'. repeat split; auto.
Qed.

Lemma X10_toggle_witness :
  let db := fst (terminate_employee (mkRequest POST (Some 1) "EMP1" 0)
                                    sample_db) in
  let db' := fst (activate_employee (mkRequest POST (Some 1) "EMP1" 0) db) in
  exists u,
    In (mkEmployee 2 3 "EMP1" "HR" "Recruiter" 19000, u)
       (rows_listed
          (user_list
             (mkRequest GET (Some 1) (mkUserListQuery "" (Some "csv") None) 0)
             db')).
Proof.
  intros db db'.
  exact (proj2 (X10_toggle_shows_in_user_list
                  (mkRequest POST (Some 1) "EMP1" 0) db db'
                  (mkEmployee 2 3 "EMP1" "HR" "Recruiter" 19000))
               eq_refl
               (mkRequest GET (Some 1) (mkUserListQuery "" (Some "csv") None)
                          0)
               (mkUser 1 "admin" "secret" "Ada" "Min" true true true)
               eq_refl eq_refl eq_refl eq_refl).
Defined.

Lemma page_objects_cover {A : Type} (l : list A) (x : A) :
  In x l ->
  exists n, 1 <= n <= num_pages 20 (Z.of_nat (List.length l))
            /\ In x (page_objects 20 l n).
Proof.
  intros Hin. apply In_nth_error in Hin. destruct Hin as [i Hi].
  assert (Hlt : (i < List.length l)%nat).
  { apply nth_error_Some. congruence. }
  set (q := Z.of_nat i / 20).
  pose proof (Z.mul_div_le (Z.of_nat i) 20 ltac:(lia)) as Hq1.
  pose proof (Z.mul_succ_div_gt (Z.of_nat i) 20 ltac:(lia)) as Hq2.
  fold q in Hq1, Hq2.
  assert (Hq0 : 0 <= q) by (apply Z.div_pos; lia).
  exists (q + 1). split.
  - split; [lia|]. unfold num_pages.
    replace (q + 1) with ((Z.of_nat i + 1 * 20) / 20)
      by (rewrite Z.div_add by lia; reflexivity).
    apply Z.div_le_mono; lia.
  - unfold page_objects. replace (q + 1 - 1) with q by lia.
    set (bottom := q * 20).
    set (top := if Z.of_nat (List.length l) <=? bottom + 20
                then Z.of_nat (List.length l) else bottom + 20).
    assert (Htop : Z.of_nat i < top).
    { unfold top. destruct (_ <=? _); lia. }
    apply nth_error_In with (n := (i - Z.to_nat bottom)%nat).
    rewrite nth_error_firstn.
    replace (i - Z.to_nat bottom <? Z.to_nat (top - bottom))%nat with true
      by (symmetry; apply Nat.ltb_lt; lia).
    rewrite nth_error_skipn.
    replace (Z.to_nat bottom + (i - Z.to_nat bottom))%nat with i by lia.
    exact Hi.
Qed.

(** X11: every employee of the list is reachable: for each row of the
    list there is a page number under which a staff user's request, with
    the same search text, shows that row. *)
Theorem X11_every_listed_employee_has_a_page (db : DB) (q : string)
    (r : emp_row) :
  In r (user_list_queryset db q) ->
  exists n,
    forall req viewer,
      request_user db req = Some viewer -> is_staff viewer = true ->
      ul_q (req_data req) = q -> ul_download (req_data req) = None ->
      ul_page (req_data req) = Some n ->
      In r (rows_listed (user_list req db)).
Proof.
  intros Hin. destruct (page_objects_cover _ r Hin) as (n & Hn & Hpage).
  exists n. intros req viewer Hv Hs Hq Hd Hp.
  unfold user_list. rewrite Hv, Hs, Hd, Hq, Hp. simpl.
  unfold get_page_number.
  replace ((n <? 1) || (num_pages 20 _ <? n)) with false; [exact Hpage|].
  symmetry. apply orb_false_iff. split; apply Z.ltb_ge; lia.
Qed.

Lemma X11_page_witness :
  exists n,
    forall req viewer,
      request_user sample_db req = Some viewer -> is_staff viewer = true ->
      ul_q (req_data req) = "asha" -> ul_download (req_data req) = None ->
      ul_page (req_data req) = Some n ->
      In (mkEmployee 1 2 "EMP2" "IT" "Engineer" 19000,
          mkUser 2 "asha" "secret" "Asha" "Rao" false false true)
         (rows_listed (user_list req sample_db)).
Proof.
  apply X11_every_listed_employee_has_a_page.
  vm_compute. left. reflexivity.
Defined.

(** ** The deletion script *)

Lemma filter_neq_in {A : Type} (f : A -> Z) (k : Z) (l : list A) (x : A) :
  In x (filter (fun y => negb (f y =? k)) l) <-> In x l /\ f x <> k.
Proof.
  rewrite filter_In, negb_true_iff, Z.eqb_neq. reflexivity.
Qed.

(** The three deletions for one employee, together. *)
Lemma delete_employee_data_spec (emp : Employee) (db : DB) :
  snd (delete_employee_data emp db) = Ok tt
  /\ employees_removed [emp_pk emp] db (fst (delete_employee_data emp db)).
Proof.
  unfold delete_employee_data, bind, Attendance_delete_of, Leave_delete_of,
    Employee_delete, employees_removed. simpl.
  split; [reflexivity|]. split; [reflexivity|].
  split; [|split]; intros x; rewrite ?filter_neq_in; simpl; intuition.
Qed.

Lemma employees_removed_nil (db : DB) : employees_removed [] db db.
Proof. unfold employees_removed. simpl. intuition. Qed.

Lemma employees_removed_trans (pks1 pks2 : list Z) (db1 db2 db3 : DB) :
  employees_removed pks1 db1 db2 -> employees_removed pks2 db2 db3 ->
  employees_removed (pks1 ++ pks2) db1 db3.
Proof.
  unfold employees_removed.
  intros (U1 & E1 & A1 & L1) (U2 & E2 & A2 & L2).
  split; [congruence|].
  split; [|split]; intros x; rewrite in_app_iff.
  - rewrite E2, E1. tauto.
  - rewrite A2, A1. tauto.
  - rewrite L2, L1. tauto.
Qed.

Lemma delete_each_spec (victims : list emp_row) :
  forall (count : Z) (db : DB),
    snd (delete_each victims count db)
    = count + Z.of_nat (List.length victims)
    /\ employees_removed (map (fun r => emp_pk (fst r)) victims) db
                         (fst (delete_each victims count db)).
Proof.
  induction victims as [|v victims IH]; intros count db;
    cbn [delete_each map List.length].
  - split; [simpl; lia | apply employees_removed_nil].
  - unfold atomic. rewrite Nat2Z.inj_succ.
    destruct (delete_employee_data_spec (fst v) db) as [Hs Hr].
    destruct (delete_employee_data (fst v) db) as [db1 r1].
    simpl in Hs, Hr. subst r1.
    destruct (IH (count + 1) db1) as [Hc Hrest]. split; [lia|].
    exact (employees_removed_trans [emp_pk (fst v)] _ db db1 _ Hr Hrest).
Qed.

Lemma get_employee_with_user_ok (eid : string) (db : DB) (row : emp_row) :
  get_employee_with_user eid db = Ok row ->
  In (fst row) (employees db) /\ employee_id (fst row) = eid
  /\ In (snd row) (users db) /\ user_id (snd row) = emp_user (fst row).
Proof.
  unfold get_employee_with_user. intros H.
  apply get_unique_in in H. destruct H as [Hin Hid].
  apply join_employees_in in Hin. destruct Hin as [He Hf].
  apply find_some in Hf. destruct Hf as [Hu Hpk].
  unfold by_user_pk in Hpk. apply Z.eqb_eq in Hpk.
  unfold by_employee_id in Hid. apply String.eqb_eq in Hid. auto.
Qed.

(** X12: [delete_user_by_employee_id] removes the employee with its
    attendance and leave rows and nothing else.  In particular the users
    table is left exactly as it was: the account of the deleted employee
    is still there.  When the employee is not found, or on any failure,
    the database is unchanged. *)
Theorem X12_delete_by_employee_id_keeps_the_account (eid : string)
    (db : DB) :
  let r := delete_user_by_employee_id eid db in
  (forall row, snd r = DeleteDone row ->
     In (fst row) (employees db) /\ employee_id (fst row) = eid
     /\ employees_removed [emp_pk (fst row)] db (fst r)
     /\ users (fst r) = users db /\ In (snd row) (users (fst r))
     /\ user_id (snd row) = emp_user (fst row))
  /\ ((forall row, snd r <> DeleteDone row) -> fst r = db).
Proof.
  unfold delete_user_by_employee_id, atomic, bind, query, ret.
  destruct (get_employee_with_user eid db) as [row|e] eqn:Hget.
  - destruct (delete_employee_data_spec (fst row) db) as [Hs Hr].
    destruct (delete_employee_data (fst row) db) as [db1 r1].
    simpl in Hs, Hr. subst r1. simpl. split.
    + intros row' [= <-].
      destruct (get_employee_with_user_ok _ _ _ Hget) as (H1 & H2 & H3 & H4).
      pose proof Hr as (Hu & _). rewrite Hu. auto 10.
    + intros Hnot. exfalso. now apply (Hnot row).
  - split; [destruct e; discriminate|]. intros _. destruct e; reflexivity.
Qed.

Lemma X12_delete_witness :
  let r := delete_user_by_employee_id "EMP2" sample_db in
  snd r = DeleteDone (mkEmployee 1 2 "EMP2" "IT" "Engineer" 19000,
                      mkUser 2 "asha" "secret" "Asha" "Rao" false false true)
  /\ users (fst r) = users sample_db
  /\ map att_pk (attendances (fst r)) = [2].
Proof.
  intros r. split; [reflexivity|]. split; [|reflexivity].
  exact (proj1 (proj2 (proj2 (proj2
    (proj1 (X12_delete_by_employee_id_keeps_the_account "EMP2" sample_db)
           (mkEmployee 1 2 "EMP2" "IT" "Engineer" 19000,
            mkUser 2 "asha" "secret" "Asha" "Rao" false false true)
           eq_refl))))).
Defined.

(** X13: [delete_user_by_username] on a user who has an employee
    deletes the employee and its rows but not the user; only a second
    call, which finds the user without employee, deletes the account,
    after which no user has that name. *)
Theorem X13_delete_by_username_takes_two_calls (uname : string) (db : DB)
    (u : User) (emp : Employee) :
  get_unique (fun x => (username x =? uname)%string) (users db) = Ok u ->
  user_employee db u = Ok emp ->
  let r1 := delete_user_by_username uname db in
  let r2 := delete_user_by_username uname (fst r1) in
  snd r1 = UserDeleteDone u (Some emp)
  /\ employees_removed [emp_pk emp] db (fst r1)
  /\ In u (users (fst r1))
  /\ snd r2 = UserDeleteDone u None
  /\ (forall x, In x (users (fst r2))
                <-> In x (users db) /\ user_id x <> user_id u)
  /\ (forall x, In x (users (fst r2)) -> username x <> uname)
  /\ employees (fst r2) = employees (fst r1)
  /\ attendances (fst r2) = attendances (fst r1).
Proof.
  intros Hu Hemp r1 r2.
  destruct (delete_employee_data_spec emp db) as [Hs Hr].
  assert (H1 : r1 = (fst (delete_employee_data emp db),
                     UserDeleteDone u (Some emp))).
  { unfold r1, delete_user_by_username, atomic, bind, query, ret.
    rewrite Hu, Hemp.
    destruct (delete_employee_data emp db) as [db1 x]. simpl in Hs.
    subst x. reflexivity. }
  set (db1 := fst (delete_employee_data emp db)) in *.
  pose proof Hr as (Husers & Hemps & Hatts & Hleaves).
  assert (Hnone : filter (fun e => emp_user e =? user_id u) (employees db1)
                  = []).
  { apply filter_none. intros e He. apply not_true_is_false. intros Hl.
    apply Hemps in He. destruct He as [He Hpk].
    apply Hpk. left. symmetry. f_equal.
    eapply get_unique_only; eauto. }
  assert (Hgone : forall pk,
             existsb (fun e => (emp_pk e =? pk) && (emp_user e =? user_id u))
                     (employees db1) = false).
  { intros pk. apply not_true_is_false. intros Hex.
    apply existsb_exists in Hex. destruct Hex as (e & He & Hb).
    apply andb_true_iff in Hb. destruct Hb as [_ Hl].
    assert (Hin : In e (filter (fun e => emp_user e =? user_id u)
                               (employees db1)))
      by (apply filter_In; auto).
    rewrite Hnone in Hin. destruct Hin. }
  assert (H2 : r2 = (fst (User_delete u db1), UserDeleteDone u None)).
  { unfold r2. rewrite H1. simpl fst.
    unfold delete_user_by_username, atomic, bind, query, ret.
    rewrite Husers, Hu. unfold user_employee, get_unique. rewrite Hnone.
    reflexivity. }
  rewrite H1, H2. simpl fst. simpl snd.
  pose proof (get_unique_in _ _ _ Hu) as [Hin_u _].
  split; [reflexivity|]. split; [exact Hr|].
  split; [rewrite Husers; exact Hin_u|]. split; [reflexivity|].
  assert (Hus : forall x, In x (users (fst (User_delete u db1)))
                          <-> In x (users db) /\ user_id x <> user_id u).
  { intros x. unfold User_delete. cbn [fst users].
    rewrite filter_neq_in, Husers. reflexivity. }
  split; [exact Hus|]. split.
  - intros x Hx Hname. apply Hus in Hx. destruct Hx as [Hx Hpk].
    apply Hpk. f_equal. eapply get_unique_only; eauto.
    now apply String.eqb_eq.
  - unfold User_delete. cbn [fst employees attendances].
    split; apply filter_all; intros x _; now rewrite Hgone.
Qed.

Lemma X13_delete_by_username_witness :
  let r1 := delete_user_by_username "ravi" sample_db in
  let r2 := delete_user_by_username "ravi" (fst r1) in
  map username (users (fst r1)) = ["admin"; "asha"; "ravi"]
  /\ map username (users (fst r2)) = ["admin"; "asha"]
  /\ snd r2 = UserDeleteDone
                (mkUser 3 "ravi" "secret" "Ravi" "Iyer" false false true)
                None.
Proof.
  intros r1 r2. split; [reflexivity|]. split; [reflexivity|].
  exact (proj1 (proj2 (proj2 (proj2
    (X13_delete_by_username_takes_two_calls "ravi" sample_db
       (mkUser 3 "ravi" "secret" "Ravi" "Iyer" false false true)
       (mkEmployee 2 3 "EMP1" "HR" "Recruiter" 19000) eq_refl eq_refl))))).
Defined.

Lemma delete_loop_spec (victims : list emp_row) (db : DB) :
  let r := match victims with
           | [] => (db, None)
           | _ :: _ => let (db', count) := delete_each victims 0 db in
                       (db', Some count)
           end in
  employees_removed (map (fun r => emp_pk (fst r)) victims) db (fst r)
  /\ snd r = match victims with
             | [] => None
             | _ :: _ => Some (Z.of_nat (List.length victims))
             end.
Proof.
  destruct victims as [|v victims]; cbv zeta.
  - split; [apply employees_removed_nil | reflexivity].
  - destruct (delete_each_spec (v :: victims) 0 db) as [Hc Hr].
    destruct (delete_each (v :: victims) 0 db) as [db' c].
    simpl fst in *. simpl snd in *. split; [exact Hr|]. now rewrite Hc.
Qed.

Lemma victims_pks (P : emp_row -> bool) (db : DB) (k : Z) :
  In k (map (fun r => emp_pk (fst r))
            (filter P (join_employees db (employees db))))
  <-> exists e u,
      In e (employees db)
      /\ find (by_user_pk (emp_user e)) (users db) = Some u
      /\ P (e, u) = true /\ emp_pk e = k.
Proof.
  rewrite in_map_iff. split.
  - intros ([e u] & Hk & Hin). apply filter_In in Hin.
    destruct Hin as [Hin HP]. apply join_employees_in in Hin.
    simpl in *. exists e, u. tauto.
  - intros (e & u & He & Hf & HP & Hk). exists (e, u). split; [exact Hk|].
    apply filter_In. split; [|exact HP]. apply join_employees_in. auto.
Qed.

Lemma fk_find_user (db : DB) (e : Employee) :
  fk_employee_user db -> In e (employees db) ->
  exists u, find (by_user_pk (emp_user e)) (users db) = Some u.
Proof.
  intros Hfk He. destruct (Hfk e He) as (u & Hu & Hid).
  destruct (find (by_user_pk (emp_user e)) (users db)) as [u0|] eqn:Hf;
    [eauto|].
  pose proof (find_none _ _ Hf u Hu) as Hno. unfold by_user_pk in Hno.
  apply Z.eqb_neq in Hno. contradiction.
Qed.

Lemma join_employees_count (db : DB) (p : Employee -> bool)
    (es : list Employee) :
  (forall e, In e es ->
             exists u, find (by_user_pk (emp_user e)) (users db) = Some u) ->
  List.length (filter (fun r => p (fst r)) (join_employees db es))
  = List.length (filter p es).
Proof.
  induction es as [|e es IH]; intros H; simpl; [reflexivity|].
  destruct (H e (or_introl eq_refl)) as [u ->]. simpl.
  assert (IH' := IH (fun x Hx => H x (or_intror Hx))).
  destruct (p e); simpl; now rewrite IH'.
Qed.

(** X14: [bulk_delete_by_department] removes exactly the employees of
    the department, with the attendance and leave rows that belong to
    them, and reports how many there were; employees of other
    departments and their rows stay, and so does every user row,
    including the accounts of the deleted employees. *)
Theorem X14_bulk_delete_by_department (dept : string) (db : DB) :
  fk_employee_user db -> pk_unique emp_pk (employees db) ->
  let r := bulk_delete_by_department dept db in
  let in_dept (fk : Z) :=
    exists e, In e (employees db) /\ emp_pk e = fk /\ department e = dept in
  users (fst r) = users db
  /\ (forall e, In e (employees (fst r))
                <-> In e (employees db) /\ department e <> dept)
  /\ (forall a, In a (attendances (fst r))
                <-> In a (attendances db) /\ ~ in_dept (att_employee a))
  /\ (forall l, In l (leaves (fst r))
                <-> In l (leaves db) /\ ~ in_dept (leave_employee l))
  /\ (snd r = None
      <-> forall e, In e (employees db) -> department e <> dept)
  /\ (forall count, snd r = Some count ->
        count = Z.of_nat
                  (List.length
                     (filter (fun e => (department e =? dept)%string)
                             (employees db)))).
Proof.
  intros Hfk Hpk r in_dept.
  set (P := fun r : emp_row => (department (fst r) =? dept)%string).
  set (victims := filter P (join_employees db (employees db))).
  destruct (delete_loop_spec victims db) as [Hr Hc].
  change (employees_removed (map (fun r => emp_pk (fst r)) victims) db (fst r))
    in Hr.
  change (snd r = match victims with
                  | [] => None
                  | _ :: _ => Some (Z.of_nat (List.length victims))
                  end) in Hc.
  destruct Hr as (Hu & He & Ha & Hl).
  assert (Hpks : forall k, In k (map (fun r => emp_pk (fst r)) victims)
                           <-> in_dept k).
  { intros k. unfold victims. rewrite victims_pks. unfold in_dept, P. split.
    - intros (e & u & H1 & _ & H3 & H4). simpl in H3.
      apply String.eqb_eq in H3. eauto.
    - intros (e & H1 & H2 & H3).
      destruct (fk_find_user db e Hfk H1) as [u Hf].
      exists e, u. simpl. rewrite H3, String.eqb_refl. auto. }
  assert (Hlen : List.length victims
                 = List.length (filter (fun e => (department e =? dept)%string)
                                       (employees db))).
  { unfold victims, P.
    apply (join_employees_count db
             (fun e => (department e =? dept)%string)).
    intros e He'. now apply fk_find_user. }
  split; [exact Hu|]. split; [|split; [|split; [|split]]].
  - intros e. rewrite He, Hpks. unfold in_dept. split.
    + intros [H1 H2]. split; [exact H1|]. intros Hd. apply H2. eauto.
    + intros [H1 H2]. split; [exact H1|]. intros (e' & H3 & H4 & H5).
      apply H2. rewrite <- H5. f_equal.
      apply (pk_unique_eq emp_pk (employees db)); auto.
  - intros a. rewrite Ha, Hpks. reflexivity.
  - intros l. rewrite Hl, Hpks. reflexivity.
  - rewrite Hc. clear Hc He Ha Hl Hlen. split.
    + intros Hnone e He' Hd.
      assert (Hin : In (emp_pk e) (map (fun r => emp_pk (fst r)) victims)).
      { apply Hpks. exists e. auto. }
      destruct victims; [destruct Hin | discriminate].
    + intros Hnone. destruct victims as [|v vs]; [reflexivity|].
      exfalso.
      destruct (proj1 (Hpks (emp_pk (fst v))) (or_introl eq_refl))
        as (e & H1 & _ & H3).
      now apply (Hnone e).
  - intros count Hcount. rewrite Hc in Hcount. rewrite <- Hlen.
    destruct victims; [discriminate|]. now injection Hcount as <-.
Qed.

Lemma X14_bulk_delete_witness :
  let r := bulk_delete_by_department "IT" sample_db in
  snd r = Some 1
  /\ users (fst r) = users sample_db
  /\ forall e, In e (employees (fst r))
               <-> In e (employees sample_db) /\ department e <> "IT".
Proof.
  intros r. split; [reflexivity|].
  destruct (X14_bulk_delete_by_department "IT" sample_db
              (fk_employee_userb_sound sample_db eq_refl)
              (nodupb_sound Z.eqb Z.eqb_eq
                            (map emp_pk (employees sample_db)) eq_refl))
    as (H1 & H2 & _).
  split; [exact H1 | exact H2].
Defined.

(** X15: [delete_all_inactive_users] deletes employees, not users: the
    users table is left as it was, inactive accounts included.  Of the
    employees, exactly those whose user is inactive are removed; of the
    attendance and leave rows, exactly those of a removed employee: every
    other row stays. *)
Theorem X15_delete_all_inactive_keeps_the_accounts (db : DB) :
  pk_unique emp_pk (employees db) ->
  let r := delete_all_inactive_users db in
  let inactive (e : Employee) :=
    exists u, find (by_user_pk (emp_user e)) (users db) = Some u
              /\ is_active u = false in
  let removed (k : Z) :=
    exists e, In e (employees db) /\ emp_pk e = k /\ inactive e in
  users (fst r) = users db
  /\ (forall e, In e (employees (fst r))
                <-> In e (employees db) /\ ~ inactive e)
  /\ (forall a, In a (attendances (fst r))
                <-> In a (attendances db) /\ ~ removed (att_employee a))
  /\ (forall l, In l (leaves (fst r))
                <-> In l (leaves db) /\ ~ removed (leave_employee l)).
Proof.
  intros Hpk r inactive removed.
  set (P := fun r : emp_row => negb (is_active (snd r))).
  set (victims := filter P (join_employees db (employees db))).
  destruct (delete_loop_spec victims db) as [Hr _].
  change (employees_removed (map (fun r => emp_pk (fst r)) victims) db (fst r))
    in Hr.
  destruct Hr as (Hu & He & Ha & Hl).
  assert (Hpks : forall k, In k (map (fun r => emp_pk (fst r)) victims)
                           <-> removed k).
  { intros k. unfold victims. rewrite victims_pks.
    unfold removed, inactive, P. split.
    - intros (e & u & H1 & H2 & H3 & H4). simpl in H3.
      apply negb_true_iff in H3. eauto 7.
    - intros (e & H1 & H2 & u & H3 & H4). exists e, u. simpl.
      rewrite H4. auto. }
  split; [exact Hu|]. split; [|split].
  - intros e. rewrite He, Hpks. unfold removed. split.
    + intros [H1 H2]. split; [exact H1|]. intros Hi. apply H2. eauto.
    + intros [H1 H2]. split; [exact H1|]. intros (e' & H3 & H4 & H5).
      apply H2.
      rewrite <- (pk_unique_eq emp_pk (employees db) e' e Hpk H3 H1 H4).
      exact H5.
  - intros a. rewrite Ha, Hpks. reflexivity.
  - intros l. rewrite Hl, Hpks. reflexivity.
Qed.

(** After EMP1 is terminated its employee row and its attendance record
    go; the three accounts and the records of EMP2 stay. *)
Lemma X15_delete_all_inactive_witness :
  let db := fst (terminate_employee (mkRequest POST (Some 1) "EMP1" 0)
                                    sample_db) in
  let r := delete_all_inactive_users db in
  users (fst r) = users db
  /\ map employee_id (employees (fst r)) = ["EMP2"]
  /\ map is_active (users (fst r)) = [true; true; false]
  /\ map att_pk (attendances (fst r)) = [1; 3; 4].
Proof.
  intros db r. split; [|repeat split; reflexivity].
  apply (X15_delete_all_inactive_keeps_the_accounts db).
  apply (nodupb_sound Z.eqb Z.eqb_eq (map emp_pk (employees db)) eq_refl).
Defined.

Lemma references_okb_sound (db : DB) :
  references_okb db = true -> references_ok db.
Proof.
  unfold references_okb, references_ok. rewrite !andb_true_iff.
  intros [[[H1 H2] H3] H4]. split; [now apply fk_employee_userb_sound|].
  split; [|split; [exact (fk_leave_employeeb_sound db H3)|]].
  - intros a Ha. rewrite forallb_forall in H2. specialize (H2 a Ha).
    apply existsb_exists in H2. destruct H2 as (e & He & Heq).
    apply Z.eqb_eq in Heq. eauto.
  - intros l k Hl Hk. rewrite forallb_forall in H4. specialize (H4 l Hl).
    rewrite Hk in H4. apply existsb_exists in H4.
    destruct H4 as (u & Hu & Heq). apply Z.eqb_eq in Heq. eauto.
Qed.

Lemma employees_removed_references (pks : list Z) (db db' : DB) :
  references_ok db -> employees_removed pks db db' -> references_ok db'.
Proof.
  intros (F1 & F2 & F3 & F4) (Hu & He & Ha & Hl).
  unfold references_ok, fk_employee_user, fk_attendance_employee,
    fk_leave_employee, fk_leave_approver. rewrite Hu.
  split; [|split; [|split]].
  - intros e Hin. apply He in Hin. now apply F1.
  - intros a Hin. apply Ha in Hin. destruct Hin as [Hin Hpk].
    destruct (F2 a Hin) as (e & H1 & H2). exists e. split; [|exact H2].
    apply He. split; [exact H1 | now rewrite H2].
  - intros l Hin. apply Hl in Hin. destruct Hin as [Hin Hpk].
    destruct (F3 l Hin) as (e & H1 & H2). exists e. split; [|exact H2].
    apply He. split; [exact H1 | now rewrite H2].
  - intros l k Hin Hk. apply Hl in Hin. destruct Hin as [Hin _].
    now apply (F4 l k).
Qed.

Lemma clear_approver_fields (k : Z) (l : Leave) :
  leave_employee (clear_approver k l) = leave_employee l
  /\ forall k', approved_by (clear_approver k l) = Some k' ->
                approved_by l = Some k' /\ k' <> k.
Proof.
  unfold clear_approver. destruct (approved_by l) as [k0|] eqn:Hk.
  - destruct (k0 =? k) eqn:E; simpl.
    + split; [reflexivity | discriminate].
    + split; [reflexivity|]. rewrite Hk. intros k' [= <-].
      apply Z.eqb_neq in E. auto.
  - split; [reflexivity|]. rewrite Hk. discriminate.
Qed.

Lemma User_delete_references (u : User) (db : DB) :
  references_ok db -> references_ok (fst (User_delete u db)).
Proof.
  intros (F1 & F2 & F3 & F4). unfold User_delete. cbn [fst].
  set (gone := fun pk : Z =>
                 existsb (fun e => (emp_pk e =? pk)
                                   && (emp_user e =? user_id u))
                         (employees db)).
  assert (Hkeep : forall e, In e (employees db) -> gone (emp_pk e) = false ->
                            emp_user e <> user_id u).
  { intros e He Hg Hl.
    assert (gone (emp_pk e) = true).
    { apply existsb_exists. exists e. split; [exact He|].
      rewrite Z.eqb_refl. simpl. now apply Z.eqb_eq. }
    congruence. }
  unfold references_ok, fk_employee_user, fk_attendance_employee,
    fk_leave_employee, fk_leave_approver. cbn [users employees attendances leaves].
  split; [|split; [|split]].
  - intros e Hin. apply filter_In in Hin. destruct Hin as [Hin Hg].
    apply negb_true_iff in Hg. destruct (F1 e Hin) as (x & Hx & Hid).
    exists x. split; [|exact Hid]. apply filter_neq_in. split; [exact Hx|].
    rewrite Hid. now apply Hkeep.
  - intros a Hin. apply filter_In in Hin. destruct Hin as [Hin Hg].
    destruct (F2 a Hin) as (e & H1 & H2). exists e. split; [|exact H2].
    apply filter_In. split; [exact H1 | now rewrite H2].
  - intros l Hin. apply in_map_iff in Hin. destruct Hin as (l0 & <- & Hin).
    apply filter_In in Hin. destruct Hin as [Hin Hg].
    destruct (clear_approver_fields (user_id u) l0) as [-> _].
    destruct (F3 l0 Hin) as (e & H1 & H2). exists e. split; [|exact H2].
    apply filter_In. split; [exact H1 | now rewrite H2].
  - intros l k Hin Hk. apply in_map_iff in Hin.
    destruct Hin as (l0 & <- & Hin).
    apply filter_In in Hin. destruct Hin as [Hin _].
    destruct (clear_approver_fields (user_id u) l0) as [_ Hc].
    destruct (Hc k Hk) as [Hk0 Hne].
    destruct (F4 l0 k Hin Hk0) as (x & Hx & Hid). exists x.
    split; [|exact Hid]. apply filter_neq_in. split; [exact Hx | congruence].
Qed.

(** X16: none of the four deletion functions leaves a dangling
    reference: if every employee had its user, every attendance and leave
    row its employee and every approver its user before the call, the
    same holds after it. *)
Theorem X16_deletions_keep_references (db : DB) (eid uname dept : string) :
  references_ok db ->
  references_ok (fst (delete_user_by_employee_id eid db))
  /\ references_ok (fst (delete_user_by_username uname db))
  /\ references_ok (fst (delete_all_inactive_users db))
  /\ references_ok (fst (bulk_delete_by_department dept db)).
Proof.
  intros Hok. split; [|split; [|split]].
  - unfold delete_user_by_employee_id, atomic, bind, query, ret.
    destruct (get_employee_with_user eid db) as [row|e].
    + destruct (delete_employee_data_spec (fst row) db) as [Hs Hr].
      destruct (delete_employee_data (fst row) db) as [db1 r1].
      simpl in *. subst r1. simpl.
      eapply employees_removed_references; eauto.
    + destruct e; exact Hok.
  - unfold delete_user_by_username, atomic, bind, query, ret.
    destruct (get_unique _ (users db)) as [u|e].
    2:{ destruct e; exact Hok. }
    destruct (user_employee db u) as [emp|e].
    + destruct (delete_employee_data_spec emp db) as [Hs Hr].
      destruct (delete_employee_data emp db) as [db1 r1].
      simpl in *. subst r1. simpl.
      eapply employees_removed_references; eauto.
    + destruct e; try exact Hok.
      apply (User_delete_references u db Hok).
  - destruct (delete_loop_spec
                (filter (fun r => negb (is_active (snd r)))
                        (join_employees db (employees db))) db) as [Hr _].
    eapply employees_removed_references; [exact Hok | exact Hr].
  - destruct (delete_loop_spec
                (filter (fun r => (department (fst r) =? dept)%string)
                        (join_employees db (employees db))) db) as [Hr _].
    eapply employees_removed_references; [exact Hok | exact Hr].
Qed.

Lemma X16_deletions_witness :
  references_ok (fst (delete_user_by_username "admin" sample_db_leaves))
  /\ map approved_by
         (leaves (fst (delete_user_by_username "admin" sample_db_leaves)))
     = [None; None].
Proof.
  split; [|reflexivity].
  apply (X16_deletions_keep_references sample_db_leaves "" "admin" "").
  apply references_okb_sound. reflexivity.
Defined.

Lemma join_employees_filter (db : DB) (p : Employee -> bool)
    (es : list Employee) :
  filter (fun r => p (fst r)) (join_employees db es)
  = join_employees db (filter p es).
Proof.
  induction es as [|e es IH]; simpl; [reflexivity|].
  destruct (find (by_user_pk (emp_user e)) (users db)) as [u|] eqn:Hf;
    destruct (p e) eqn:Hp; simpl; rewrite ?Hp, ?Hf, ?IH; reflexivity.
Qed.

(** X17: the script's [deactivate_user_by_employee_id] and the view
    [terminate_employee] do the same to the database: whenever the view
    terminates an employee, the script called with the same employee id
    on the same database ends in the same database. *)
Theorem X17_script_deactivation_matches_the_view (req : request string)
    (db db' : DB) (emp : Employee) :
  terminate_employee req db = (db', Toggled emp) ->
  exists u,
    deactivate_user_by_employee_id (req_data req) db
    = (db', DeactivateDone (emp, u))
    /\ In u (users db) /\ user_id u = emp_user emp.
Proof.
  unfold terminate_employee, set_employee_active. intros H.
  destruct (request_user db req) as [viewer|]; [|discriminate].
  destruct (is_staff viewer); simpl in H; [|discriminate].
  destruct (req_method req); [discriminate|].
  destruct (get_unique (by_employee_id (req_data req)) (employees db))
    as [emp0|ex] eqn:Hemp.
  2:{ destruct ex; discriminate. }
  destruct (get_unique (by_user_pk (emp_user emp0)) (users db))
    as [u|ex] eqn:Hu; [|discriminate].
  unfold User_save in H. injection H as <- <-.
  pose proof (get_unique_in _ _ _ Hu) as [Hinu Hpk].
  assert (Hfind : find (by_user_pk (emp_user emp0)) (users db) = Some u).
  { destruct (find (by_user_pk (emp_user emp0)) (users db)) as [x|] eqn:Hf.
    - apply find_some in Hf. destruct Hf as [Hx Hpx]. f_equal.
      eapply get_unique_only; eauto.
    - pose proof (find_none _ _ Hf u Hinu). congruence. }
  exists u. unfold deactivate_user_by_employee_id, get_employee_with_user.
  change (fun r : emp_row => by_employee_id (req_data req) (fst r))
    with (fun r : emp_row => (fun e => by_employee_id (req_data req) e) (fst r)).
  unfold get_unique. rewrite join_employees_filter.
  rewrite (get_unique_ok _ _ _ Hemp). simpl. rewrite Hfind. simpl.
  unfold User_save. unfold by_user_pk in Hpk. apply Z.eqb_eq in Hpk. auto.
Qed.

Lemma X17_script_deactivation_witness :
  exists u,
    deactivate_user_by_employee_id "EMP1" sample_db
    = (fst (terminate_employee (mkRequest POST (Some 1) "EMP1" 0) sample_db),
       DeactivateDone (mkEmployee 2 3 "EMP1" "HR" "Recruiter" 19000, u)).
Proof.
  destruct (X17_script_deactivation_matches_the_view
              (mkRequest POST (Some 1) "EMP1" 0) sample_db
              (fst (terminate_employee (mkRequest POST (Some 1) "EMP1" 0)
                                       sample_db))
              (mkEmployee 2 3 "EMP1" "HR" "Recruiter" 19000) eq_refl)
    as (u & H & _).
  exists u. exact H.
Defined.

(** ** The monthly report, beyond the rows *)

Lemma report_queryset_filter (db : DB) (viewer : User) (dept : string)
    (bounds : date * date) (qs : list joined) :
  report_queryset db viewer dept bounds = Ok qs ->
  exists p, qs = filter p (join_all db (filter (in_range bounds)
                                               (attendances db))).
Proof.
  unfold report_queryset.
  destruct (negb (is_staff viewer)).
  - destruct (user_employee db viewer) as [own|e]; [|discriminate].
    destruct (_ && _); intros [= <-].
    + rewrite filter_filter. eauto.
    + eauto.
  - destruct (_ && _); intros [= <-].
    + eauto.
    + exists (fun _ => true). symmetry. now apply filter_all.
Qed.

Lemma unique_together_tail (a : Attendance) (rows : list Attendance) :
  unique_together (a :: rows) -> unique_together rows.
Proof.
  intros H emp d. specialize (H emp d). simpl in H.
  destruct (att_key emp d a); simpl in H; lia.
Qed.

Lemma unique_together_dates (rows : list Attendance) (Q : Attendance -> bool)
    (emp : Z) :
  unique_together rows ->
  (forall a, In a rows -> Q a = true -> att_employee a = emp) ->
  NoDup (map att_date (filter Q rows)).
Proof.
  induction rows as [|a rows IH]; intros Hu HQ; simpl; [constructor|].
  assert (IH' : NoDup (map att_date (filter Q rows))).
  { apply IH; [eapply unique_together_tail; eauto|].
    intros x Hx. apply HQ. now right. }
  destruct (Q a) eqn:Ha; [|exact IH']. simpl. constructor; [|exact IH'].
  intros Hin. apply in_map_iff in Hin. destruct Hin as (b & Hd & Hb).
  apply filter_In in Hb. destruct Hb as [Hb HQb].
  pose proof (HQ a (or_introl eq_refl) Ha) as Ea.
  pose proof (HQ b (or_intror Hb) HQb) as Eb.
  specialize (Hu emp (att_date a)). simpl in Hu.
  replace (att_key emp (att_date a) a) with true in Hu
    by (symmetry; apply att_key_true; auto).
  assert (Hin : In b (filter (att_key emp (att_date a)) rows)).
  { apply filter_In. split; [exact Hb|]. apply att_key_true. auto. }
  destruct (filter (att_key emp (att_date a)) rows); [destruct Hin|].
  simpl in Hu. lia.
Qed.

Lemma NoDup_Z_range (l : list Z) (lo hi : Z) :
  NoDup l -> (forall x, In x l -> lo <= x <= hi) ->
  Z.of_nat (List.length l) <= Z.max 0 (hi - lo + 1).
Proof.
  intros Hnd Hr.
  set (n := Z.to_nat (hi - lo + 1)).
  assert (Hincl : incl l (map (fun i => lo + Z.of_nat i) (seq 0 n))).
  { intros x Hx. specialize (Hr x Hx). apply in_map_iff.
    exists (Z.to_nat (x - lo)). split; [lia|]. apply in_seq. unfold n. lia. }
  pose proof (NoDup_incl_length Hnd Hincl) as Hlen.
  rewrite length_map, length_seq in Hlen. unfold n in Hlen. lia.
Qed.

Lemma days_from_civil_day (y m d1 d2 : Z) :
  days_from_civil y m d2 - days_from_civil y m d1 = d2 - d1.
Proof. unfold days_from_civil. cbv zeta. ring. Qed.

Lemma sum_Z_bound {A : Type} (f : A -> Z) (B : Z) (l : list A) :
  (forall x, In x l -> f x <= B) ->
  sum_Z (map f l) <= Z.of_nat (List.length l) * B.
Proof.
  unfold sum_Z. intros H.
  assert (G : forall acc, fold_left Z.add (map f l) acc
                          <= acc + Z.of_nat (List.length l) * B).
  { induction l as [|x l IH]; intros acc; cbn [map fold_left List.length].
    - simpl. lia.
    - rewrite Nat2Z.inj_succ.
      specialize (IH (fun y Hy => H y (or_intror Hy)) (acc + f x)).
      pose proof (H x (or_introl eq_refl)). lia. }
  specialize (G 0). lia.
Qed.

(** X18: under the table's one-record-per-day constraint and unique
    employee ids, no row of a monthly report counts more days present
    than the month has days, so the total of days present is at most the
    number of rows times the working days. *)
Theorem X18_days_present_within_the_month (req : request ReportQuery)
    (db : DB) (rows : list ReportRow) :
  unique_together (attendances db) ->
  employee_id_unique (employees db) ->
  rows_of (monthly_report req db) = Some rows ->
  exists working_days,
    monthrange_days (query_year (req_data req) (req_now req))
                    (query_month (req_data req) (req_now req))
    = Some working_days
    /\ (forall r, In r rows -> 0 <= row_days_present r <= working_days)
    /\ sum_Z (map row_days_present rows)
       <= Z.of_nat (List.length rows) * working_days.
Proof.
  intros Huniq Hids H.
  destruct (monthly_report_rows req db rows H)
    as (viewer & last_day & bounds & qs & Hrows).
  cbv zeta in Hrows. destruct Hrows as (_ & Hmr & Hb & Hqs & ->).
  pose proof (monthrange_days_bounds _ _ _ Hmr) as Hwd.
  apply month_range_ok in Hb.
  exists last_day. split; [exact Hmr|].
  assert (Hrow : forall r,
             In r (map prepare_row (order_by_emp_id (annotate qs))) ->
             0 <= row_days_present r <= last_day).
  { intros r Hr. apply in_map_iff in Hr. destruct Hr as (ar & <- & Har).
    rewrite order_by_emp_id_in in Har.
    destruct (annotate_in ar qs Har) as (j & Hj & _ & _ & Hdays).
    simpl. rewrite Hdays. simpl. split; [lia|].
    assert (Hjoin : forall j', In j' qs -> join db (j_att j') = Some j').
    { intros j' Hj'. now apply (report_queryset_in _ _ _ _ _ j' Hqs). }
    rewrite (group_of_employee db qs j Hids Hjoin Hj).
    destruct (report_queryset_filter _ _ _ _ _ Hqs) as [p Hp].
    set (E := att_employee (j_att j)).
    set (grp := filter (fun j' => has_clock_in (j_att j'))
                       (filter (fun j' => att_employee (j_att j') =? E) qs)).
    assert (Hgrp : exists Q,
               map j_att grp = filter Q (attendances db)
               /\ forall a, Q a = true ->
                    att_employee a = E
                    /\ fst bounds <= att_date a <= snd bounds).
    { unfold grp. rewrite Hp, !filter_filter, join_all_filter_atts,
        filter_filter.
      eexists. split; [reflexivity|]. intros a Ha. simpl in Ha.
      apply andb_true_iff in Ha. destruct Ha as [Hr Ha].
      destruct (join db a) as [j'|] eqn:Hj'; [|discriminate].
      rewrite (join_att db a j' Hj') in Ha.
      rewrite !andb_true_iff in Ha. destruct Ha as [_ [Ha _]].
      apply Z.eqb_eq in Ha. split; [exact Ha|].
      unfold in_range in Hr. apply andb_true_iff in Hr.
      rewrite !Z.leb_le in Hr. exact Hr. }
    destruct Hgrp as (Q & HQ & HQa).
    assert (Hnd : NoDup (map att_date (map j_att grp))).
    { rewrite HQ. apply (unique_together_dates _ _ E Huniq).
      intros a _ Ha. now apply HQa. }
    pose proof (NoDup_Z_range _ (fst bounds) (snd bounds) Hnd) as Hlen.
    rewrite !length_map in Hlen.
    assert (Hrange : forall x, In x (map att_date (map j_att grp)) ->
                               fst bounds <= x <= snd bounds).
    { intros x Hx. rewrite HQ in Hx. apply in_map_iff in Hx.
      destruct Hx as (a & <- & Ha). apply filter_In in Ha. now apply HQa. }
    specialize (Hlen Hrange). subst bounds. simpl in Hlen.
    rewrite days_from_civil_day in Hlen. fold grp. lia. }
  split; [exact Hrow|].
  apply sum_Z_bound. intros r Hr. now apply Hrow.
Qed.

Lemma employee_id_unique_of_nodup (es : list Employee) :
  NoDup (map employee_id es) -> employee_id_unique es.
Proof.
  induction es as [|e es IH]; intros Hnd e1 e2 H1 H2 Heq; [destruct H1|].
  simpl in Hnd. inversion Hnd as [|k ks Hk Hks]; subst.
  destruct H1 as [<-|H1], H2 as [<-|H2].
  - reflexivity.
  - exfalso. apply Hk. rewrite Heq. now apply in_map.
  - exfalso. apply Hk. rewrite <- Heq. now apply in_map.
  - now apply (IH Hks).
Qed.

Lemma X18_days_present_witness :
  exists working_days,
    monthrange_days 2024 3 = Some working_days
    /\ forall r, In r [mkReportRow "EMP1" "Ravi" "HR" 1 "8h 0m" 28800;
                       mkReportRow "EMP2" "Asha" "IT" 2 "8h 30m" 30600] ->
                 0 <= row_days_present r <= working_days.
Proof.
  assert (Hids : employee_id_unique (employees sample_db)).
  { apply employee_id_unique_of_nodup.
    now apply (nodupb_sound String.eqb String.eqb_eq). }
  destruct (X18_days_present_within_the_month
              (sample_report_request 1 "") sample_db
              [mkReportRow "EMP1" "Ravi" "HR" 1 "8h 0m" 28800;
               mkReportRow "EMP2" "Asha" "IT" 2 "8h 30m" 30600]
              (proj2 (attendance_table_okb_sound sample_db eq_refl))
              Hids eq_refl) as (wd & H1 & H2 & _).
  exists wd. auto.
Defined.

Lemma insert_by_emp_id_perm (x : AggRow) (rs : list AggRow) :
  Permutation (insert_by_emp_id x rs) (x :: rs).
Proof.
  induction rs as [|y rs IH]; simpl; [reflexivity|].
  destruct (_ <=? _)%string; [reflexivity|].
  rewrite IH. apply perm_swap.
Qed.

Lemma order_by_emp_id_perm (rs : list AggRow) :
  Permutation (order_by_emp_id rs) rs.
Proof.
  unfold order_by_emp_id. induction rs as [|x rs IH]; simpl; [reflexivity|].
  rewrite insert_by_emp_id_perm. now constructor.
Qed.

Lemma distinct_keys_nodup (ks : list group_key) : NoDup (distinct_keys ks).
Proof.
  induction ks as [|k ks IH]; simpl; constructor.
  - rewrite filter_In, key_eqb_refl. intros [_ H]. discriminate.
  - now apply NoDup_filter.
Qed.

Lemma NoDup_map_inj_in {A B : Type} (f : A -> B) (l : list A) :
  NoDup l -> (forall x y, In x l -> In y l -> f x = f y -> x = y) ->
  NoDup (map f l).
Proof.
  induction 1 as [|x l Hx Hl IH]; intros Hinj; simpl; constructor.
  - intros Hin. apply in_map_iff in Hin. destruct Hin as (y & Hy & Hin).
    apply Hx. rewrite (Hinj x y); auto; [now left | now right].
  - apply IH. intros a b Ha Hb. apply Hinj; now right.
Qed.

(** X19: with unique employee ids a monthly report has one row per
    employee at most: no identifier appears in two rows.  When a staff
    user asks for a department, every row is of that department. *)
Theorem X19_one_row_per_employee (req : request ReportQuery) (db : DB)
    (rows : list ReportRow) :
  employee_id_unique (employees db) ->
  rows_of (monthly_report req db) = Some rows ->
  NoDup (map row_employee_id rows)
  /\ (forall viewer,
        request_user db req = Some viewer -> is_staff viewer = true ->
        q_department (req_data req) <> "" ->
        forall r, In r rows ->
                  row_department r = q_department (req_data req)).
Proof.
  intros Hids H.
  destruct (monthly_report_rows req db rows H)
    as (viewer & last_day & bounds & qs & Hrows).
  cbv zeta in Hrows. destruct Hrows as (Hv & _ & _ & Hqs & ->).
  assert (Hjoin : forall j, In j qs -> join db (j_att j) = Some j).
  { intros j Hj. now apply (report_queryset_in _ _ _ _ _ j Hqs). }
  split.
  - rewrite map_map.
    apply (Permutation_NoDup
             (l := map (fun r => row_employee_id (prepare_row r))
                       (annotate qs))).
    { apply Permutation_map. symmetry. apply order_by_emp_id_perm. }
    unfold annotate. rewrite map_map. simpl.
    apply NoDup_map_inj_in; [apply distinct_keys_nodup|].
    intros k1 k2 H1 H2 Heq.
    rewrite distinct_keys_in, in_map_iff in H1, H2.
    destruct H1 as (j1 & <- & Hj1), H2 as (j2 & <- & Hj2).
    unfold key_emp_id, key_of in Heq. simpl in Heq.
    destruct (join_some db _ _ (Hjoin j1 Hj1)) as (_ & He1 & Hp1 & _).
    destruct (join_some db _ _ (Hjoin j2 Hj2)) as (_ & He2 & Hp2 & _).
    pose proof (Hids _ _ He1 He2 Heq) as Hemp.
    destruct (join_same_employee db _ _ _ _ (Hjoin j1 Hj1) (Hjoin j2 Hj2))
      as [_ Hu]; [congruence|].
    unfold key_of. now rewrite Hemp, Hu.
  - intros viewer' Hv' Hs Hd r Hr. rewrite Hv in Hv'. injection Hv' as <-.
    apply in_map_iff in Hr. destruct Hr as (ar & <- & Har).
    rewrite order_by_emp_id_in in Har.
    destruct (annotate_in ar qs Har) as (j & Hj & Hkey & _).
    simpl. rewrite Hkey. simpl.
    unfold report_queryset in Hqs. rewrite Hs in Hqs. simpl in Hqs.
    destruct (String.eqb_spec (q_department (req_data req)) "") as [|_];
      [contradiction|].
    simpl in Hqs. injection Hqs as <-. apply filter_In in Hj.
    destruct Hj as [_ Hj]. now apply String.eqb_eq in Hj.
Qed.

Lemma X19_one_row_witness :
  rows_of (monthly_report (sample_report_request 1 "HR") sample_db)
  = Some [mkReportRow "EMP1" "Ravi" "HR" 1 "8h 0m" 28800]
  /\ forall r, In r [mkReportRow "EMP1" "Ravi" "HR" 1 "8h 0m" 28800] ->
               row_department r = "HR".
Proof.
  split; [reflexivity|].
  assert (Hids : employee_id_unique (employees sample_db)).
  { apply employee_id_unique_of_nodup.
    now apply (nodupb_sound String.eqb String.eqb_eq). }
  refine (proj2 (X19_one_row_per_employee (sample_report_request 1 "HR")
                   sample_db _ Hids eq_refl)
                (mkUser 1 "admin" "secret" "Ada" "Min" true true true)
                eq_refl eq_refl _).
  discriminate.
Defined.

(** ** The three printings of worked hours *)

(** X20: the admin column, the monthly report and the query script
    print worked seconds the same way for every value; the zero guard of
    the admin column changes nothing.  What each of them prints is
    "{h}h {m}m" with [h] and [m] in decimal, and for a value that is not
    negative [h] hours and [m] minutes, [m] below 60, make up the value
    with less than a minute left over. *)
Theorem X20_worked_hours_agree (obj : Attendance) (k : group_key)
    (d : option Z) :
  let h := worked_seconds obj / 3600 in
  let m := (worked_seconds obj mod 3600) / 60 in
  worked_hours obj = (str_int h ++ "h " ++ str_int m ++ "m")%string
  /\ script_worked_hours obj = worked_hours obj
  /\ row_total_time (prepare_row (mkAggRow k (Some (worked_seconds obj)) d))
     = worked_hours obj
  /\ (0 <= worked_seconds obj ->
      0 <= h /\ 0 <= m < 60
      /\ 3600 * h + 60 * m <= worked_seconds obj < 3600 * h + 60 * m + 60).
Proof.
  cbv zeta.
  assert (H : worked_hours obj = script_worked_hours obj).
  { unfold worked_hours, script_worked_hours.
    destruct (Z.eqb_spec (worked_seconds obj) 0) as [->|_]; reflexivity. }
  split; [rewrite H; reflexivity|].
  split; [now symmetry|]. split; [rewrite H; reflexivity|].
  intros Hnn.
  pose proof (Z.div_mod (worked_seconds obj) 3600 ltac:(lia)) as H1.
  pose proof (Z.mod_pos_bound (worked_seconds obj) 3600 ltac:(lia)) as H2.
  pose proof (Z.div_mod (worked_seconds obj mod 3600) 60 ltac:(lia)) as H3.
  pose proof (Z.mod_pos_bound (worked_seconds obj mod 3600) 60 ltac:(lia))
    as H4.
  assert (0 <= worked_seconds obj / 3600) by (apply Z.div_pos; lia).
  assert (0 <= (worked_seconds obj mod 3600) / 60) by (apply Z.div_pos; lia).
  assert ((worked_seconds obj mod 3600) / 60 < 60)
    by (apply Z.div_lt_upper_bound; lia).
  lia.
Qed.

Lemma X20_worked_hours_witness :
  worked_hours (mkAttendance 1 1 19783 None None 30600) = "8h 30m"
  /\ script_worked_hours (mkAttendance 1 1 19783 None None 30600) = "8h 30m"
  /\ 3600 * 8 + 60 * 30 <= 30600 < 3600 * 8 + 60 * 30 + 60.
Proof.
  destruct (X20_worked_hours_agree (mkAttendance 1 1 19783 None None 30600)
              ("EMP1", "Asha", "IT") None) as (H1 & H2 & _ & H).
  split; [exact H1|]. split; [rewrite H2; exact H1|].
  exact (proj2 (proj2 (H ltac:(simpl; lia)))).
Defined.

(** ** The admin actions on employees *)

Lemma filter_pk_unique {A : Type} (pk : A -> Z) (rows : list A) (r : A) :
  pk_unique pk rows -> In r rows ->
  filter (fun x => pk x =? pk r) rows = [r].
Proof.
  unfold pk_unique. induction rows as [|x rows IH]; simpl; [intros _ []|].
  intros Hnd Hin. inversion Hnd as [|k ks Hk Hks]; subst.
  destruct Hin as [->|Hin].
  - rewrite Z.eqb_refl. f_equal. apply filter_none.
    intros y Hy. apply Z.eqb_neq. intros E. apply Hk. rewrite <- E.
    now apply in_map.
  - destruct (pk x =? pk r) eqn:E; [|now apply IH].
    exfalso. apply Z.eqb_eq in E. apply Hk. rewrite E. now apply in_map.
Qed.

Lemma insert_employee_desc_in (e x : Employee) (es : list Employee) :
  In e (insert_employee_desc x es) <-> e = x \/ In e es.
Proof.
  induction es as [|y es IH]; simpl.
  - intuition.
  - destruct (_ <=? _); simpl; [intuition|]. rewrite IH. intuition.
Qed.

Lemma selected_employees_in (pks : list Z) (db : DB) (e : Employee) :
  In e (selected_employees pks db)
  <-> In e (employees db) /\ In (emp_pk e) pks.
Proof.
  unfold selected_employees.
  transitivity (In e (filter (fun e => existsb (Z.eqb (emp_pk e)) pks)
                             (employees db))).
  - induction (filter _ (employees db)) as [|x l IH]; simpl; [reflexivity|].
    rewrite insert_employee_desc_in, IH. intuition.
  - rewrite filter_In, existsb_exists. split.
    + intros [H1 (k & Hk & E)]. apply Z.eqb_eq in E. subst. auto.
    + intros [H1 H2]. split; [exact H1|]. exists (emp_pk e).
      split; [exact H2 | apply Z.eqb_refl].
Qed.

Lemma linkedb_selected (pks : list Z) (db : DB) (u : User) :
  existsb (fun e => emp_user e =? user_id u) (selected_employees pks db)
  = linkedb pks db u.
Proof.
  unfold linkedb. apply eq_true_iff_eq. rewrite !existsb_exists. split.
  - intros (e & He & E). apply selected_employees_in in He.
    destruct He as [H1 H2]. exists e. split; [exact H1|].
    rewrite E, andb_true_r. apply existsb_exists. exists (emp_pk e).
    split; [exact H2 | apply Z.eqb_refl].
  - intros (e & He & E). apply andb_true_iff in E. destruct E as [E1 E2].
    exists e. split; [|exact E2]. apply selected_employees_in.
    split; [exact He|]. apply existsb_exists in E1.
    destruct E1 as (k & Hk & E). apply Z.eqb_eq in E. now subst.
Qed.

(** The loop over a list of employees whose users all exist. *)
Lemma set_users_active_spec (flag : bool) (emps : list Employee) :
  forall db,
    pk_unique user_id (users db) ->
    (forall e, In e emps ->
               exists u, In u (users db) /\ user_id u = emp_user e) ->
    set_users_active flag emps db
    = (set_users db
         (map (fun u => if existsb (fun e => emp_user e =? user_id u) emps
                        then with_is_active flag u else u)
              (users db)),
       Ok tt).
Proof.
  induction emps as [|e emps IH]; intros db Hpk Hex.
  - simpl. unfold ret. rewrite map_id. now destruct db.
  - cbn [set_users_active]. unfold bind, query.
    destruct (Hex e (or_introl eq_refl)) as (u0 & Hu0 & Hid).
    assert (Hget : get_unique (by_user_pk (emp_user e)) (users db) = Ok u0).
    { unfold get_unique, by_user_pk. rewrite <- Hid.
      now rewrite (filter_pk_unique user_id (users db) u0 Hpk Hu0). }
    rewrite Hget. unfold User_save.
    set (f := fun x => if user_id x =? emp_user e
                       then with_is_active flag x else x).
    assert (Hupd : update_row user_id (with_is_active flag u0) (users db)
                   = map f (users db)).
    { unfold update_row. apply map_ext_in. intros x Hx. unfold f. simpl.
      rewrite Hid. destruct (user_id x =? emp_user e) eqn:E; [|reflexivity].
      apply Z.eqb_eq in E. f_equal.
      apply (pk_unique_eq user_id (users db)); auto. congruence. }
    rewrite Hupd. rewrite IH.
    + cbn [set_users users]. f_equal. unfold set_users. cbn. f_equal.
      rewrite map_map. apply map_ext. intros x. unfold f. simpl.
      rewrite (Z.eqb_sym (emp_user e) (user_id x)).
      destruct (user_id x =? emp_user e) eqn:E; simpl.
      * destruct (existsb _ emps); reflexivity.
      * reflexivity.
    + unfold pk_unique. cbn [set_users users]. rewrite map_map.
      replace (map (fun x => user_id (f x)) (users db))
        with (map user_id (users db)); [exact Hpk|].
      apply map_ext. intros x. unfold f.
      destruct (user_id x =? emp_user e); reflexivity.
    + intros e' He'. destruct (Hex e' (or_intror He')) as (u' & Hu' & Hid').
      exists (f u'). cbn [set_users users]. split; [now apply in_map|].
      unfold f. destruct (user_id u' =? emp_user e); exact Hid'.
Qed.

(** X21: the admin action [deactivate_users] sets [is_active] to false
    for the users of the ticked employees and changes nothing else;
    [activate_users] on the same selection right after sets it to true
    for exactly the same users.  Both report the number of ticked
    employees. *)
Theorem X21_admin_activation_actions (pks : list Z) (db : DB) :
  pk_unique user_id (users db) -> fk_employee_user db ->
  let count := Z.of_nat (List.length (selected_employees pks db)) in
  let db1 := fst (deactivate_users pks db) in
  deactivate_users pks db
  = (set_users db (users_with_active false pks db), Ok count)
  /\ activate_users pks db1
     = (set_users db (users_with_active true pks db), Ok count)
  /\ (forall u, In u (users db) -> linkedb pks db u = true <->
        exists e, In e (employees db) /\ In (emp_pk e) pks
                  /\ emp_user e = user_id u).
Proof.
  intros Hpk Hfk count db1.
  assert (Hex : forall e, In e (selected_employees pks db) ->
                          exists u, In u (users db) /\ user_id u = emp_user e).
  { intros e He. apply selected_employees_in in He. now apply Hfk. }
  assert (H1 : deactivate_users pks db
               = (set_users db (users_with_active false pks db), Ok count)).
  { unfold deactivate_users.
    rewrite (set_users_active_spec false _ db Hpk Hex).
    unfold users_with_active, count.
    rewrite (map_ext _ _ (fun u => f_equal
               (fun b : bool => if b then with_is_active false u else u)
               (linkedb_selected pks db u))).
    reflexivity. }
  split; [exact H1|]. split.
  - unfold db1. rewrite H1. cbn [fst]. unfold activate_users.
    change (selected_employees pks
              (set_users db (users_with_active false pks db)))
      with (selected_employees pks db).
    rewrite set_users_active_spec.
    + assert (Hmap :
                map (fun u => if existsb (fun e => emp_user e =? user_id u)
                                         (selected_employees pks db)
                              then with_is_active true u else u)
                    (users (set_users db (users_with_active false pks db)))
                = users_with_active true pks db).
      { cbn [set_users users]. unfold users_with_active.
        rewrite map_map. apply map_ext. intros u.
        rewrite <- !linkedb_selected.
        destruct (existsb (fun e => emp_user e =? user_id u)
                          (selected_employees pks db)) eqn:E.
        - simpl. rewrite E. reflexivity.
        - rewrite E. reflexivity. }
      rewrite Hmap. reflexivity.
    + unfold pk_unique, users_with_active. cbn [set_users users].
      rewrite map_map.
      replace (map _ (users db)) with (map user_id (users db));
        [exact Hpk|].
      apply map_ext. intros u. destruct (linkedb pks db u); reflexivity.
    + intros e He. destruct (Hex e He) as (u & Hu & Hid).
      exists (if linkedb pks db u then with_is_active false u else u).
      cbn [set_users users]. unfold users_with_active. split.
      * apply in_map_iff. exists u. auto.
      * destruct (linkedb pks db u); exact Hid.
  - intros u Hu. unfold linkedb. rewrite existsb_exists. split.
    + intros (e & He & E). apply andb_true_iff in E. destruct E as [E1 E2].
      apply existsb_exists in E1. destruct E1 as (k & Hk & E).
      apply Z.eqb_eq in E, E2. subst k. eauto.
    + intros (e & He & Hk & Hl). exists e. split; [exact He|].
      apply andb_true_iff. split; [|now apply Z.eqb_eq].
      apply existsb_exists. exists (emp_pk e). split; [exact Hk|].
      apply Z.eqb_refl.
Qed.

Lemma X21_admin_activation_witness :
  map is_active (users (fst (deactivate_users [1; 2] sample_db)))
  = [true; false; false]
  /\ deactivate_users [1; 2] sample_db
     = (set_users sample_db (users_with_active false [1; 2] sample_db),
        Ok 2).
Proof.
  split; [reflexivity|].
  apply (X21_admin_activation_actions [1; 2] sample_db).
  - now apply (nodupb_sound Z.eqb Z.eqb_eq).
  - now apply fk_employee_userb_sound.
Defined.

(** ** The attendance summary of the query script *)

Lemma rate_bounds (p t : Z) :
  0 <= p <= t -> 1 <= t ->
  (0 <= inject_Z p / inject_Z t * inject_Z 100)%Q
  /\ (inject_Z p / inject_Z t * inject_Z 100 <= inject_Z 100)%Q.
Proof.
  intros Hp Ht. destruct t as [|tp|tn]; try lia.
  unfold Qdiv, Qmult, Qinv, Qle, inject_Z. simpl. split; nia.
Qed.

Lemma summary_key_eqb_refl (k : summary_key) : summary_key_eqb k k = true.
Proof. unfold summary_key_eqb. now rewrite !String.eqb_refl. Qed.

Lemma distinct_summary_keys_incl (k : summary_key) (ks : list summary_key) :
  In k (distinct_summary_keys ks) -> In k ks.
Proof.
  induction ks as [|k0 ks IH]; simpl; [auto|].
  rewrite filter_In. intros [H | [H _]]; auto.
Qed.

Lemma insert_stat_in (r x : SummaryStat) (rs : list SummaryStat) :
  In r (insert_stat x rs) <-> r = x \/ In r rs.
Proof.
  induction rs as [|y rs IH]; simpl.
  - intuition.
  - destruct (_ <=? _)%string; simpl; [intuition|]. rewrite IH. intuition.
Qed.

Lemma fold_insert_stat_in (r : SummaryStat) (rs : list SummaryStat) :
  In r (fold_right insert_stat [] rs) <-> In r rs.
Proof.
  induction rs as [|x rs IH]; simpl; [reflexivity|].
  rewrite insert_stat_in, IH. intuition.
Qed.

(** A group of the summary is never empty, and its present days are a
    count over the group. *)
Lemma summary_stats_in (stat : SummaryStat) (qs : list joined) :
  In stat (summary_stats qs) ->
  exists present,
    stat_present_days stat = Some present
    /\ 0 <= present <= stat_total_days stat
    /\ 1 <= stat_total_days stat.
Proof.
  unfold summary_stats. rewrite fold_insert_stat_in, in_map_iff.
  intros (k & <- & Hk). apply distinct_summary_keys_incl in Hk.
  apply in_map_iff in Hk. destruct Hk as (j & <- & Hj). simpl.
  set (grp := summary_group (summary_key_of j) qs).
  assert (Hin : In j grp).
  { unfold grp, summary_group. apply filter_In. split; [exact Hj|].
    apply summary_key_eqb_refl. }
  assert (Hne : grp <> []) by (intros E; rewrite E in Hin; destruct Hin).
  exists (Z.of_nat (List.length (filter (fun j' => has_clock_in (j_att j'))
                                        grp))).
  split.
  - rewrite sql_sum_nonempty, sum_present_flags; [reflexivity|].
    intros E. apply map_eq_nil in E. contradiction.
  - pose proof (filter_length_le (fun j' => has_clock_in (j_att j')) grp).
    destruct grp; [contradiction|]. simpl List.length in *. lia.
Qed.

Lemma summary_lines_good (stats : list SummaryStat) :
  (forall stat, In stat stats ->
     exists present,
       stat_present_days stat = Some present
       /\ 0 <= present <= stat_total_days stat
       /\ 1 <= stat_total_days stat) ->
  exists lines,
    summary_lines stats = inl lines
    /\ forall l, In l lines ->
         1 <= line_total_days l
         /\ 0 <= line_present_days l <= line_total_days l
         /\ line_attendance_rate l
            = Percent1f (Qmult (Qdiv (inject_Z (line_present_days l))
                                     (inject_Z (line_total_days l)))
                               (inject_Z 100)).
Proof.
  induction stats as [|stat stats IH]; intros H; simpl.
  - exists []. split; [reflexivity | intros l []].
  - destruct (H stat (or_introl eq_refl)) as (p & Hp & Hr & Ht).
    destruct (IH (fun s Hs => H s (or_intror Hs))) as (ls & -> & Hls).
    unfold summary_line, truediv. rewrite Hp.
    destruct (stat_total_days stat >? 0) eqn:E; [|lia].
    destruct (stat_total_days stat =? 0) eqn:E0; [lia|].
    eexists. split; [reflexivity|].
    intros l [<- | Hl]; [simpl; auto | now apply Hls].
Qed.

(** X22: the attendance summary never divides by zero and never meets
    a missing sum: every group it prints has at least one record, its
    present days are between 0 and its total days, and its attendance
    rate is [present_days / total_days * 100], between 0 and 100.  The
    only way it stops early is on the month or the date range. *)
Theorem X22_attendance_summary_rates (now : datetime) (db : DB) :
  match get_attendance_summary now db with
  | inl lines =>
      forall l, In l lines ->
        1 <= line_total_days l
        /\ 0 <= line_present_days l <= line_total_days l
        /\ exists q,
            line_attendance_rate l = Percent1f q
            /\ q = Qmult (Qdiv (inject_Z (line_present_days l))
                               (inject_Z (line_total_days l)))
                         (inject_Z 100)
            /\ (0 <= q)%Q /\ (q <= inject_Z 100)%Q
  | inr e =>
      e = ScriptRaised ValidationError \/ e = ScriptRaised IllegalMonthError
  end.
Proof.
  unfold get_attendance_summary.
  destruct (monthrange_days _ _) as [last_day|]; [|auto].
  destruct (month_range _ _ last_day) as [bounds|e] eqn:Hb.
  2:{ apply month_range_raises in Hb. subst e. auto. }
  destruct (summary_lines_good
              (summary_stats (join_all db (filter (in_range bounds)
                                                  (attendances db))))
              (fun stat Hs => summary_stats_in stat _ Hs))
    as (lines & -> & Hlines).
  intros l Hl. destruct (Hlines l Hl) as (H1 & H2 & H3).
  split; [exact H1|]. split; [exact H2|].
  eexists. split; [exact H3|]. split; [reflexivity|].
  now apply rate_bounds.
Qed.

Lemma X22_attendance_summary_witness :
  exists lines,
    get_attendance_summary (local_datetime 2024 3 20 12 0 0) sample_db
    = inl lines
    /\ map line_employee_id lines = ["EMP1"; "EMP2"]
    /\ map line_total_days lines = [1; 2]
    /\ forall l, In l lines -> 1 <= line_total_days l.
Proof.
  pose proof (X22_attendance_summary_rates
                (local_datetime 2024 3 20 12 0 0) sample_db) as H.
  destruct (get_attendance_summary (local_datetime 2024 3 20 12 0 0)
                                   sample_db) as [lines|e] eqn:E.
  - exists lines. split; [reflexivity|].
    vm_compute in E. injection E as <-.
    split; [reflexivity|]. split; [reflexivity|].
    intros l Hl. now apply H.
  - vm_compute in E. discriminate.
Defined.

(** ** References across the handlers *)

Lemma references_same_tables (db db' : DB) :
  map user_id (users db') = map user_id (users db) ->
  employees db' = employees db -> attendances db' = attendances db ->
  leaves db' = leaves db ->
  references_ok db -> references_ok db'.
Proof.
  intros Hu He Ha Hl (F1 & F2 & F3 & F4).
  assert (Huser : forall k, (exists u, In u (users db) /\ user_id u = k) ->
                            exists u, In u (users db') /\ user_id u = k).
  { intros k (u & Hin & Hk).
    assert (Hk' : In k (map user_id (users db')))
      by (rewrite Hu, <- Hk; now apply in_map).
    apply in_map_iff in Hk'. destruct Hk' as (u' & H1 & H2). eauto. }
  unfold references_ok, fk_employee_user, fk_attendance_employee,
    fk_leave_employee, fk_leave_approver. rewrite He, Ha, Hl.
  repeat split; auto.
  intros l k Hin Hk. apply Huser. eauto.
Qed.

Lemma Forall2_same_except_active_ids (us us' : list User) :
  Forall2 same_except_active us us' -> map user_id us' = map user_id us.
Proof.
  induction 1 as [|u u' l l' H _ IH]; simpl; [reflexivity|].
  destruct H as (H & _). now rewrite H, IH.
Qed.

(** X23: no handler leaves a dangling reference.  If every employee has
    its user, every attendance and leave row its employee and every
    approver its user, the same holds after a registration, after marking
    attendance, after a leave application, after a termination or
    activation, and after an approval or rejection by an existing
    user. *)
Theorem X23_handlers_keep_references (db : DB)
    (rreg : request (option RegisterData))
    (rmark : request (option MarkData)) (rleave : request LeavePost)
    (rtoggle : request string) :
  references_ok db ->
  references_ok (fst (register_employee rreg db))
  /\ (attendance_table_ok db ->
      references_ok (fst (mark_attendance rmark db)))
  /\ references_ok (fst (apply_leave rleave db))
  /\ references_ok (fst (terminate_employee rtoggle db))
  /\ references_ok (fst (activate_employee rtoggle db))
  /\ (forall st,
        (exists u, In u (users db) /\ user_id u = step_user st) ->
        references_ok (run_step st db)).
Proof.
  intros Hok. pose proof Hok as (F1 & F2 & F3 & F4).
  split; [|split; [|split; [|split; [|split]]]].
  - unfold register_employee, atomic.
    destruct (req_method rreg); [exact Hok|].
    destruct (req_data rreg) as [data|]; [|exact Hok].
    destruct (register_body (req_now rreg) data db) as [db' [[emp user]|e]]
      eqn:Hbody; [|exact Hok].
    simpl.
    destruct (register_body_ok _ _ _ _ _ _ Hbody)
      as (H1 & H2 & H3 & H4 & _ & _ & _ & _ & _ & _ & _ & _ & _ & H14 & _).
    unfold references_ok, fk_employee_user, fk_attendance_employee,
      fk_leave_employee, fk_leave_approver. rewrite H1, H2, H3, H4.
    split; [|split; [|split]].
    + intros e He. apply in_app_or in He. destruct He as [He | [<-|[]]].
      * destruct (F1 e He) as (u & Hu & Hid). exists u.
        split; [apply in_or_app; now left | exact Hid].
      * exists user. split; [apply in_or_app; right; now left | now symmetry].
    + intros a Ha. destruct (F2 a Ha) as (e & He & Hid). exists e.
      split; [apply in_or_app; now left | exact Hid].
    + intros l Hl. destruct (F3 l Hl) as (e & He & Hid). exists e.
      split; [apply in_or_app; now left | exact Hid].
    + intros l k Hl Hk. destruct (F4 l k Hl Hk) as (u & Hu & Hid). exists u.
      split; [apply in_or_app; now left | exact Hid].
  - intros Htab.
    destruct (req_method rmark) eqn:Hm;
      [unfold mark_attendance; now rewrite Hm|].
    destruct (req_data rmark) as [data|] eqn:Hd;
      [|unfold mark_attendance; now rewrite Hm, Hd].
    destruct (get_unique (by_employee_id (mark_employee_id data))
                         (employees db)) as [emp|e] eqn:Hemp.
    2:{ unfold mark_attendance. rewrite Hm, Hd, Hemp. now destruct e. }
    destruct (mark_attendance_cases rmark data db emp Htab Hm Hd Hemp)
      as [[_ ->] | (_ & a0 & a' & H)]; [exact Hok|].
    cbv zeta in H. destruct H as (_ & Hf & Hoth & _ & Hu & He & Hl & _).
    set (db' := fst (mark_attendance rmark db)) in *.
    set (d := local_date (instant (timestamp_or_now data (req_now rmark))))
      in *.
    unfold references_ok, fk_employee_user, fk_attendance_employee,
      fk_leave_employee, fk_leave_approver. rewrite Hu, He, Hl.
    split; [exact F1|]. split; [|split; [exact F3 | exact F4]].
    intros a Ha. destruct (att_key (emp_pk emp) d a) eqn:Hk.
    + apply att_key_true in Hk. destruct Hk as [Hk _]. exists emp.
      split; [apply (get_unique_in _ _ _ Hemp) | now symmetry].
    + apply F2.
      assert (Hin : In a (other_records (emp_pk emp) d (attendances db'))).
      { unfold other_records. apply filter_In. rewrite Hk. auto. }
      rewrite Hoth in Hin. apply filter_In in Hin. apply Hin.
  - destruct (apply_leave rleave db) as [db' o] eqn:Happly.
    destruct o as [| |e|l];
      try (unfold apply_leave in Happly;
           destruct (request_user db rleave); [|injection Happly as <-; exact Hok];
           destruct (req_method rleave); [injection Happly as <-; exact Hok|];
           destruct (LeaveApplyForm_instance (req_data rleave));
             [|injection Happly as <-; exact Hok];
           destruct (user_employee db u);
             [discriminate | injection Happly as <-; exact Hok]).
    destruct (apply_leave_submitted rleave db db' l Happly)
      as (viewer & emp & Hv & Hown & Hle & Hleaves & Husers & Hemps & Hatts).
    simpl. unfold references_ok, fk_employee_user, fk_attendance_employee,
      fk_leave_employee, fk_leave_approver.
    rewrite Hleaves, Husers, Hemps, Hatts.
    split; [exact F1|]. split; [exact F2|]. split.
    + intros x Hx. apply in_app_or in Hx. destruct Hx as [Hx | [<-|[]]].
      * now apply F3.
      * exists emp. split; [apply (get_unique_in _ _ _ Hown) | now symmetry].
    + intros x k Hx Hk. apply in_app_or in Hx. destruct Hx as [Hx | [<-|[]]].
      * now apply (F4 x k).
      * unfold apply_leave in Happly. rewrite Hv in Happly.
        destruct (req_method rleave); [discriminate|].
        destruct (LeaveApplyForm_instance (req_data rleave)) as [mk|]
          eqn:Hform; [|discriminate].
        apply LeaveApplyForm_instance_some in Hform.
        destruct Hform as (s0 & e0 & _ & _ & _ & ->).
        rewrite Hown in Happly. unfold Leave_insert in Happly.
        injection Happly as _ <-. discriminate.
  - destruct (set_employee_active_frame false rtoggle db)
      as (He & Ha & Hl & Hu & _).
    apply (references_same_tables db); auto.
    now apply Forall2_same_except_active_ids.
  - destruct (set_employee_active_frame true rtoggle db)
      as (He & Ha & Hl & Hu & _).
    apply (references_same_tables db); auto.
    now apply Forall2_same_except_active_ids.
  - intros st Hex.
    unfold references_ok, fk_employee_user, fk_attendance_employee,
      fk_leave_employee, fk_leave_approver.
    assert (Hshape : users (run_step st db) = users db
                     /\ employees (run_step st db) = employees db
                     /\ attendances (run_step st db) = attendances db
                     /\ leaves (run_step st db)
                        = map (fun l => if selected (step_selection st) l
                                        then decide_leave
                                               (target_status (step_action st))
                                               (step_now st) (step_user st) l
                                        else l) (leaves db)).
    { unfold run_step, approve_leaves, reject_leaves, queryset_update.
      destruct (step_action st); simpl; auto. }
    destruct Hshape as (-> & -> & -> & ->).
    split; [exact F1|]. split; [exact F2|]. split.
    + intros l Hl. apply in_map_iff in Hl. destruct Hl as (l0 & <- & Hl0).
      destruct (F3 l0 Hl0) as (e & He & Hid). exists e. split; [exact He|].
      destruct (selected _ l0); exact Hid.
    + intros l k Hl Hk. apply in_map_iff in Hl.
      destruct Hl as (l0 & <- & Hl0).
      destruct (selected _ l0); [|now apply (F4 l0 k)].
      simpl in Hk. injection Hk as <-. exact Hex.
Qed.

Lemma X23_handlers_witness :
  references_ok
    (fst (mark_attendance
            (mark_request None 0 "EMP2" IN
               (mkAware (local_datetime 2024 3 6 9 0 0) CurrentTimezone))
            sample_db_leaves)).
Proof.
  apply (X23_handlers_keep_references sample_db_leaves
           (mkRequest GET None None 0)
           (mark_request None 0 "EMP2" IN
              (mkAware (local_datetime 2024 3 6 9 0 0) CurrentTimezone))
           (mkRequest GET None (mkLeavePost None None "" []) 0)
           (mkRequest GET None "" 0)
           (references_okb_sound sample_db_leaves eq_refl)).
  now apply attendance_table_okb_sound.
Defined.

(** X24: once [terminate_employee] has succeeded for an employee, a
    request that carries the session of that employee's user is treated
    as anonymous: applying for leave, listing leaves and asking for the
    monthly report all answer with the login redirect, and the
    application writes nothing. *)
Theorem X24_terminated_user_is_locked_out (req : request string)
    (db db' : DB) (emp : Employee) :
  terminate_employee req db = (db', Toggled emp) ->
  forall (m : http_method) (now : datetime) (post : LeavePost)
         (query : ReportQuery),
    apply_leave (mkRequest m (Some (emp_user emp)) post now) db'
    = (db', LeaveLoginRequired)
    /\ leave_list (mkRequest m (Some (emp_user emp)) tt now) db'
       = LeaveListLoginRequired
    /\ monthly_report (mkRequest m (Some (emp_user emp)) query now) db'
       = ReportLoginRequired.
Proof.
  intros H m now post query.
  destruct (set_employee_active_inv false req db db' emp H)
    as (u & _ & _ & _ & _ & Hfind).
  assert (Hanon : forall (P : Type) (r : request P),
             req_session r = Some (emp_user emp) ->
             request_user db' r = None).
  { intros P r Hs. unfold request_user. rewrite Hs, Hfind. reflexivity. }
  unfold apply_leave, leave_list, monthly_report.
  rewrite !Hanon by reflexivity. auto.
Qed.

Lemma X24_terminated_user_witness :
  leave_list (mkRequest GET (Some 3) tt 0)
             (fst (terminate_employee (mkRequest POST (Some 1) "EMP1" 0)
                                      sample_db))
  = LeaveListLoginRequired.
Proof.
  exact (proj1 (proj2
    (X24_terminated_user_is_locked_out
       (mkRequest POST (Some 1) "EMP1" 0) sample_db
       (fst (terminate_employee (mkRequest POST (Some 1) "EMP1" 0) sample_db))
       (mkEmployee 2 3 "EMP1" "HR" "Recruiter" 19000) eq_refl
       GET 0 (mkLeavePost None None "" [])
       (mkReportQuery None None "" None)))).
Defined.
